(** * The discovery-call lead intake handler, and its specification

    A shallow embedding of [src/api/hubspot/discovery-call.ts] (three
    revisions of the Vercel handler kept in one file) and of the Astro
    route of [src/unnamed/part_000], followed by the properties the
    specification states about them.

    Console output is not part of the model: no property reads it.  Only
    the conversion of a value that a logged template literal interpolates
    is kept, because it can throw. *)

From Stdlib Require Import List NArith Ascii String Bool Lia.
From Stdlib Require DecimalString.
Import ListNotations.
Local Open Scope N_scope.
Set Warnings "-register-all".

(* ================================================================== *)
(** * JavaScript strings and values *)

Module JS.

(** A string is a sequence of UTF-16 code units. *)
Definition jstring := list N.

Definition js (s : string) : jstring :=
  List.map N_of_ascii (list_ascii_of_string s).
Arguments js : simpl never.

Fixpoint jstring_eqb (a b : jstring) : bool :=
  match a, b with
  | [], [] => true
  | x :: a', y :: b' => (x =? y) && jstring_eqb a' b'
  | _, _ => false
  end.

(** The double quote, which a literal cannot hold. *)
Definition dq : jstring := [34].
Definition quoted (s : jstring) : jstring := dq ++ s ++ dq.
Definition crlf : jstring := [13; 10].

(** Decimal rendering of a non-negative integer, as [String(n)] gives. *)
Definition decimal (n : N) : jstring :=
  js (DecimalString.NilZero.string_of_uint (N.to_uint n)).

(** JSON values as [JSON.parse] yields them, with [undefined] for a missing
    property and [VFile] for the [File] entries of a multipart form.  A
    number is kept as the text [String(n)] gives for it, which is all the
    handlers observe of a number. *)
Inductive value : Type :=
  | VUndefined
  | VNull
  | VBool (b : bool)
  | VNum (text : jstring)
  | VStr (s : jstring)
  | VArr (elems : list value)
  | VObj (props : list (jstring * value))
  | VFile (name : jstring).

Definition truthy (v : value) : bool :=
  match v with
  | VUndefined | VNull => false
  | VBool b => b
  | VNum t => negb (jstring_eqb t (js "0") || jstring_eqb t (js "NaN"))
  | VStr s => match s with [] => false | _ => true end
  | VArr _ | VObj _ | VFile _ => true
  end.

(** [a || b] *)
Definition or_else (a b : value) : value := if truthy a then a else b.

(** [Array.prototype.join] on strings. *)
Fixpoint join (sep : jstring) (parts : list jstring) : jstring :=
  match parts with
  | [] => []
  | [p] => p
  | p :: rest => p ++ sep ++ join sep rest
  end.

(** [String.prototype.split] with a separator of one code unit. *)
Fixpoint split (sep : N) (s : jstring) : list jstring :=
  match s with
  | [] => [[]]
  | c :: s' =>
      if c =? sep then [] :: split sep s'
      else match split sep s' with
           | p :: ps => (c :: p) :: ps
           | [] => [[c]]
           end
  end.

(** White space and line terminators, the code units [trim] strips. *)
Definition is_space (c : N) : bool :=
  ((9 <=? c) && (c <=? 13)) || (c =? 32) || (c =? 160) || (c =? 5760)
  || ((8192 <=? c) && (c <=? 8202)) || (c =? 8232) || (c =? 8233)
  || (c =? 8239) || (c =? 8287) || (c =? 12288) || (c =? 65279).

Fixpoint trim_start (s : jstring) : jstring :=
  match s with
  | c :: s' => if is_space c then trim_start s' else s
  | [] => []
  end.

Definition trim_end (s : jstring) : jstring :=
  List.rev (trim_start (List.rev s)).

Definition trim (s : jstring) : jstring := trim_end (trim_start s).

(** Property lookup in an object literal or a parsed object. *)
Fixpoint lookup (k : jstring) (props : list (jstring * value)) : value :=
  match props with
  | [] => VUndefined
  | (k', v) :: rest => if jstring_eqb k k' then v else lookup k rest
  end.

Fixpoint has_key (k : jstring) (props : list (jstring * value)) : bool :=
  match props with
  | [] => false
  | (k', _) :: rest => jstring_eqb k k' || has_key k rest
  end.

(** The texts of a list when every one of them is there. *)
Fixpoint all_some {A : Type} (l : list (option A)) : option (list A) :=
  match l with
  | [] => Some []
  | Some a :: rest =>
      match all_some rest with
      | Some rest' => Some (a :: rest')
      | None => None
      end
  | None :: _ => None
  end.

(** [String(v)], as template literals and [join] apply it; [None] when the
    conversion throws a [TypeError].  A parsed object that has a property
    of its own named [toString] has no primitive value: what JSON gives for
    that property is never a function, and [valueOf] gives the object
    back.  An array is converted with [join(',')], so it has a text when
    each of its elements has one. *)
Fixpoint ToString (v : value) : option jstring :=
  match v with
  | VUndefined => Some (js "undefined")
  | VNull => Some (js "null")
  | VBool true => Some (js "true")
  | VBool false => Some (js "false")
  | VNum t => Some t
  | VStr s => Some s
  | VArr vs =>
      option_map (join (js ","))
        (all_some (List.map (fun x => match x with
                                      | VUndefined | VNull => Some []
                                      | _ => ToString x
                                      end) vs))
  | VObj props =>
      if has_key (js "toString") props then None else Some (js "[object Object]")
  | VFile _ => Some (js "[object File]")
  end.

(** The text [join] gives an element: empty for [undefined] and [null]. *)
Definition element_text (x : value) : option jstring :=
  match x with
  | VUndefined | VNull => Some []
  | _ => ToString x
  end.

(** [Array.prototype.join] on arbitrary elements; [None] when converting an
    element throws. *)
Definition array_join (sep : jstring) (vs : list value) : option jstring :=
  option_map (join sep) (all_some (List.map element_text vs)).

Definition isArray (v : value) : bool :=
  match v with VArr _ => true | _ => false end.

(** What [JSON.stringify] keeps of a value: a property whose value is
    [undefined] is dropped, an [undefined] array element becomes [null], a
    number that is not finite is written [null], a [File] has no
    enumerable property.  The text itself is not modelled: a request body
    is kept as the tree its text parses to. *)
Definition keep_defined (f : value -> value)
  : list (jstring * value) -> list (jstring * value) :=
  fix go (l : list (jstring * value)) : list (jstring * value) :=
    match l with
    | [] => []
    | (k, VUndefined) :: rest => go rest
    | (k, x) :: rest => (k, f x) :: go rest
    end.

Fixpoint JSON_stringify (v : value) : value :=
  match v with
  | VObj props => VObj (keep_defined JSON_stringify props)
  | VArr vs =>
      VArr (List.map (fun x => match x with
                               | VUndefined => VNull
                               | _ => JSON_stringify x
                               end) vs)
  | VFile _ => VObj []
  | VNum t =>
      if jstring_eqb t (js "Infinity") || jstring_eqb t (js "-Infinity")
         || jstring_eqb t (js "NaN")
      then VNull else VNum t
  | other => other
  end.

(** [o.k] on a JSON tree: the property of an object, [undefined] elsewhere. *)
Definition field (k : jstring) (v : value) : value :=
  match v with
  | VObj props => lookup k props
  | _ => VUndefined
  end.

End JS.

(* ================================================================== *)
(** * Node buffers *)

Module Buffer.
Import JS.

(** A buffer is a sequence of bytes. *)
Definition buffer := list N.

(** [Buffer.from(s, 'utf-8')]: surrogate pairs are combined, a lone
    surrogate is encoded as U+FFFD. *)
Fixpoint utf8 (s : jstring) : buffer :=
  match s with
  | [] => []
  | c :: s' =>
      if c <? 128 then c :: utf8 s'
      else if c <? 2048 then (192 + c / 64) :: (128 + c mod 64) :: utf8 s'
      else if (55296 <=? c) && (c <? 56320) then
        match s' with
        | d :: s'' =>
            if (56320 <=? d) && (d <? 57344) then
              let cp := 65536 + (c - 55296) * 1024 + (d - 56320) in
              (240 + cp / 262144) :: (128 + (cp / 4096) mod 64)
                :: (128 + (cp / 64) mod 64) :: (128 + cp mod 64) :: utf8 s''
            else 239 :: 191 :: 189 :: utf8 s'
        | [] => [239; 191; 189]
        end
      else if (56320 <=? c) && (c <? 57344) then 239 :: 191 :: 189 :: utf8 s'
      else (224 + c / 4096) :: (128 + (c / 64) mod 64) :: (128 + c mod 64)
             :: utf8 s'
  end.

(** The value of a base64 digit, in the standard or the URL-safe alphabet. *)
Definition unbase64 (c : N) : option N :=
  if (65 <=? c) && (c <=? 90) then Some (c - 65)
  else if (97 <=? c) && (c <=? 122) then Some (c - 71)
  else if (48 <=? c) && (c <=? 57) then Some (c + 4)
  else if (c =? 43) || (c =? 45) then Some 62
  else if (c =? 47) || (c =? 95) then Some 63
  else None.

(** Node decodes base64 leniently, and reads only the low byte of each code
    unit: a byte outside the alphabet is skipped and decoding stops at the
    first [=]; no input is refused. *)
Fixpoint sextets (s : jstring) : list N :=
  match s with
  | [] => []
  | c :: s' =>
      let b := c mod 256 in
      if b =? 61 then []
      else match unbase64 b with
           | Some v => v :: sextets s'
           | None => sextets s'
           end
  end.

Fixpoint bytes_of_sextets (l : list N) : buffer :=
  match l with
  | a :: b :: c :: d :: rest =>
      (a * 4 + b / 16) :: ((b mod 16) * 16 + c / 4) :: ((c mod 4) * 64 + d)
        :: bytes_of_sextets rest
  | [a; b; c] => [a * 4 + b / 16; (b mod 16) * 16 + c / 4]
  | [a; b] => [a * 4 + b / 16]
  | _ => []
  end.

(** [Buffer.from(s, 'base64')] on a string. *)
Definition from_base64 (s : jstring) : buffer := bytes_of_sextets (sextets s).

End Buffer.

(* ================================================================== *)
(** * The world the handlers run in *)

Module Env.
Import JS.

Inductive Body : Type :=
  | JsonBody (tree : value)        (* [JSON.stringify(tree)] *)
  | BufferBody (bytes : Buffer.buffer).

(** One [fetch(url, {method, headers, body})]. *)
Record Call : Type := {
  url : jstring;
  method : jstring;
  headers : list (jstring * jstring);
  body : Body
}.

(** What [fetch] resolves to.  [json_body] is what [.json()] yields, [None]
    when it rejects; [text_body] likewise for [.text()]. *)
Record Response : Type := {
  status : N;
  statusText : jstring;
  text_body : option jstring;
  json_body : option value
}.

Inductive FetchResult : Type :=
  | Rejected
  | Responded (r : Response).

(** What a handler does to the outside, in the order it does it. *)
Inductive Event : Type :=
  | Fetched (c : Call)
  | ClockRead                      (* [Date.now()] *)
  | RandomDrawn                    (* [Math.random()] *)
  | Waited (ms : N).               (* [setTimeout(resolve, ms)] awaited *)

(** The outside answers from what has happened so far. *)
Record World : Type := {
  respond : list Event -> Call -> FetchResult;
  clock : list Event -> N;
  random36 : list Event -> jstring   (* [Math.random().toString(36)] *)
}.

(** [response.ok] *)
Definition ok (r : Response) : bool := (200 <=? status r) && (status r <=? 299).

Inductive exn : Type :=
  | TypeError
  | SyntaxError
  | Error (msg : jstring).

Inductive Outcome (A : Type) : Type :=
  | Returned (a : A)
  | Thrown (e : exn).
Arguments Returned {A} a.
Arguments Thrown {A} e.

(** A computation reads and extends the trace of events and returns or
    throws. *)
Definition M (A : Type) : Type := list Event -> Outcome A * list Event.

Definition ret {A} (a : A) : M A := fun tr => (Returned a, tr).

Definition throw {A} (e : exn) : M A := fun tr => (Thrown e, tr).

Definition bind {A B} (m : M A) (k : A -> M B) : M B :=
  fun tr =>
    match m tr with
    | (Returned a, tr') => k a tr'
    | (Thrown e, tr') => (Thrown e, tr')
    end.

(** [try { m } catch (error) { h error }] *)
Definition try_catch {A} (m : M A) (h : exn -> M A) : M A :=
  fun tr =>
    match m tr with
    | (Returned a, tr') => (Returned a, tr')
    | (Thrown e, tr') => h e tr'
    end.

Declare Scope js_scope.
Delimit Scope js_scope with js.
Notation "x <- m ;; k" := (bind m (fun x => k))
  (at level 61, m at next level, right associativity) : js_scope.
Notation "m ;;; k" := (bind m (fun _ => k))
  (at level 61, right associativity) : js_scope.

Section Effects.
Variable w : World.

Definition fetch (c : Call) : M Response :=
    fun tr =>
      match respond w tr c with
      | Rejected => (Thrown TypeError, tr ++ [Fetched c])
      | Responded r => (Returned r, tr ++ [Fetched c])
      end.

Definition Date_now : M N := fun tr => (Returned (clock w tr), tr ++ [ClockRead]).

Definition Math_random_36 : M jstring :=
    fun tr => (Returned (random36 w tr), tr ++ [RandomDrawn]).

Definition sleep (ms : N) : M unit := fun tr => (Returned tt, tr ++ [Waited ms]).
End Effects.

(** [await response.json()] *)
Definition json (r : Response) : M value :=
  match json_body r with
  | Some v => ret v
  | None => throw SyntaxError
  end.

(** [await response.text()] *)
Definition text (r : Response) : M jstring :=
  match text_body r with
  | Some s => ret s
  | None => throw TypeError
  end.

(** [o.k], which throws on [undefined] and [null]. *)
Definition get (o : value) (k : jstring) : M value :=
  match o with
  | VUndefined | VNull => throw TypeError
  | _ => ret (field k o)
  end.

(** [v.trim()]: only a string has the method. *)
Definition call_trim (v : value) : M jstring :=
  match v with
  | VStr s => ret (trim s)
  | _ => throw TypeError
  end.

(** A step without effect that throws a [TypeError] when it has no result. *)
Definition attempt {A} (o : option A) : M A :=
  match o with
  | Some a => ret a
  | None => throw TypeError
  end.

(** [`${v}`]: the value interpolated into a template literal. *)
Definition to_string (v : value) : M jstring := attempt (ToString v).

(** [console.log(`... ${v} ...`)]: the text is not kept, the conversion of
    [v] is. *)
Definition log_template (v : value) : M unit :=
  bind (to_string v) (fun _ => ret tt).

(** [parts[i]] on an array of strings. *)
Definition index (parts : list jstring) (i : nat) : value :=
  match nth_error parts i with
  | Some s => VStr s
  | None => VUndefined
  end.

(** What a handler answers: [res.status(code).json(payload)]. *)
Record Reply : Type := {
  reply_status : N;
  reply_json : value
}.

Definition send (code : N) (payload : value) : Reply :=
  {| reply_status := code; reply_json := JSON_stringify payload |}.

End Env.

(* ================================================================== *)
(** * What the revisions of the handler share *)

Module Hubspot.
Import JS Env.
Local Open Scope js_scope.

Definition HUBSPOT_API_URL : jstring := js "https://api.hubapi.com".

(** [req] of a Vercel function: the method and the parsed body. *)
Record Request : Type := {
  req_method : jstring;
  req_body : value
}.

(** The locals a handler extracts from the form. *)
Record Fields : Type := {
  firstname : value;
  lastname : value;
  email : value;
  phone : value;
  company : value;
  jobtitle : value;
  serviceType : value;
  studentCount : value;
  budgetRange : value;
  ageGroup : value;
  additionalInfo : value;
  planningStage : value
}.

Definition is_digit (c : N) : bool := (48 <=? c) && (c <=? 57).

Fixpoint digits_prefix (s : jstring) : jstring :=
  match s with
  | c :: s' => if is_digit c then c :: digits_prefix s' else []
  | [] => []
  end.

Fixpoint strip_prefix (p s : jstring) : option jstring :=
  match p, s with
  | [], _ => Some s
  | a :: p', b :: s' => if a =? b then strip_prefix p' s' else None
  | _ :: _, [] => None
  end.

(** Does [/Existing ID: (\d+)/] match at the start of [s]?  The group. *)
Definition existing_id_here (s : jstring) : option jstring :=
  match strip_prefix (js "Existing ID: ") s with
  | Some rest =>
      match digits_prefix rest with
      | [] => None
      | d => Some d
      end
  | None => None
  end.

(** [s.match(/Existing ID: (\d+)/)?.[1]]: group 1 of the leftmost match. *)
Fixpoint match_existing_id (s : jstring) : value :=
  match existing_id_here s with
  | Some d => VStr d
  | None =>
      match s with
      | [] => VUndefined
      | _ :: s' => match_existing_id s'
      end
  end.

(** [message.match(...)?.[1]]: only a string has the method. *)
Definition call_match (message : value) : M value :=
  match message with
  | VStr s => ret (match_existing_id s)
  | _ => throw TypeError
  end.

(** Lines 131-133: [Array.isArray(phase) ? phase.join(';') : phase || ''];
    [None] when [join] throws. *)
Definition join_phase (phase : value) : option value :=
  match phase with
  | VArr vs => option_map VStr (array_join (js ";") vs)
  | _ => Some (or_else phase (VStr []))
  end.

(** Lines 114-133 of [discovery-call.ts], the same in its three revisions. *)
Definition read_form (formData : value) : M Fields :=
  contactName <- get formData (js "contactName") ;;
  let fullName := or_else contactName (VStr []) in
  trimmed <- call_trim fullName ;;
  let nameParts := split 32 trimmed in
  let firstname := or_else (index nameParts 0) (VStr []) in
  let lastname := or_else (VStr (join (js " ") (tl nameParts))) (VStr []) in
  email <- get formData (js "email") ;;
  phone <- get formData (js "phone") ;;
  company <- get formData (js "serviceName") ;;
  jobtitle <- get formData (js "position") ;;
  serviceType <- get formData (js "serviceType") ;;
  studentCount <- get formData (js "studentCount") ;;
  budgetRange <- get formData (js "indicativeBudget") ;;
  ageGroup <- get formData (js "ageGroup") ;;
  additionalInfo <- get formData (js "additional-info") ;;
  phase <- get formData (js "phase[]") ;;
  planningStage <- attempt (join_phase phase) ;;
  ret {| firstname := firstname; lastname := lastname; email := email;
         phone := phone; company := company; jobtitle := jobtitle;
         serviceType := serviceType; studentCount := studentCount;
         budgetRange := budgetRange; ageGroup := ageGroup;
         additionalInfo := additionalInfo; planningStage := planningStage |}.

(** The custom properties, each defaulted with [|| '']. *)
Definition customProperties (f : Fields) : list (jstring * value) :=
  [ (js "wearthy_service_type", or_else (serviceType f) (VStr []));
    (js "wearthy_student_count", or_else (studentCount f) (VStr []));
    (js "wearthy_budget_range", or_else (budgetRange f) (VStr []));
    (js "wearthy_age_group", or_else (ageGroup f) (VStr []));
    (js "wearthy_planning_stage", or_else (planningStage f) (VStr []));
    (js "message", or_else (additionalInfo f) (VStr []));
    (js "wearthy_discovery_call_requested", VStr (js "true")) ].

Definition basicProperties (f : Fields) : list (jstring * value) :=
  [ (js "email", email f);
    (js "firstname", firstname f);
    (js "lastname", lastname f);
    (js "phone", phone f);
    (js "company", company f);
    (js "jobtitle", jobtitle f) ].

(** The single payload of the first and third revisions and of the Astro
    route. *)
Definition contactPayload (f : Fields) : value :=
  VObj [ (js "properties", VObj (basicProperties f ++ customProperties f)) ].

Definition success_reply (contactId : value) : Reply :=
  send 200
    (VObj [ (js "success", VBool true);
            (js "contactId", contactId);
            (js "message",
             VStr (js "Thank you! Please select a time below to speak with Flora.")) ]).

Definition failure_reply : Reply :=
  send 500
    (VObj [ (js "success", VBool false);
            (js "message",
             VStr (js "An error occurred. Please try again or contact us directly.")) ]).

Definition method_not_allowed : Reply :=
  send 405
    (VObj [ (js "success", VBool false);
            (js "message", VStr (js "Method not allowed")) ]).

(** [`discovery-call-photo-${Date.now()}-${i}.jpg`] *)
Definition photo_file_name (now i : N) : jstring :=
  js "discovery-call-photo-" ++ decimal now ++ js "-" ++ decimal i ++ js ".jpg".

Section WithWorld.
  (** [process.env.HUBSPOT_API_KEY], [None] when the variable is not set. *)
Variable HUBSPOT_API_KEY : option jstring.
Variable w : World.

  (** [`Bearer ${HUBSPOT_API_KEY}`] *)
Definition bearer : jstring :=
    js "Bearer " ++ match HUBSPOT_API_KEY with
                    | Some k => k
                    | None => js "undefined"
                    end.

Definition json_headers : list (jstring * jstring) :=
    [ (js "Authorization", bearer);
      (js "Content-Type", js "application/json") ].

  (** The parts pushed to [formDataParts] (lines 18-34), concatenated. *)
Definition multipart_body (boundary fileName : jstring) (buffer : Buffer.buffer)
    : Buffer.buffer :=
    Buffer.utf8 (js "--" ++ boundary ++ crlf)
    ++ Buffer.utf8 (js "Content-Disposition: form-data; name=" ++ quoted (js "file")
                    ++ js "; filename=" ++ quoted fileName ++ crlf)
    ++ Buffer.utf8 (js "Content-Type: image/jpeg" ++ crlf ++ crlf)
    ++ buffer
    ++ Buffer.utf8 crlf
    ++ Buffer.utf8 (js "--" ++ boundary ++ crlf)
    ++ Buffer.utf8 (js "Content-Disposition: form-data; name=" ++ quoted (js "options")
                    ++ crlf ++ crlf)
    ++ Buffer.utf8 (js "{" ++ quoted (js "access") ++ js ":" ++ quoted (js "PRIVATE")
                    ++ js "}")
    ++ Buffer.utf8 crlf
    ++ Buffer.utf8 (js "--" ++ boundary ++ crlf)
    ++ Buffer.utf8 (js "Content-Disposition: form-data; name=" ++ quoted (js "folderPath")
                    ++ crlf ++ crlf)
    ++ Buffer.utf8 (js "/discovery-call-photos")
    ++ Buffer.utf8 (crlf ++ js "--" ++ boundary ++ js "--" ++ crlf).

Definition upload_call (boundary fileName : jstring) (buffer : Buffer.buffer) : Call :=
    {| url := HUBSPOT_API_URL ++ js "/files/v3/files";
       method := js "POST";
       headers := [ (js "Authorization", bearer);
                    (js "Content-Type", js "multipart/form-data; boundary=" ++ boundary) ];
       body := BufferBody (multipart_body boundary fileName buffer) |}.

  (** Lines 7-63 and 234-290. *)
Definition uploadFileToHubSpot (fileData : value) (fileName : jstring) : M value :=
    try_catch
      ( parts <- match fileData with
                 | VStr s => ret (split 44 s)
                 | _ => throw TypeError
                 end ;;
        buffer <- match index parts 1 with
                  | VStr base64Data => ret (Buffer.from_base64 base64Data)
                  | _ => throw TypeError
                  end ;;
        r <- Math_random_36 w ;;
        let boundary := js "----WebKitFormBoundary" ++ r in
        uploadResponse <- fetch w (upload_call boundary fileName buffer) ;;
        if negb (ok uploadResponse) then
          errorText <- text uploadResponse ;;
          ret VNull
        else
          result <- json uploadResponse ;;
          get result (js "id") )
      (fun _ => ret VNull).

  (** [attachments] is [fileIds.join(';')]. *)
Definition notePayload (contactId : value) (attachments : jstring) : value :=
    VObj [ (js "properties",
            VObj [ (js "hs_note_body",
                    VStr (js "Discovery call photos submitted via website form"));
                   (js "hs_attachment_ids", VStr attachments) ]);
           (js "associations",
            VArr [ VObj [ (js "to", VObj [ (js "id", contactId) ]);
                          (js "types",
                           VArr [ VObj [ (js "associationCategory",
                                          VStr (js "HUBSPOT_DEFINED"));
                                         (js "associationTypeId", VNum (js "202")) ] ]) ] ]) ].

Definition note_call (contactId : value) (attachments : jstring) : Call :=
    {| url := HUBSPOT_API_URL ++ js "/crm/v3/objects/notes";
       method := js "POST";
       headers := json_headers;
       body := JsonBody (JSON_stringify (notePayload contactId attachments)) |}.

  (** Lines 66-102 and 293-329. *)
Definition createNoteWithAttachments (contactId : value) (fileIds : list value)
    : M unit :=
    try_catch
      ( attachments <- attempt (array_join (js ";") fileIds) ;;
        noteResponse <- fetch w (note_call contactId attachments) ;;
        if negb (ok noteResponse) then
          errorText <- text noteResponse ;;
          ret tt
        else ret tt )
      (fun _ => ret tt).

  (** The second revision logs its progress, the first does not. *)
Variable verbose : bool.

  (** A logged template literal that interpolates [v] (lines 525 and 535). *)
Definition log (v : value) : M unit :=
    if verbose then log_template v else ret tt.

  (** The loop of lines 198-206 and 528-540, from index [i] on. *)
Fixpoint upload_loop (photos : list value) (i : N) (fileIds : list value)
    : M (list value) :=
    match photos with
    | [] => ret fileIds
    | photo :: rest =>
        t <- Date_now w ;;
        let fileName := photo_file_name t i in
        fileId <- uploadFileToHubSpot photo fileName ;;
        if truthy fileId then
          log fileId ;;;
          upload_loop rest (i + 1) (fileIds ++ [fileId])
        else upload_loop rest (i + 1) fileIds
    end.

  (** Lines 193-212 and 515-550. *)
Definition handle_photos (formData contactId : value) : M unit :=
    photos <- get formData (js "photos") ;;
    match photos with
    | VArr ps =>
        if (0 <? N.of_nat (List.length ps)) && truthy contactId then
          log contactId ;;;
          fileIds <- upload_loop ps 0 [] ;;
          if 0 <? N.of_nat (List.length fileIds) then
            createNoteWithAttachments contactId fileIds
          else ret tt
        else ret tt
    | _ => ret tt
    end.

  (** [id] is the text the template literal of the URL interpolates. *)
Definition update_call (id : jstring) (payload : value) : Call :=
    {| url := HUBSPOT_API_URL ++ js "/crm/v3/objects/contacts/" ++ id;
       method := js "PATCH";
       headers := json_headers;
       body := JsonBody (JSON_stringify payload) |}.

Definition create_call (path : jstring) (payload : value) : Call :=
    {| url := HUBSPOT_API_URL ++ path;
       method := js "POST";
       headers := json_headers;
       body := JsonBody (JSON_stringify payload) |}.

  (** Lines 155-191 and 622-658, and lines 50-86 of the Astro route: create
      the contact, or update it on a conflict.  Returns [contactId]. *)
Definition create_or_update (contactPayload : value) : M value :=
    hubspotResponse <- fetch w (create_call (js "/crm/v3/contacts") contactPayload) ;;
    if status hubspotResponse =? 409 then
      errorData <- json hubspotResponse ;;
      message <- get errorData (js "message") ;;
      existingContactId <- call_match message ;;
      if truthy existingContactId then
        id <- to_string existingContactId ;;
        updateResponse <- fetch w (update_call id contactPayload) ;;
        updateData <- json updateResponse ;;
        get updateData (js "id")
      else ret VUndefined
    else if ok hubspotResponse then
      data <- json hubspotResponse ;;
      get data (js "id")
    else
      errorData <- json hubspotResponse ;;
      throw (Error (js "Failed to create contact in HubSpot")).

End WithWorld.

End Hubspot.

(* ================================================================== *)
(** * First revision of [discovery-call.ts] (lines 1-227): one payload,
      photo attachments *)

Module Rev1.
Import JS Env Hubspot.
Local Open Scope js_scope.

Section WithWorld.
Variable HUBSPOT_API_KEY : option jstring.
Variable w : World.

Definition handler (req : Request) : M Reply :=
    if negb (jstring_eqb (req_method req) (js "POST")) then ret method_not_allowed
    else
      try_catch
        ( let formData := req_body req in
          f <- read_form formData ;;
          contactId <- create_or_update HUBSPOT_API_KEY w (contactPayload f) ;;
          handle_photos HUBSPOT_API_KEY w false formData contactId ;;;
          ret (success_reply contactId) )
        (fun _ => ret failure_reply).
End WithWorld.

End Rev1.

(* ================================================================== *)
(** * Second revision (lines 228-565): configuration check, basic fields
      first, custom properties in a delayed update *)

Module Rev2.
Import JS Env Hubspot.
Local Open Scope js_scope.

Definition config_error_reply : Reply :=
  send 500
    (VObj [ (js "success", VBool false);
            (js "message",
             VStr (js "Server configuration error. Please contact support.")) ]).

(** Lines 380-389: only the basic fields. *)
Definition contactPayload (f : Fields) : value :=
  VObj [ (js "properties", VObj (basicProperties f)) ].

(** Lines 447-457 and 484-494. *)
Definition customPayload (f : Fields) : value :=
  VObj [ (js "properties", VObj (customProperties f)) ].

Section WithWorld.
Variable HUBSPOT_API_KEY : option jstring.
Variable w : World.

  (** [!HUBSPOT_API_KEY] *)
Definition key_missing : bool :=
    match HUBSPOT_API_KEY with
    | None => true
    | Some k => negb (truthy (VStr k))
    end.

  (** Lines 441-465 and 478-502: the update that carries the custom
      properties; its failure is only logged. *)
Definition update_custom_properties (contactId : value) (f : Fields) : M unit :=
    sleep 2000 ;;;
    id <- to_string contactId ;;
    updateResponse <- fetch w (update_call HUBSPOT_API_KEY id (customPayload f)) ;;
    if ok updateResponse then ret tt
    else
      updateError <- text updateResponse ;;
      ret tt.

  (** Lines 404-513. *)
Definition create_or_update (f : Fields) : M value :=
    hubspotResponse <- fetch w
      (create_call HUBSPOT_API_KEY (js "/crm/v3/objects/contacts") (contactPayload f)) ;;
    if status hubspotResponse =? 409 then
      errorData <- json hubspotResponse ;;
      message <- get errorData (js "message") ;;
      existingContactId <- call_match message ;;
      if truthy existingContactId then
        id <- to_string existingContactId ;;
        updateResponse <- fetch w (update_call HUBSPOT_API_KEY id (contactPayload f)) ;;
        updateData <- json updateResponse ;;
        contactId <- get updateData (js "id") ;;
        update_custom_properties contactId f ;;;
        ret contactId
      else ret VUndefined
    else if ok hubspotResponse then
      data <- json hubspotResponse ;;
      contactId <- get data (js "id") ;;
      update_custom_properties contactId f ;;;
      ret contactId
    else
      responseText <- text hubspotResponse ;;
      throw (Error (js "Failed to create contact in HubSpot: "
                    ++ decimal (status hubspotResponse) ++ js " "
                    ++ statusText hubspotResponse)).

Definition handler (req : Request) : M Reply :=
    if negb (jstring_eqb (req_method req) (js "POST")) then ret method_not_allowed
    else
      try_catch
        ( if key_missing then ret config_error_reply
          else
            let formData := req_body req in
            f <- read_form formData ;;
            contactId <- create_or_update f ;;
            handle_photos HUBSPOT_API_KEY w true formData contactId ;;;
            ret (success_reply contactId) )
        (fun _ => ret failure_reply).
End WithWorld.

End Rev2.

(* ================================================================== *)
(** * Third revision (lines 566-680): one payload, photos only logged *)

Module Rev3.
Import JS Env Hubspot.
Local Open Scope js_scope.

Section WithWorld.
Variable HUBSPOT_API_KEY : option jstring.
Variable w : World.

Definition handler (req : Request) : M Reply :=
    if negb (jstring_eqb (req_method req) (js "POST")) then ret method_not_allowed
    else
      try_catch
        ( let formData := req_body req in
          f <- read_form formData ;;
          contactId <- create_or_update HUBSPOT_API_KEY w (contactPayload f) ;;
          photos <- get formData (js "photos") ;;
          (if truthy photos && truthy contactId then log_template contactId
           else ret tt) ;;;
          ret (success_reply contactId) )
        (fun _ => ret failure_reply).
End WithWorld.

End Rev3.

(* ================================================================== *)
(** * The Astro route of [part_000]: multipart form fields *)

Module Astro.
Import JS Env Hubspot.
Local Open Scope js_scope.

(** The value of an entry of a [FormData]: a string, or an uploaded file. *)
Inductive Entry : Type :=
  | Text (s : jstring)
  | Upload (name : jstring).

Definition entry_value (e : Entry) : value :=
  match e with
  | Text s => VStr s
  | Upload name => VFile name
  end.

(** The entries of a [FormData], in order. *)
Definition FormData : Type := list (jstring * Entry).

(** [formData.get(name)]: the first entry of that name, or [null]. *)
Fixpoint form_get (name : jstring) (fd : FormData) : value :=
  match fd with
  | [] => VNull
  | (k, e) :: rest =>
      if jstring_eqb name k then entry_value e else form_get name rest
  end.

(** [formData.getAll(name)] *)
Fixpoint form_getAll (name : jstring) (fd : FormData) : list value :=
  match fd with
  | [] => []
  | (k, e) :: rest =>
      if jstring_eqb name k then entry_value e :: form_getAll name rest
      else form_getAll name rest
  end.

(** Lines 10-28. *)
Definition read_form (formData : FormData) : M Fields :=
  let fullName := form_get (js "contactName") formData in
  nameParts <- match fullName with
               | VNull | VUndefined => ret [[]; []]
               | v => trimmed <- call_trim v ;; ret (split 32 trimmed)
               end ;;
  let firstname := or_else (index nameParts 0) (VStr []) in
  let lastname := or_else (VStr (join (js " ") (tl nameParts))) (VStr []) in
  planningStage <- attempt (array_join (js ";") (form_getAll (js "phase[]") formData)) ;;
  ret {| firstname := firstname; lastname := lastname;
         email := form_get (js "email") formData;
         phone := form_get (js "phone") formData;
         company := form_get (js "serviceName") formData;
         jobtitle := form_get (js "position") formData;
         serviceType := form_get (js "serviceType") formData;
         studentCount := form_get (js "studentCount") formData;
         budgetRange := form_get (js "indicativeBudget") formData;
         ageGroup := form_get (js "ageGroup") formData;
         additionalInfo := form_get (js "additional-info") formData;
         planningStage := VStr planningStage |}.

Section WithWorld.
  (** [import.meta.env.HUBSPOT_API_KEY] *)
Variable HUBSPOT_API_KEY : option jstring.
Variable w : World.

  (** [request] is what [await request.formData()] gives, [None] when the
      body is not a form and the call rejects. *)
Definition POST (request : option FormData) : M Reply :=
    try_catch
      ( formData <- match request with
                    | Some fd => ret fd
                    | None => throw TypeError
                    end ;;
        f <- read_form formData ;;
        contactId <- create_or_update HUBSPOT_API_KEY w (contactPayload f) ;;
        let photos := form_getAll (js "photos") formData in
        (if (0 <? N.of_nat (List.length photos)) && truthy contactId
         then log_template contactId
         else ret tt) ;;;
        ret (success_reply contactId) )
      (fun _ => ret failure_reply).
End WithWorld.

End Astro.

(* ================================================================== *)
(** * Reading a run *)

Module Run.
Import JS Env Hubspot.

(** A handler started on an empty trace. *)
Definition reply_of (r : Outcome Reply * list Event) : option Reply :=
  match fst r with
  | Returned a => Some a
  | Thrown _ => None
  end.

Definition trace_of {A} (r : Outcome A * list Event) : list Event := snd r.

Fixpoint calls (tr : list Event) : list Call :=
  match tr with
  | [] => []
  | Fetched c :: rest => c :: calls rest
  | _ :: rest => calls rest
  end.

Definition is_update (c : Call) : bool := jstring_eqb (method c) (js "PATCH").

Definition is_post_to (path : jstring) (c : Call) : bool :=
  jstring_eqb (method c) (js "POST")
  && jstring_eqb (url c) (HUBSPOT_API_URL ++ path).

(** The contact-create call: the first and third revisions and the Astro
    route address [/crm/v3/contacts], the second [/crm/v3/objects/contacts]. *)
Definition is_create (c : Call) : bool :=
  is_post_to (js "/crm/v3/contacts") c || is_post_to (js "/crm/v3/objects/contacts") c.


Definition is_upload (c : Call) : bool := is_post_to (js "/files/v3/files") c.

Definition is_contact_call (c : Call) : bool := is_create c || is_update c.

(** [body.properties.k] of a JSON call, [None] when the key is not there. *)
Definition property (k : jstring) (c : Call) : option value :=
  match body c with
  | JsonBody tree =>
      match field (js "properties") tree with
      | VObj props => if has_key k props then Some (lookup k props) else None
      | _ => None
      end
  | BufferBody _ => None
  end.

(** Every call a computation adds to the trace satisfies [Q], whatever the
    trace it starts from. *)
Definition emits {A} (Q : Call -> Prop) (m : M A) : Prop :=
  forall tr, exists evs, snd (m tr) = tr ++ evs /\ Forall Q (calls evs).

(** The calls among the events [evs] that follow [before], each with what
    the world answered to it. *)
Fixpoint answers_from (w : World) (before evs : list Event)
  : list (Call * FetchResult) :=
  match evs with
  | [] => []
  | Fetched c :: rest =>
      (c, respond w before c) :: answers_from w (before ++ [Fetched c]) rest
  | e :: rest => answers_from w (before ++ [e]) rest
  end.

(** How often a trace read the clock. *)
Fixpoint clock_reads (tr : list Event) : nat :=
  match tr with
  | [] => 0
  | ClockRead :: rest => S (clock_reads rest)
  | _ :: rest => clock_reads rest
  end.

(** The calls of a run that started on the empty trace, with their answers. *)
Definition answers (w : World) (tr : list Event) : list (Call * FetchResult) :=
  answers_from w [] tr.

(** The ids in the CRM's answers have a text: a string or a number, say,
    never an object with a [toString] property of its own. *)
Definition ids_convert (w : World) : Prop :=
  forall tr c r data,
    respond w tr c = Responded r -> json_body r = Some data ->
    ToString (field (js "id") data) <> None.

End Run.

(* ================================================================== *)
(** * Submissions and worlds to run the handlers on *)

Module Scenario.
Import JS Env Hubspot Run.

(** A world that answers the n-th [fetch] with the n-th entry of a script
    and rejects any later one. *)
Definition scripted (script : list FetchResult) : World :=
  {| respond := fun tr _ => nth (List.length (calls tr)) script Rejected;
     clock := fun tr => 1762128000000 + N.of_nat (List.length tr);
     random36 := fun _ => js "0.4fzyo82mvyr" |}.

(** A JSON answer.  Its text is left empty: the handlers only log it. *)
Definition answer (code : N) (tree : value) : FetchResult :=
  Responded {| status := code; statusText := []; text_body := Some [];
               json_body := Some tree |}.

Definition token : option jstring := Some (js "pat-na1-3f6c").

Definition form : list (jstring * value) :=
  [ (js "contactName", VStr (js "John Smith"));
    (js "email", VStr (js "john@school.edu"));
    (js "phone", VStr (js "+61400000000"));
    (js "serviceName", VStr (js "Example School"));
    (js "position", VStr (js "Principal"));
    (js "serviceType", VStr (js "primary-school"));
    (js "studentCount", VStr (js "300-500"));
    (js "indicativeBudget", VStr (js "100k-250k"));
    (js "ageGroup", VStr (js "middle-primary"));
    (js "phase[]", VArr [ VStr (js "exploring"); VStr (js "preparing-next-budget") ]);
    (js "additional-info", VStr (js "We need help with outdoor spaces")) ].

Definition submission : Request :=
  {| req_method := js "POST"; req_body := VObj form |}.

(** The fields a handler reads from [form]. *)
Definition form_fields : Fields :=
  {| firstname := VStr (js "John"); lastname := VStr (js "Smith");
     email := VStr (js "john@school.edu"); phone := VStr (js "+61400000000");
     company := VStr (js "Example School"); jobtitle := VStr (js "Principal");
     serviceType := VStr (js "primary-school");
     studentCount := VStr (js "300-500");
     budgetRange := VStr (js "100k-250k");
     ageGroup := VStr (js "middle-primary");
     additionalInfo := VStr (js "We need help with outdoor spaces");
     planningStage := VStr (js "exploring;preparing-next-budget") |}.

(** Only the name and the email: every optional field is absent. *)
Definition bare_submission : Request :=
  {| req_method := js "POST";
     req_body := VObj [ (js "contactName", VStr (js "John Smith"));
                        (js "email", VStr (js "john@school.edu")) ] |}.

Definition three_photos : list value :=
  [ VStr (js "data:image/jpeg;base64,/9j/4AAQ");
    VStr (js "data:image/jpeg;base64,/9j/4AAR");
    VStr (js "data:image/jpeg;base64,/9j/4AAS") ].

Definition submission_with_photos : Request :=
  {| req_method := js "POST";
     req_body := VObj (form ++ [ (js "photos", VArr three_photos) ]) |}.

Definition created (id : string) : FetchResult :=
  answer 201 (VObj [ (js "id", VStr (js id)) ]).

Definition conflict (message : string) : FetchResult :=
  answer 409 (VObj [ (js "status", VStr (js "error"));
                     (js "message", VStr (js message)) ]).

(** The fields of the Astro route's multipart form. *)
Definition multipart_form : Astro.FormData :=
  [ (js "contactName", Astro.Text (js "John Smith"));
    (js "email", Astro.Text (js "john@school.edu"));
    (js "phase[]", Astro.Text (js "exploring"));
    (js "phase[]", Astro.Text (js "preparing-next-budget")) ].

End Scenario.

(* ================================================================== *)
(** * The words of the specification *)

Module Words.
Import JS Env.

(** The substring of a name before its first space, the whole of it when it
    has none. *)
Fixpoint before_first_space (s : jstring) : jstring :=
  match s with
  | [] => []
  | c :: s' => if c =? 32 then [] else c :: before_first_space s'
  end.

(** The remainder of a name after its first space, empty when it has none. *)
Fixpoint after_first_space (s : jstring) : jstring :=
  match s with
  | [] => []
  | c :: s' => if c =? 32 then s' else after_first_space s'
  end.

(** The optional enumerated fields: the key of the form and the property
    of the contact it is sent as. *)
Definition optional_fields : list (jstring * jstring) :=
  [ (js "serviceType", js "wearthy_service_type");
    (js "studentCount", js "wearthy_student_count");
    (js "indicativeBudget", js "wearthy_budget_range");
    (js "ageGroup", js "wearthy_age_group");
    (js "phase[]", js "wearthy_planning_stage") ].

Definition is_base64_digit (c : N) : bool :=
  ((65 <=? c) && (c <=? 90)) || ((97 <=? c) && (c <=? 122))
  || ((48 <=? c) && (c <=? 57)) || (c =? 43) || (c =? 47).

(** Base64 as RFC 4648 writes it: digits in groups of four, the last group
    padded with one or two [=].  No handler checks this. *)
Definition well_formed_base64 (s : jstring) : bool :=
  (N.of_nat (List.length s) mod 4 =? 0)
  && match List.rev s with
     | 61 :: 61 :: rest => forallb is_base64_digit rest
     | 61 :: rest => forallb is_base64_digit rest
     | rest => forallb is_base64_digit rest
     end.

(** A photo that has a payload to upload: a string with a comma. *)
Definition has_payload (photo : value) : bool :=
  match photo with
  | VStr s => existsb (N.eqb 44) s
  | _ => false
  end.

(** What an upload gave: the [id] of the JSON body of an answer with a 2xx
    status; [null] when the call was rejected, refused, or answered with a
    body that cannot be read. *)
Definition upload_result (a : FetchResult) : value :=
  match a with
  | Rejected => VNull
  | Responded r =>
      if ok r then
        match json_body r with
        | Some VUndefined | Some VNull | None => VNull
        | Some data => field (js "id") data
        end
      else VNull
  end.

End Words.

(* ================================================================== *)
(** * What every call has in common *)

Module Wire.
Import JS Env Hubspot.




End Wire.

(* ================================================================== *)
(** * Properties *)

Import JS Env Hubspot Run Scenario Words Wire.

(* ================================================================== *)
(** * Strings *)

Lemma jstring_eqb_refl (a : jstring) : jstring_eqb a a = true.
Proof.
  induction a as [|x a IH]; simpl; [reflexivity|].
  now rewrite N.eqb_refl, IH.
Qed.

Lemma jstring_eqb_eq (a b : jstring) : jstring_eqb a b = true <-> a = b.
Proof.
  split.
  - revert b; induction a as [|x a IH]; intros [|y b]; simpl; try discriminate; auto.
    intros H. apply andb_prop in H as [Hx Hab].
    apply N.eqb_eq in Hx. apply IH in Hab. now subst.
  - intros ->. apply jstring_eqb_refl.
Qed.

(** [split] always gives at least one part. *)
Lemma split_nonempty (sep : N) (s : jstring) : split sep s <> [].
Proof.
  destruct s as [|c s]; simpl; [discriminate|].
  destruct (c =? sep); [discriminate|].
  destruct (split sep s); discriminate.
Qed.

(** Joining what [split] gave with the separator gives the string back. *)
Lemma join_split (sep : N) (s : jstring) : join [sep] (split sep s) = s.
Proof.
  induction s as [|c s IH]; simpl; [reflexivity|].
  destruct (c =? sep) eqn:E.
  - apply N.eqb_eq in E. subst c.
    destruct (split sep s) as [|p ps] eqn:Es.
    + now apply split_nonempty in Es.
    + simpl in *. now rewrite IH.
  - destruct (split sep s) as [|p ps] eqn:Es.
    + now apply split_nonempty in Es.
    + simpl in *. destruct ps; simpl in *; now rewrite <- IH.
Qed.

Lemma calls_app (a b : list Event) : calls (a ++ b) = calls a ++ calls b.
Proof.
  induction a as [|e a IH]; simpl; [reflexivity|].
  destruct e; simpl; now rewrite IH.
Qed.

(* ================================================================== *)
(** * What a computation adds to the trace *)

Section Emits.
Context {A B : Type} (Q : Call -> Prop).

Lemma emits_ret (a : A) : emits Q (ret a).
  Proof. intros tr. exists []. simpl. rewrite app_nil_r. auto. Qed.

Lemma emits_throw (e : exn) : emits Q (@throw A e).
  Proof. intros tr. exists []. simpl. rewrite app_nil_r. auto. Qed.

Lemma emits_bind (m : M A) (k : A -> M B) :
    emits Q m -> (forall a, emits Q (k a)) -> emits Q (bind m k).
  Proof.
    intros Hm Hk tr. unfold bind.
    destruct (Hm tr) as (evs & E & F).
    destruct (m tr) as [[a|e] tr'] eqn:Em; simpl in E; subst tr'.
    - destruct (Hk a (tr ++ evs)) as (evs' & E' & F').
      exists (evs ++ evs'). rewrite E', app_assoc, calls_app. split; [reflexivity|].
      apply Forall_app; auto.
    - exists evs. auto.
  Qed.

Lemma emits_try_catch (m : M A) (h : exn -> M A) :
    emits Q m -> (forall e, emits Q (h e)) -> emits Q (try_catch m h).
  Proof.
    intros Hm Hh tr. unfold try_catch.
    destruct (Hm tr) as (evs & E & F).
    destruct (m tr) as [[a|e] tr'] eqn:Em; simpl in E; subst tr'.
    - exists evs. auto.
    - destruct (Hh e (tr ++ evs)) as (evs' & E' & F').
      exists (evs ++ evs'). rewrite E', app_assoc, calls_app. split; [reflexivity|].
      apply Forall_app; auto.
  Qed.
End Emits.

Lemma emits_fetch (Q : Call -> Prop) (w : World) (c : Call) :
  Q c -> emits Q (fetch w c).
Proof.
  intros H tr. exists [Fetched c]. unfold fetch.
  destruct (respond w tr c); simpl; auto.
Qed.

Lemma emits_Date_now (Q : Call -> Prop) (w : World) : emits Q (Date_now w).
Proof. intros tr. exists [ClockRead]. simpl. auto. Qed.

Lemma emits_random (Q : Call -> Prop) (w : World) : emits Q (Math_random_36 w).
Proof. intros tr. exists [RandomDrawn]. simpl. auto. Qed.

Lemma emits_sleep (Q : Call -> Prop) (ms : N) : emits Q (sleep ms).
Proof. intros tr. exists [Waited ms]. simpl. auto. Qed.

Lemma emits_weaken {A} (Q Q' : Call -> Prop) (m : M A) :
  (forall c, Q c -> Q' c) -> emits Q m -> emits Q' m.
Proof.
  intros H Hm tr. destruct (Hm tr) as (evs & E & F).
  exists evs. split; [assumption|]. eapply Forall_impl; eauto.
Qed.

(** Breaks a computation into its steps. *)
Ltac emits_step :=
  lazymatch goal with
  | |- emits _ (ret _) => apply emits_ret
  | |- emits _ (throw _) => apply emits_throw
  | |- emits _ (bind _ _) => apply emits_bind; [|intro]
  | |- emits _ (try_catch _ _) => apply emits_try_catch; [|intro]
  | |- emits _ (fetch _ _) => apply emits_fetch
  | |- emits _ (Date_now _) => apply emits_Date_now
  | |- emits _ (Math_random_36 _) => apply emits_random
  | |- emits _ (sleep _) => apply emits_sleep
  | |- emits _ (attempt ?o) => unfold attempt; destruct o
  | |- emits _ (to_string ?v) => unfold to_string, attempt; destruct (ToString v)
  | |- emits _ (log_template _) => unfold log_template
  | |- emits _ (log _ _) => unfold log
  | |- emits _ (json ?r) => unfold json; destruct (json_body r)
  | |- emits _ (text ?r) => unfold text; destruct (text_body r)
  | |- emits _ (get ?o _) => unfold get; destruct o
  | |- emits _ (call_match ?v) => unfold call_match; destruct v
  | |- emits _ (call_trim ?v) => unfold call_trim; destruct v
  | |- emits _ (if ?b then _ else _) => destruct b
  | |- emits _ (match ?x with _ => _ end) => destruct x
  end.

Section Shared.
Variable key : option jstring.
Variable w : World.

Lemma uploadFileToHubSpot_emits (fileData : value) (fileName : jstring) :
    emits (fun c => is_upload c = true) (uploadFileToHubSpot key w fileData fileName).
  Proof.
    unfold uploadFileToHubSpot. repeat emits_step. reflexivity.
  Qed.

Lemma createNoteWithAttachments_emits (cid : value) (ids : list value) :
    emits (fun c => exists attachments, c = note_call key cid attachments)
      (createNoteWithAttachments key w cid ids).
  Proof.
    unfold createNoteWithAttachments. repeat emits_step. eauto.
  Qed.
End Shared.

Lemma read_form_returned (fd : value) (f : Fields) (tr tr' : list Event) :
  read_form fd tr = (Returned f, tr') ->
  tr' = tr /\
  exists s stage,
    or_else (field (js "contactName") fd) (VStr []) = VStr s /\
    join_phase (field (js "phase[]") fd) = Some stage /\
    f = {| firstname := or_else (index (split 32 (trim s)) 0) (VStr []);
           lastname := or_else (VStr (join (js " ") (tl (split 32 (trim s))))) (VStr []);
           email := field (js "email") fd;
           phone := field (js "phone") fd;
           company := field (js "serviceName") fd;
           jobtitle := field (js "position") fd;
           serviceType := field (js "serviceType") fd;
           studentCount := field (js "studentCount") fd;
           budgetRange := field (js "indicativeBudget") fd;
           ageGroup := field (js "ageGroup") fd;
           additionalInfo := field (js "additional-info") fd;
           planningStage := stage |}.
Proof.
  unfold read_form, bind, get, call_trim, attempt, ret, throw.
  destruct fd; try discriminate;
    (destruct (or_else _ _) eqn:E; try discriminate;
     destruct (join_phase _) as [stage|] eqn:Ep; try discriminate;
     intros H; injection H as <- <-; split; [reflexivity|];
     do 2 eexists; repeat split; reflexivity).
Qed.

Lemma read_form_pure (fd : value) (tr : list Event) :
  read_form fd tr = (fst (read_form fd []), tr).
Proof.
  unfold read_form, bind, get, call_trim, attempt, ret, throw.
  destruct fd; try reflexivity;
    (destruct (or_else _ _); try reflexivity; destruct (join_phase _); reflexivity).
Qed.

(** The form is read when it is an object, the contact name is a string or
    falsy, and the planning stages can be joined. *)
Lemma read_form_returns (fd : value) (s : jstring) (stage : value) :
  fd <> VUndefined -> fd <> VNull ->
  or_else (field (js "contactName") fd) (VStr []) = VStr s ->
  join_phase (field (js "phase[]") fd) = Some stage ->
  exists f, read_form fd [] = (Returned f, []).
Proof.
  intros Hu Hn Hs Hp. unfold read_form, bind, get.
  destruct fd; try congruence; unfold ret at 1; rewrite Hs;
    unfold call_trim, ret at 1; cbn iota;
    repeat (unfold ret at 1); rewrite Hp; unfold attempt, ret; eauto.
Qed.

Lemma ok_not_conflict (r : Response) : ok r = true -> (status r =? 409) = false.
Proof.
  unfold ok. intros H. apply andb_prop in H as [_ H].
  apply N.leb_le in H. apply N.eqb_neq. lia.
Qed.

Lemma conflict_not_ok (r : Response) : status r = 409 -> ok r = false.
Proof. unfold ok. intros ->. reflexivity. Qed.

(** The group of a match is never empty, so it is truthy. *)
Lemma existing_id_here_nonempty (s d : jstring) :
  existing_id_here s = Some d -> d <> [].
Proof.
  unfold existing_id_here.
  destruct (strip_prefix _ s); [|discriminate].
  destruct (digits_prefix j); [discriminate|].
  intros H; injection H as <-. discriminate.
Qed.

Lemma match_existing_id_cases (s : jstring) :
  match_existing_id s = VUndefined \/
  exists d, match_existing_id s = VStr d /\ d <> [].
Proof.
  induction s as [|c s IH]; cbn [match_existing_id].
  - now left.
  - destruct (existing_id_here (c :: s)) eqn:E; [|exact IH].
    right. eexists; split; [reflexivity|]. eapply existing_id_here_nonempty; eauto.
Qed.

Lemma match_existing_id_truthy (s d : jstring) :
  match_existing_id s = VStr d -> truthy (VStr d) = true.
Proof.
  intros H. destruct (match_existing_id_cases s) as [E|(d' & E & Hd)];
    rewrite E in H; [discriminate|].
  injection H as ->. destruct d; [congruence|reflexivity].
Qed.

Lemma field_defined_get (o : value) (k : jstring) (v : value) (tr : list Event) :
  field k o = v -> v <> VUndefined -> get o k tr = (Returned v, tr).
Proof.
  intros H Hv. unfold get. destruct o; simpl in H; try congruence; now subst.
Qed.

Section Shared.
Variable key : option jstring.
Variable w : World.

Lemma create_or_update_emits (P : value) :
    emits (fun c => c = create_call key (js "/crm/v3/contacts") P
                    \/ exists id, c = update_call key id P)
      (create_or_update key w P).
  Proof.
    unfold create_or_update. repeat emits_step; eauto.
  Qed.

  (** The contact is new: the created record's [id] is adopted. *)
Lemma create_or_update_created (P : value) (tr : list Event) (r : Response)
      (data : value) :
    respond w tr (create_call key (js "/crm/v3/contacts") P) = Responded r ->
    ok r = true ->
    json_body r = Some data ->
    data <> VNull -> data <> VUndefined ->
    create_or_update key w P tr
    = (Returned (field (js "id") data),
       tr ++ [Fetched (create_call key (js "/crm/v3/contacts") P)]).
  Proof.
    intros Hr Hok Hj Hn Hu. unfold create_or_update, bind, fetch.
    rewrite Hr, (ok_not_conflict r Hok), Hok. unfold json. rewrite Hj.
    unfold ret, get. destruct data; try congruence; reflexivity.
  Qed.

  (** Conflict, and the message names the existing record. *)
Lemma create_or_update_conflict (P : value) (tr : list Event) (r : Response)
      (errorData : value) (s d : jstring) :
    respond w tr (create_call key (js "/crm/v3/contacts") P) = Responded r ->
    status r = 409 ->
    json_body r = Some errorData ->
    field (js "message") errorData = VStr s ->
    match_existing_id s = VStr d ->
    create_or_update key w P tr
    = bind (fetch w (update_call key d P))
        (fun updateResponse =>
           bind (json updateResponse) (fun updateData => get updateData (js "id")))
        (tr ++ [Fetched (create_call key (js "/crm/v3/contacts") P)]).
  Proof.
    intros Hr Hs Hj Hm Hd. unfold create_or_update at 1. unfold bind at 1, fetch at 1.
    rewrite Hr, Hs. change (409 =? 409) with true. cbv iota.
    unfold bind at 1, json at 1. rewrite Hj. unfold ret at 1.
    unfold bind at 1. rewrite (field_defined_get _ _ _ _ Hm) by discriminate.
    unfold bind at 1, call_match, ret at 1. rewrite Hd.
    rewrite (match_existing_id_truthy s d Hd). reflexivity.
  Qed.

  (** Conflict, and the message names no record: [contactId] stays
      [undefined] and nothing is thrown. *)
Lemma create_or_update_unresolved (P : value) (tr : list Event) (r : Response)
      (errorData : value) (s : jstring) :
    respond w tr (create_call key (js "/crm/v3/contacts") P) = Responded r ->
    status r = 409 ->
    json_body r = Some errorData ->
    field (js "message") errorData = VStr s ->
    match_existing_id s = VUndefined ->
    create_or_update key w P tr
    = (Returned VUndefined, tr ++ [Fetched (create_call key (js "/crm/v3/contacts") P)]).
  Proof.
    intros Hr Hs Hj Hm Hd. unfold create_or_update. unfold bind at 1, fetch at 1.
    rewrite Hr, Hs. change (409 =? 409) with true. cbv iota.
    unfold bind at 1, json at 1. rewrite Hj. unfold ret at 1.
    unfold bind at 1. rewrite (field_defined_get _ _ _ _ Hm) by discriminate.
    unfold bind at 1, call_match, ret at 1. rewrite Hd. reflexivity.
  Qed.

End Shared.

(** ** Texts *)

Lemma all_some_map {A B} (g : A -> option B) (l : list A) :
  Forall (fun a => g a <> None) l -> exists l', all_some (List.map g l) = Some l'.
Proof.
  induction 1 as [|a l Ha _ (l' & IH)]; [now exists []|].
  cbn [List.map all_some]. destruct (g a) as [b|]; [|congruence].
  rewrite IH. eauto.
Qed.

Lemma element_text_converts (v : value) : ToString v <> None -> element_text v <> None.
Proof. destruct v; cbn; congruence. Qed.

(** A list joins when each of its elements has a text. *)
Lemma array_join_converts (sep : jstring) (vs : list value) :
  Forall (fun v => ToString v <> None) vs -> exists a, array_join sep vs = Some a.
Proof.
  intros H. unfold array_join.
  destruct (all_some_map element_text vs) as (l & E).
  - eapply Forall_impl; [|exact H]. apply element_text_converts.
  - rewrite E. cbn. eauto.
Qed.

Lemma answers_from_app (w : World) (a b before : list Event) :
  answers_from w before (a ++ b)
  = answers_from w before a ++ answers_from w (before ++ a) b.
Proof.
  revert before. induction a as [|e a IH]; intros before; cbn [app answers_from].
  - now rewrite app_nil_r.
  - destruct e; rewrite IH, <- app_assoc; reflexivity.
Qed.

Lemma clock_reads_app (a b : list Event) :
  clock_reads (a ++ b) = (clock_reads a + clock_reads b)%nat.
Proof.
  induction a as [|e a IH]; [reflexivity|].
  destruct e; cbn [app clock_reads]; now rewrite IH.
Qed.

Lemma answers_from_calls (w : World) (evs before : list Event) :
  List.map fst (answers_from w before evs) = calls evs.
Proof.
  revert before. induction evs as [|e evs IH]; intros before; [reflexivity|].
  destruct e; cbn [answers_from calls List.map fst]; now rewrite IH.
Qed.

Lemma upload_result_converts (w : World) (tr : list Event) (c : Call) :
  ids_convert w -> ToString (upload_result (respond w tr c)) <> None.
Proof.
  intros Hw. unfold upload_result.
  destruct (respond w tr c) as [|r] eqn:Er; [discriminate|].
  destruct (ok r); [|discriminate].
  destruct (json_body r) as [d|] eqn:Ej; [|discriminate].
  assert (H := Hw tr c r d Er Ej).
  destruct d; try discriminate; exact H.
Qed.

Lemma existsb_In (c : N) (s : jstring) : existsb (N.eqb c) s = true <-> In c s.
Proof.
  rewrite existsb_exists. split.
  - intros (x & Hin & E). apply N.eqb_eq in E. now subst.
  - intros H. exists c. split; [assumption|apply N.eqb_refl].
Qed.

Lemma split_no_separator (sep : N) (s : jstring) :
  ~ In sep s -> split sep s = [s].
Proof.
  induction s as [|c s IH]; [reflexivity|].
  intros H. cbn [split]. destruct (c =? sep) eqn:E.
  - apply N.eqb_eq in E. subst. exfalso. apply H. now left.
  - rewrite IH; [reflexivity|]. intros Hin. apply H. now right.
Qed.

Lemma split_separator (sep : N) (s : jstring) :
  In sep s -> exists a b rest, split sep s = a :: b :: rest.
Proof.
  induction s as [|c s IH]; [intros []|].
  intros H. cbn [split]. destruct (c =? sep) eqn:E.
  - destruct (split sep s) as [|p ps] eqn:Es; [now apply split_nonempty in Es|eauto].
  - destruct H as [->|H]; [rewrite N.eqb_refl in E; discriminate|].
    destruct (IH H) as (a & b & rest & ->). eauto.
Qed.

Section Uploads.
Variable key : option jstring.
Variable w : World.

(** A photo without a payload is not sent. *)
Lemma upload_no_payload (p : value) (name : jstring) (tr : list Event) :
  has_payload p = false ->
  uploadFileToHubSpot key w p name tr = (Returned VNull, tr).
Proof.
  intros H. unfold uploadFileToHubSpot, try_catch, bind.
  destruct p; try reflexivity. unfold ret at 1.
  rewrite split_no_separator; [reflexivity|].
  intros Hin. apply existsb_In in Hin. cbn [has_payload] in H. congruence.
Qed.

(** A photo with a payload is sent, and the function gives what the answer
    to the upload holds. *)
Lemma upload_payload (s : jstring) (name : jstring) (tr : list Event) :
  In 44 s ->
  exists base64Data,
    index (split 44 s) 1 = VStr base64Data
    /\ let call := upload_call key (js "----WebKitFormBoundary" ++ random36 w tr) name
                     (Buffer.from_base64 base64Data) in
       uploadFileToHubSpot key w (VStr s) name tr
       = (Returned (upload_result (respond w (tr ++ [RandomDrawn]) call)),
          tr ++ [RandomDrawn; Fetched call]).
Proof.
  intros H. destruct (split_separator 44 s H) as (a & b & rest & E).
  exists b. split; [now rewrite E|]. intros call.
  unfold uploadFileToHubSpot, try_catch, bind. unfold ret at 1.
  rewrite E. cbn [index nth_error]. unfold ret at 1. unfold Math_random_36, fetch.
  rewrite <- app_assoc. cbn [app]. fold call. unfold upload_result.
  destruct (respond w _ call) as [|r]; [reflexivity|].
  destruct (ok r); cbn [negb].
  - unfold json. destruct (json_body r) as [u|]; [|reflexivity].
    unfold ret at 1, get. destruct u; reflexivity.
  - unfold text. destruct (text_body r); reflexivity.
Qed.

(** One turn of the loop: what it adds to the trace and what it gives. *)
Lemma upload_turn (p : value) (name : jstring) (tr : list Event) :
  exists v evs,
    uploadFileToHubSpot key w p name tr = (Returned v, tr ++ evs)
    /\ ((has_payload p = false /\ evs = [] /\ v = VNull)
        \/ (has_payload p = true
            /\ exists c, evs = [RandomDrawn; Fetched c]
                         /\ is_upload c = true
                         /\ v = upload_result (respond w (tr ++ [RandomDrawn]) c))).
Proof.
  destruct (has_payload p) eqn:Hp.
  - destruct p; try discriminate. cbn [has_payload] in Hp. apply existsb_In in Hp.
    destruct (upload_payload s name tr Hp) as (b & _ & E). cbv zeta in E.
    do 2 eexists. split; [exact E|]. right. split; [reflexivity|].
    eexists. repeat split.
  - exists VNull, []. rewrite app_nil_r. split; [now apply upload_no_payload|].
    left. auto.
Qed.

Variable verbose : bool.

Lemma log_run (v : value) (tr : list Event) :
  exists o, log verbose v tr = (o, tr)
            /\ (verbose = false \/ ToString v <> None -> o = Returned tt).
Proof.
  unfold log, log_template, to_string, attempt, bind.
  destruct verbose.
  - destruct (ToString v); unfold ret, throw; eexists; split; try reflexivity.
    intros [H|H]; [discriminate|congruence].
  - eexists; split; reflexivity.
Qed.

(** The loop takes a turn for every photo, whatever the turns before it
    gave: it stops early only when a logged id cannot be converted. *)
Lemma upload_loop_run (ps : list value) :
  forall i acc tr,
  exists o evs,
    upload_loop key w verbose ps i acc tr = (o, tr ++ evs)
    /\ Forall (fun c => is_upload c = true) (calls evs)
    /\ (List.length (calls evs) <= List.length (filter has_payload ps))%nat
    /\ (forall ids, o = Returned ids ->
          ids = acc ++ filter truthy
                         (List.map (fun a => upload_result (snd a))
                            (answers_from w tr evs))
          /\ List.length (calls evs) = List.length (filter has_payload ps)
          /\ clock_reads evs = List.length ps)
    /\ (verbose = false \/ ids_convert w -> exists ids, o = Returned ids).
Proof.
  induction ps as [|p ps IH]; intros i acc tr; cbn [upload_loop].
  - exists (Returned acc), []. rewrite app_nil_r. split; [reflexivity|].
    split; [constructor|]. split; [cbn; lia|]. split; [|eauto].
    intros ids [= <-]. cbn. now rewrite app_nil_r.
  - unfold bind at 1, Date_now. unfold bind at 1.
    destruct (upload_turn p (photo_file_name (clock w tr) i) (tr ++ [ClockRead]))
      as (v & evs1 & E1 & Hcase).
    rewrite E1.
    assert (Hv : ids_convert w -> ToString v <> None).
    { intros Hw. destruct Hcase as [(_ & _ & ->)|(_ & c & _ & _ & ->)];
        [discriminate|now apply upload_result_converts]. }
    assert (Hlen : List.length (calls evs1) = (if has_payload p then 1 else 0)%nat
                   /\ Forall (fun c => is_upload c = true) (calls evs1)
                   /\ filter truthy (List.map (fun a => upload_result (snd a))
                                       (answers_from w (tr ++ [ClockRead]) evs1))
                      = (if truthy v then [v] else [])
                   /\ clock_reads evs1 = 0%nat).
    { destruct Hcase as [(-> & -> & ->)|(-> & c & -> & Hc & ->)].
      - repeat split; constructor.
      - cbn [calls List.length answers_from List.map snd filter clock_reads].
        split; [reflexivity|]. split; [repeat constructor; exact Hc|].
        split; [|reflexivity]. now destruct (truthy _). }
    destruct Hlen as (L1 & F1 & R1 & C1).
    assert (Hrest : forall acc',
               acc' = acc ++ (if truthy v then [v] else []) ->
               forall o evs2,
                 upload_loop key w verbose ps (i + 1) acc' ((tr ++ [ClockRead]) ++ evs1)
                 = (o, ((tr ++ [ClockRead]) ++ evs1) ++ evs2) ->
                 Forall (fun c => is_upload c = true) (calls evs2) ->
                 (List.length (calls evs2) <= List.length (filter has_payload ps))%nat ->
                 (forall ids, o = Returned ids ->
                    ids = acc' ++ filter truthy
                                    (List.map (fun a => upload_result (snd a))
                                       (answers_from w ((tr ++ [ClockRead]) ++ evs1) evs2))
                    /\ List.length (calls evs2) = List.length (filter has_payload ps)
                    /\ clock_reads evs2 = List.length ps) ->
                 let evs := [ClockRead] ++ evs1 ++ evs2 in
                 (o, ((tr ++ [ClockRead]) ++ evs1) ++ evs2) = (o, tr ++ evs)
                 /\ Forall (fun c => is_upload c = true) (calls evs)
                 /\ (List.length (calls evs)
                     <= List.length (filter has_payload (p :: ps)))%nat
                 /\ (forall ids, o = Returned ids ->
                       ids = acc ++ filter truthy
                                      (List.map (fun a => upload_result (snd a))
                                         (answers_from w tr evs))
                       /\ List.length (calls evs)
                          = List.length (filter has_payload (p :: ps))
                       /\ clock_reads evs = List.length (p :: ps))).
    { intros acc' -> o evs2 _ F2 L2 H2 evs. unfold evs.
      split; [now rewrite <- !app_assoc|].
      assert (Ec : calls ([ClockRead] ++ evs1 ++ evs2) = calls evs1 ++ calls evs2)
        by (cbn [app calls]; apply calls_app).
      rewrite Ec, length_app, L1. cbn [filter].
      split; [now apply Forall_app|].
      split; [destruct (has_payload p); cbn [List.length]; lia|].
      intros ids Ho. destruct (H2 ids Ho) as (-> & L & C).
      cbn [app answers_from]. change (tr ++ [ClockRead]) with (tr ++ [ClockRead]).
      rewrite answers_from_app, map_app, filter_app, R1, <- app_assoc.
      split; [reflexivity|].
      split; [destruct (has_payload p); cbn [List.length]; lia|].
      cbn [clock_reads]. rewrite clock_reads_app, C1, C. reflexivity. }
    destruct (truthy v) eqn:Tv.
    + unfold bind at 1.
      destruct (log_run v ((tr ++ [ClockRead]) ++ evs1)) as (ol & El & Hl).
      rewrite El. destruct ol as [[]|e].
      * destruct (IH (i + 1) (acc ++ [v]) ((tr ++ [ClockRead]) ++ evs1))
          as (o & evs2 & E2 & F2 & L2 & H2 & T2).
        rewrite E2. exists o, ([ClockRead] ++ evs1 ++ evs2).
        destruct (Hrest (acc ++ [v]) eq_refl o evs2 E2 F2 L2 H2) as (Ea & Fa & La & Ha).
        split; [exact Ea|]. split; [exact Fa|]. split; [exact La|].
        split; [exact Ha|exact T2].
      * exists (Thrown e), ([ClockRead] ++ evs1).
        split; [now rewrite <- !app_assoc|].
        split; [exact F1|]. cbn [app calls filter]. rewrite L1.
        split; [destruct (has_payload p); cbn [List.length]; lia|].
        split; [discriminate|].
        intros Hw. exfalso.
        assert (@Thrown unit e = Returned tt); [|discriminate].
        apply Hl. destruct Hw as [Hw|Hw]; [now left|right; now apply Hv].
    + destruct (IH (i + 1) acc ((tr ++ [ClockRead]) ++ evs1))
        as (o & evs2 & E2 & F2 & L2 & H2 & T2).
      rewrite E2. exists o, ([ClockRead] ++ evs1 ++ evs2).
      destruct (Hrest acc (eq_sym (app_nil_r acc)) o evs2 E2 F2 L2) as (Ea & Fa & La & Ha).
      { intros ids Ho. exact (H2 ids Ho). }
      split; [exact Ea|]. split; [exact Fa|]. split; [exact La|].
      split; [exact Ha|exact T2].
Qed.

Lemma uploadFileToHubSpot_returns (fileData : value) (fileName : jstring)
    (tr : list Event) :
  exists v tr', uploadFileToHubSpot key w fileData fileName tr = (Returned v, tr').
Proof.
  destruct (upload_turn fileData fileName tr) as (v & evs & E & _). eauto.
Qed.

(** The note is sent when the ids can be joined; nothing it does is thrown
    further. *)
Lemma createNoteWithAttachments_run (cid : value) (ids : list value)
    (tr : list Event) :
  createNoteWithAttachments key w cid ids tr
  = (Returned tt,
     tr ++ match array_join (js ";") ids with
           | Some attachments => [Fetched (note_call key cid attachments)]
           | None => []
           end).
Proof.
  unfold createNoteWithAttachments, try_catch, bind, attempt.
  destruct (array_join (js ";") ids) as [a|];
    [|unfold throw, ret; now rewrite app_nil_r].
  unfold ret at 1. unfold fetch.
  destruct (respond w tr _) as [|r]; [reflexivity|].
  destruct (ok r); simpl; [reflexivity|].
  unfold text. destruct (text_body r); reflexivity.
Qed.

Lemma upload_loop_emits (ps : list value) :
  forall i acc, emits (fun c => is_upload c = true) (upload_loop key w verbose ps i acc).
Proof.
  induction ps as [|p ps IH]; intros i acc; cbn [upload_loop].
  - apply emits_ret.
  - apply emits_bind; [apply emits_Date_now|intro].
    apply emits_bind; [apply uploadFileToHubSpot_emits|intro].
    destruct (truthy _); [|apply IH].
    apply emits_bind; [repeat emits_step|intro; apply IH].
Qed.

Lemma handle_photos_emits (fd cid : value) :
  emits (fun c => is_upload c = true \/ exists attachments, c = note_call key cid attachments)
    (handle_photos key w verbose fd cid).
Proof.
  unfold handle_photos.
  apply emits_bind; [repeat emits_step|intros photos].
  destruct photos; try apply emits_ret.
  destruct (_ && _); [|apply emits_ret].
  apply emits_bind; [repeat emits_step|intro].
  apply emits_bind.
  - eapply emits_weaken; [|apply upload_loop_emits]. auto.
  - intros ids. destruct (0 <? _); [|apply emits_ret].
    eapply emits_weaken; [|apply createNoteWithAttachments_emits].
    simpl. auto.
Qed.


(** Nothing in the photo phase of the first revision can fail the request;
    in the second, only an id that a logged template cannot convert. *)
Lemma handle_photos_returns (fd cid : value) (tr : list Event) :
  fd <> VUndefined -> fd <> VNull ->
  verbose = false \/ (ids_convert w /\ ToString cid <> None) ->
  exists tr', handle_photos key w verbose fd cid tr = (Returned tt, tr').
Proof.
  intros Hu Hn Hv. unfold handle_photos, bind at 1, get.
  destruct fd; try congruence; unfold ret at 1;
    (destruct (field _ _); try (unfold ret; eauto; fail);
     destruct (_ && _); [|unfold ret; eauto];
     unfold bind at 1; destruct (log_run cid tr) as (o & El & Ho);
     rewrite El, Ho by tauto;
     unfold bind;
     match goal with |- context [upload_loop key w verbose ?ps ?i ?a ?t] =>
       destruct (upload_loop_run ps i a t) as (ol & evs & E & _ & _ & _ & T);
       rewrite E; destruct T as (ids & ->); [tauto|]
     end;
     destruct (0 <? _); [rewrite createNoteWithAttachments_run|unfold ret]; eauto).
Qed.
End Uploads.


(** ** What [/Existing ID: (\d+)/] matches *)

Lemma strip_prefix_Some (p s rest : jstring) :
  strip_prefix p s = Some rest <-> s = p ++ rest.
Proof.
  revert s. induction p as [|a p IH]; intros s; cbn [strip_prefix app].
  - split; [now intros [= ->]|now intros ->].
  - destruct s as [|b s]; [split; discriminate|].
    destruct (a =? b) eqn:E.
    + apply N.eqb_eq in E. subst b. rewrite IH. split; [now intros ->|now intros [= ->]].
    + apply N.eqb_neq in E. split; [discriminate|].
      intros [= H _]. exfalso. apply E. now symmetry.
Qed.

Lemma digits_prefix_spec (s : jstring) :
  exists post,
    s = digits_prefix s ++ post
    /\ forallb is_digit (digits_prefix s) = true
    /\ match post with c :: _ => is_digit c = false | [] => True end.
Proof.
  induction s as [|c s (post & E & D & P)]; [now exists []|].
  cbn [digits_prefix]. destruct (is_digit c) eqn:Ec.
  - exists post. cbn [app forallb]. rewrite Ec, D. repeat split; [congruence|exact P].
  - exists (c :: s). repeat split. exact Ec.
Qed.

Lemma existing_id_here_Some (s d : jstring) :
  existing_id_here s = Some d ->
  exists post,
    s = js "Existing ID: " ++ d ++ post
    /\ d <> [] /\ forallb is_digit d = true
    /\ match post with c :: _ => is_digit c = false | [] => True end.
Proof.
  intros H. assert (Hne := existing_id_here_nonempty s d H).
  unfold existing_id_here in H.
  destruct (strip_prefix _ s) as [rest|] eqn:E; [|discriminate].
  apply strip_prefix_Some in E.
  destruct (digits_prefix_spec rest) as (post & Er & D & P).
  destruct (digits_prefix rest) eqn:Ed; [discriminate|]. injection H as <-.
  exists post. rewrite E, Er. auto.
Qed.

Lemma existing_id_here_None (s : jstring) :
  existing_id_here s = None ->
  forall c post, is_digit c = true -> s <> js "Existing ID: " ++ c :: post.
Proof.
  intros H c post Hc E. apply strip_prefix_Some in E.
  unfold existing_id_here in H. rewrite E in H.
  cbn [digits_prefix] in H. rewrite Hc in H. discriminate.
Qed.

(** The group is a non-empty run of digits that follows [Existing ID: ]
    somewhere in the message, and it is the whole run. *)
Lemma match_existing_id_found (s d : jstring) :
  match_existing_id s = VStr d ->
  exists pre post,
    s = pre ++ js "Existing ID: " ++ d ++ post
    /\ d <> [] /\ forallb is_digit d = true
    /\ match post with c :: _ => is_digit c = false | [] => True end.
Proof.
  induction s as [|c s IH]; cbn [match_existing_id].
  - change (existing_id_here []) with (@None jstring). discriminate.
  - destruct (existing_id_here (c :: s)) as [d'|] eqn:E.
    + intros [= ->]. apply existing_id_here_Some in E as (post & E & H).
      exists [], post. auto.
    + intros H. destruct (IH H) as (pre & post & -> & H').
      exists (c :: pre), post. auto.
Qed.

(** No group exactly when [Existing ID: ] is nowhere followed by a digit. *)
Lemma match_existing_id_none (s : jstring) :
  match_existing_id s = VUndefined <->
  (forall pre c post, is_digit c = true -> s <> pre ++ js "Existing ID: " ++ c :: post).
Proof.
  split.
  - induction s as [|a s IH]; cbn [match_existing_id].
    + intros _ pre c post _ E. symmetry in E. apply app_eq_nil in E as [_ E].
      discriminate.
    + destruct (existing_id_here (a :: s)) eqn:E; [discriminate|].
      intros H [|b pre] c post Hc Es.
      * now apply (existing_id_here_None _ E c post Hc).
      * injection Es as _ Es. now apply (IH H pre c post Hc).
  - intros H. destruct (match_existing_id_cases s) as [E|(d & E & Hd)]; [exact E|].
    exfalso. apply match_existing_id_found in E as (pre & post & E & _ & D & _).
    destruct d as [|c d]; [congruence|]. cbn [forallb] in D.
    apply andb_prop in D as [Hc _].
    apply (H pre c (d ++ post) Hc). exact E.
Qed.

(** ** Payloads *)

Lemma has_key_keep_defined (f : value -> value) (k : jstring)
    (props : list (jstring * value)) :
  lookup k props <> VUndefined -> has_key k (keep_defined f props) = true.
Proof.
  induction props as [|[k' v] props IH]; simpl; [congruence|].
  destruct (jstring_eqb k k') eqn:E.
  - intros Hv. destruct v; try congruence; simpl; now rewrite E.
  - intros Hv. destruct v; simpl; rewrite ?E; auto.
Qed.

Lemma lookup_keep_defined (f : value -> value) (k : jstring)
    (props : list (jstring * value)) :
  lookup k props <> VUndefined ->
  lookup k (keep_defined f props) = f (lookup k props).
Proof.
  induction props as [|[k' v] props IH]; simpl; [congruence|].
  destruct (jstring_eqb k k') eqn:E.
  - intros Hv. destruct v; try congruence; simpl; now rewrite E.
  - intros Hv. destruct v; simpl; rewrite ?E; auto.
Qed.

Lemma has_key_keep_defined_false (f : value -> value) (k : jstring)
    (props : list (jstring * value)) :
  has_key k props = false -> has_key k (keep_defined f props) = false.
Proof.
  induction props as [|[k' v] props IH]; simpl; [reflexivity|].
  intros H. apply orb_false_iff in H as [E H].
  destruct v; simpl; rewrite ?E; auto.
Qed.

Lemma property_present (c : Call) (props : list (jstring * value)) (k : jstring) :
  body c = JsonBody (JSON_stringify (VObj [ (js "properties", VObj props) ])) ->
  lookup k props <> VUndefined ->
  property k c = Some (JSON_stringify (lookup k props)).
Proof.
  intros Hb Hk. unfold property. rewrite Hb.
  cbn [JSON_stringify keep_defined field lookup].
  rewrite jstring_eqb_refl.
  now rewrite has_key_keep_defined, lookup_keep_defined.
Qed.

Lemma property_absent (c : Call) (props : list (jstring * value)) (k : jstring) :
  body c = JsonBody (JSON_stringify (VObj [ (js "properties", VObj props) ])) ->
  has_key k props = false ->
  property k c = None.
Proof.
  intros Hb Hk. unfold property. rewrite Hb.
  cbn [JSON_stringify keep_defined field lookup].
  rewrite jstring_eqb_refl.
  now rewrite has_key_keep_defined_false.
Qed.

Lemma or_else_defined (v : value) : or_else v (VStr []) <> VUndefined.
Proof. unfold or_else. destruct (truthy v) eqn:E; [|discriminate]. now destruct v. Qed.

(** ** Telling the calls apart *)

Lemma upload_not_contact (c : Call) : is_upload c = true -> is_contact_call c = false.
Proof.
  unfold is_upload, is_contact_call, is_create, is_update, is_post_to.
  intros H. apply andb_prop in H as [Hm Hu].
  apply jstring_eqb_eq in Hm, Hu. rewrite Hm, Hu. reflexivity.
Qed.


Lemma filter_none {A} (p : A -> bool) (l : list A) :
  Forall (fun x => p x = false) l -> filter p l = [].
Proof.
  induction 1 as [|x l Hx _ IH]; simpl; [reflexivity|]. now rewrite Hx.
Qed.

Lemma method_check (req : Request) :
  req_method req = js "POST" -> negb (jstring_eqb (req_method req) (js "POST")) = false.
Proof. intros ->. reflexivity. Qed.

(** ** The handlers, phase by phase *)

Lemma log_template_run (v : value) (tr : list Event) :
  log_template v tr
  = (match ToString v with Some _ => Returned tt | None => Thrown TypeError end, tr).
Proof.
  unfold log_template, to_string, attempt, bind. now destruct (ToString v).
Qed.

Section Handlers.
Variable key : option jstring.
Variable w : World.

  (** The first revision answers [200] as soon as the contact phase returns:
      nothing in the photo phase can fail the request. *)
Lemma Rev1_after_contact (req : Request) (f : Fields) (cid : value)
      (tr1 : list Event) :
    req_method req = js "POST" ->
    read_form (req_body req) [] = (Returned f, []) ->
    create_or_update key w (contactPayload f) [] = (Returned cid, tr1) ->
    exists tr2,
      handle_photos key w false (req_body req) cid tr1 = (Returned tt, tr2) /\
      Rev1.handler key w req [] = (Returned (success_reply cid), tr2).
  Proof.
    intros Hm Hf Hc.
    destruct (handle_photos_returns key w false (req_body req) cid tr1) as (tr2 & E).
    - intros Hb. rewrite Hb in Hf. discriminate.
    - intros Hb. rewrite Hb in Hf. discriminate.
    - now left.
    - exists tr2. split; [assumption|].
      unfold Rev1.handler. rewrite (method_check req Hm).
      unfold try_catch, bind. now rewrite Hf, Hc, E.
  Qed.

  (** Every call of the first revision. *)
Lemma Rev1_calls (req : Request) (c : Call) :
    In c (calls (snd (Rev1.handler key w req []))) ->
    exists f,
      read_form (req_body req) [] = (Returned f, []) /\
      (c = create_call key (js "/crm/v3/contacts") (contactPayload f)
       \/ (exists id, c = update_call key id (contactPayload f))
       \/ is_upload c = true
       \/ exists cid attachments, c = note_call key cid attachments).
  Proof.
    unfold Rev1.handler. destruct (negb _); [intros []|].
    unfold try_catch, bind at 1. rewrite read_form_pure.
    destruct (fst (read_form (req_body req) [])) as [f|e] eqn:Ef; [|intros []].
    intros Hin. exists f. split; [reflexivity|].
    assert (E : emits (fun c =>
                c = create_call key (js "/crm/v3/contacts") (contactPayload f)
                \/ (exists id, c = update_call key id (contactPayload f))
                \/ is_upload c = true
                \/ exists cid attachments, c = note_call key cid attachments)
              (bind (create_or_update key w (contactPayload f))
                 (fun contactId =>
                    bind (handle_photos key w false (req_body req) contactId)
                      (fun _ => ret (success_reply contactId))))).
    { apply emits_bind.
      - eapply emits_weaken; [|apply create_or_update_emits].
        intros c0 [H|H]; auto.
      - intros cid. apply emits_bind; [|intro; apply emits_ret].
        eapply emits_weaken; [|apply handle_photos_emits].
        intros c0 [H|[ids H]]; eauto 6. }
    destruct (E []) as (evs & Et & F). simpl in Et.
    rewrite Forall_forall in F. apply F. rewrite <- Et.
    match goal with |- context [bind ?m ?k []] => destruct (bind m k []) as [[?|?] ?] end;
      exact Hin.
  Qed.
End Handlers.

Lemma photo_calls_not_contact (key : option jstring) (cid : value) (l : list Call) :
  Forall (fun c => is_upload c = true
                   \/ exists attachments, c = note_call key cid attachments) l ->
  filter is_create l = [] /\ filter is_update l = [].
Proof.
  intros F. split; apply filter_none; eapply Forall_impl; try exact F;
    intros c [H|[ids ->]]; try reflexivity;
    apply upload_not_contact in H; unfold is_contact_call in H;
    apply orb_false_iff in H; tauto.
Qed.

Lemma get_object (o : value) (k : jstring) (tr : list Event) :
  o <> VNull -> o <> VUndefined -> get o k tr = (Returned (field k o), tr).
Proof. intros Hn Hu. unfold get. destruct o; try congruence; reflexivity. Qed.

Section Handlers.
Variable key : option jstring.
Variable w : World.

  (** What the photo phase adds holds no contact call. *)
Lemma handle_photos_no_contact_call (verbose : bool) (fd cid : value)
      (tr tr' : list Event) (o : Outcome unit) :
    handle_photos key w verbose fd cid tr = (o, tr') ->
    filter is_create (calls tr') = filter is_create (calls tr) /\
    filter is_update (calls tr') = filter is_update (calls tr).
  Proof.
    intros H. destruct (handle_photos_emits key w verbose fd cid tr) as (evs & E & F).
    rewrite H in E. simpl in E. subst tr'.
    apply photo_calls_not_contact in F as [F1 F2].
    now rewrite calls_app, !filter_app, F1, F2, !app_nil_r.
  Qed.

Lemma Rev1_contact_failed (req : Request) (f : Fields) (e : exn)
      (tr1 : list Event) :
    req_method req = js "POST" ->
    read_form (req_body req) [] = (Returned f, []) ->
    create_or_update key w (contactPayload f) [] = (Thrown e, tr1) ->
    Rev1.handler key w req [] = (Returned failure_reply, tr1).
  Proof.
    intros Hm Hf Hc. unfold Rev1.handler. rewrite (method_check req Hm).
    unfold try_catch, bind. now rewrite Hf, Hc.
  Qed.

  (** After the contact phase the third revision sends nothing more; it
      answers [200] unless the id it logs cannot be converted. *)
Lemma Rev3_after_contact_any (req : Request) (f : Fields) (cid : value)
      (tr1 : list Event) :
    req_method req = js "POST" ->
    read_form (req_body req) [] = (Returned f, []) ->
    create_or_update key w (contactPayload f) [] = (Returned cid, tr1) ->
    exists reply,
      Rev3.handler key w req [] = (Returned reply, tr1)
      /\ (reply = success_reply cid \/ reply = failure_reply)
      /\ (ToString cid <> None -> reply = success_reply cid).
  Proof.
    intros Hm Hf Hc. unfold Rev3.handler. rewrite (method_check req Hm).
    unfold try_catch, bind. rewrite Hf, Hc. unfold get.
    destruct (req_body req); try discriminate; unfold ret at 1;
      (destruct (_ && _);
       [ rewrite log_template_run; destruct (ToString cid);
         eexists; (split; [reflexivity|]); split; auto; congruence
       | eexists; (split; [reflexivity|]); split; auto ]).
  Qed.

Lemma Rev3_after_contact (req : Request) (f : Fields) (cid : value)
      (tr1 : list Event) :
    req_method req = js "POST" ->
    read_form (req_body req) [] = (Returned f, []) ->
    create_or_update key w (contactPayload f) [] = (Returned cid, tr1) ->
    ToString cid <> None ->
    Rev3.handler key w req [] = (Returned (success_reply cid), tr1).
  Proof.
    intros Hm Hf Hc Hv.
    destruct (Rev3_after_contact_any req f cid tr1 Hm Hf Hc) as (reply & E & _ & H).
    now rewrite E, (H Hv).
  Qed.

Lemma Rev3_contact_failed (req : Request) (f : Fields) (e : exn)
      (tr1 : list Event) :
    req_method req = js "POST" ->
    read_form (req_body req) [] = (Returned f, []) ->
    create_or_update key w (contactPayload f) [] = (Thrown e, tr1) ->
    Rev3.handler key w req [] = (Returned failure_reply, tr1).
  Proof.
    intros Hm Hf Hc. unfold Rev3.handler. rewrite (method_check req Hm).
    unfold try_catch, bind. now rewrite Hf, Hc.
  Qed.

Lemma Astro_after_contact (fd : Astro.FormData) (f : Fields) (o : Outcome value)
      (tr1 : list Event) :
    Astro.read_form fd [] = (Returned f, []) ->
    create_or_update key w (contactPayload f) [] = (o, tr1) ->
    exists reply,
      Astro.POST key w (Some fd) [] = (Returned reply, tr1)
      /\ match o with
         | Returned cid =>
             (reply = success_reply cid \/ reply = failure_reply)
             /\ (ToString cid <> None -> reply = success_reply cid)
         | Thrown _ => reply = failure_reply
         end.
  Proof.
    intros Hf Hc. unfold Astro.POST, try_catch, bind. unfold ret at 1.
    rewrite Hf, Hc. destruct o as [cid|e];
      [|exists failure_reply; split; reflexivity].
    destruct (_ && _);
      [ rewrite log_template_run; destruct (ToString cid);
        eexists; (split; [reflexivity|]); split; auto; congruence
      | eexists; (split; [reflexivity|]); split; auto ].
  Qed.

  (** ** The second revision *)

Lemma update_custom_properties_run (cid : value) (f : Fields) (tr : list Event) :
    exists o,
      Rev2.update_custom_properties key w cid f tr
      = (o, tr ++ Waited 2000
                 :: match ToString cid with
                    | Some id => [Fetched (update_call key id (Rev2.customPayload f))]
                    | None => []
                    end).
  Proof.
    unfold Rev2.update_custom_properties, bind, sleep, to_string, attempt.
    destruct (ToString cid) as [id|]; [|unfold throw; eauto].
    unfold ret at 1. unfold fetch.
    rewrite <- app_assoc. simpl.
    destruct (respond w _ _) as [|r]; [eauto|].
    destruct (ok r); unfold ret; [eauto|].
    unfold text. destruct (text_body r); unfold ret, throw; eauto.
  Qed.

  (** What the contact phase of the second revision returns was converted
      on the way, unless it is [undefined]. *)
Lemma Rev2_create_or_update_converts (f : Fields) (tr tr' : list Event) (cid : value) :
    Rev2.create_or_update key w f tr = (Returned cid, tr') -> ToString cid <> None.
  Proof.
    assert (Hu : forall c t t', Rev2.update_custom_properties key w c f t = (Returned tt, t') ->
                                ToString c <> None).
    { intros c t t'. unfold Rev2.update_custom_properties, bind, sleep, to_string, attempt.
      destruct (ToString c); [discriminate|]. unfold throw. discriminate. }
    unfold Rev2.create_or_update, bind, fetch, json, get, call_match, to_string, attempt.
    destruct (respond w tr _) as [|r]; [discriminate|].
    destruct (status r =? 409).
    - destruct (json_body r) as [e|]; [|discriminate]. unfold ret at 1.
      destruct e; try discriminate; unfold ret at 1;
        (destruct (field (js "message") _); try discriminate; unfold ret at 1;
         destruct (truthy _); [|unfold ret; intros [= <- _]; discriminate];
         destruct (ToString (match_existing_id _)); [|discriminate];
         unfold ret at 1; destruct (respond w _ _) as [|r2]; [discriminate|];
         destruct (json_body r2) as [u|]; [|discriminate]; unfold ret at 1;
         destruct u; try discriminate; unfold ret at 1;
         match goal with
         | |- context [Rev2.update_custom_properties key w ?c f ?t] =>
             destruct (Rev2.update_custom_properties key w c f t) as [[[]|x] t'] eqn:E;
             [|discriminate]; unfold ret; intros [= <- _]; exact (Hu _ _ _ E)
         end).
    - destruct (ok r).
      + destruct (json_body r) as [u|]; [|discriminate]. unfold ret at 1.
        destruct u; try discriminate; unfold ret at 1;
          match goal with
          | |- context [Rev2.update_custom_properties key w ?c f ?t] =>
              destruct (Rev2.update_custom_properties key w c f t) as [[[]|x] t'] eqn:E;
              [|discriminate]; unfold ret; intros [= <- _]; exact (Hu _ _ _ E)
          end.
      + unfold text. destruct (text_body r); discriminate.
  Qed.

Lemma Rev2_create_or_update_created (f : Fields) (tr : list Event) (r : Response)
      (data : value) (id : jstring) :
    respond w tr (create_call key (js "/crm/v3/objects/contacts") (Rev2.contactPayload f))
    = Responded r ->
    ok r = true ->
    json_body r = Some data ->
    data <> VNull -> data <> VUndefined ->
    ToString (field (js "id") data) = Some id ->
    exists o,
      Rev2.create_or_update key w f tr
      = (o, tr ++ [ Fetched (create_call key (js "/crm/v3/objects/contacts")
                               (Rev2.contactPayload f));
                    Waited 2000;
                    Fetched (update_call key id (Rev2.customPayload f)) ])
      /\ (o = Returned (field (js "id") data) \/ exists e, o = Thrown e).
  Proof.
    intros Hr Hok Hj Hn Hu Hid. unfold Rev2.create_or_update. unfold bind at 1, fetch.
    rewrite Hr, (ok_not_conflict r Hok), Hok. unfold bind at 1, json.
    rewrite Hj. unfold ret at 1. unfold bind at 1.
    rewrite (get_object data (js "id")) by assumption.
    unfold bind at 1.
    destruct (update_custom_properties_run (field (js "id") data) f
                (tr ++ [Fetched (create_call key (js "/crm/v3/objects/contacts")
                                   (Rev2.contactPayload f))])) as (o & E).
    rewrite E, Hid, <- app_assoc. simpl.
    destruct o as [[]|e]; unfold ret; eauto.
  Qed.

  (** After its contact phase the second revision sends no contact call;
      it answers [200] when the phase returned and the ids convert. *)
Lemma Rev2_after_contact (req : Request) (f : Fields) (o : Outcome value)
      (tr1 : list Event) :
    req_method req = js "POST" ->
    Rev2.key_missing key = false ->
    read_form (req_body req) [] = (Returned f, []) ->
    Rev2.create_or_update key w f [] = (o, tr1) ->
    exists reply tr2,
      Rev2.handler key w req [] = (Returned reply, tr2)
      /\ filter is_create (calls tr2) = filter is_create (calls tr1)
      /\ filter is_update (calls tr2) = filter is_update (calls tr1)
      /\ match o with
         | Returned cid =>
             (reply = success_reply cid \/ reply = failure_reply)
             /\ (ids_convert w -> reply = success_reply cid)
         | Thrown _ => reply = failure_reply /\ tr2 = tr1
         end.
  Proof.
    intros Hm Hk Hf Hc. unfold Rev2.handler. rewrite (method_check req Hm), Hk.
    unfold try_catch, bind. rewrite Hf, Hc.
    destruct o as [cid|e]; [|exists failure_reply, tr1; repeat split; reflexivity].
    destruct (handle_photos key w true (req_body req) cid tr1) as [[[]|x] tr2] eqn:E.
    - exists (success_reply cid), tr2. split; [reflexivity|].
      destruct (handle_photos_no_contact_call true _ _ _ _ _ E) as [E1 E2].
      repeat split; auto.
    - exists failure_reply, tr2. split; [reflexivity|].
      destruct (handle_photos_no_contact_call true _ _ _ _ _ E) as [E1 E2].
      repeat split; auto.
      intros Hw. exfalso.
      destruct (handle_photos_returns key w true (req_body req) cid tr1) as (tr3 & E3).
      + intros Hb. rewrite Hb in Hf. discriminate.
      + intros Hb. rewrite Hb in Hf. discriminate.
      + right. split; [exact Hw|]. exact (Rev2_create_or_update_converts f _ _ _ Hc).
      + rewrite E in E3. discriminate.
  Qed.

Lemma Rev2_after_contact_resolved (req : Request) (f : Fields) (cid : value)
      (tr1 : list Event) :
    req_method req = js "POST" ->
    Rev2.key_missing key = false ->
    read_form (req_body req) [] = (Returned f, []) ->
    Rev2.create_or_update key w f [] = (Returned cid, tr1) ->
    ids_convert w ->
    exists tr2,
      handle_photos key w true (req_body req) cid tr1 = (Returned tt, tr2) /\
      Rev2.handler key w req [] = (Returned (success_reply cid), tr2).
  Proof.
    intros Hm Hk Hf Hc Hw.
    destruct (handle_photos_returns key w true (req_body req) cid tr1) as (tr2 & E).
    - intros Hb. rewrite Hb in Hf. discriminate.
    - intros Hb. rewrite Hb in Hf. discriminate.
    - right. split; [exact Hw|]. exact (Rev2_create_or_update_converts f _ _ _ Hc).
    - exists tr2. split; [assumption|].
      unfold Rev2.handler. rewrite (method_check req Hm), Hk.
      unfold try_catch, bind. now rewrite Hf, Hc, E.
  Qed.
End Handlers.

Lemma is_create_v3 (key : option jstring) (P : value) :
  is_create (create_call key (js "/crm/v3/contacts") P) = true.
Proof. reflexivity. Qed.

Lemma is_create_objects (key : option jstring) (P : value) :
  is_create (create_call key (js "/crm/v3/objects/contacts") P) = true.
Proof. reflexivity. Qed.

(** Without a contact id the photo phase does nothing. *)
Lemma handle_photos_unresolved (key : option jstring) (w : World) (verbose : bool)
    (fd cid : value) (tr tr' : list Event) (o : Outcome unit) :
  truthy cid = false ->
  handle_photos key w verbose fd cid tr = (o, tr') -> tr' = tr.
Proof.
  intros Hc. unfold handle_photos, bind, get, ret, throw.
  destruct fd; try (intros H; now injection H);
    (destruct (field _ _); try (intros H; now injection H);
     rewrite Hc, andb_false_r; intros H; now injection H).
Qed.

(* ================================================================== *)
(** * C1: a conflict that names no record *)

(** For every world: the conflict is not resolved, no update is issued, and
    the first revision still answers [200] with [success: true] and no
    [contactId]. *)
Lemma Rev1_unresolved_conflict (key : option jstring) (w : World) (req : Request)
    (f : Fields) (r : Response) (errorData : value) (s : jstring) :
  req_method req = js "POST" ->
  read_form (req_body req) [] = (Returned f, []) ->
  (forall c, is_create c = true -> respond w [] c = Responded r) ->
  status r = 409 ->
  json_body r = Some errorData ->
  field (js "message") errorData = VStr s ->
  match_existing_id s = VUndefined ->
  Rev1.handler key w req []
  = (Returned (success_reply VUndefined),
     [Fetched (create_call key (js "/crm/v3/contacts") (contactPayload f))]).
Proof.
  intros Hm Hf Hw Hs Hj Hmsg Hno.
  assert (Hc := create_or_update_unresolved key w (contactPayload f) [] r errorData s
                  (Hw _ (is_create_v3 key _)) Hs Hj Hmsg Hno).
  destruct (Rev1_after_contact key w req f _ _ Hm Hf Hc) as (tr2 & Hp & Hh).
  rewrite Hh. f_equal.
  eapply handle_photos_unresolved; [|exact Hp]. reflexivity.
Qed.

(** C1 (code defect): the contact-create call is answered [409] with the message
    [Contact already exists], which holds no [Existing ID: <digits>].  The
    handler issues no update call, as the claim says, but it answers [200]
    with [success: true] and no [contactId], where the claim says [500]. *)
Theorem C1_unresolved_conflict_is_answered_200 :
  let out := Rev1.handler token (scripted [conflict "Contact already exists"])
               submission [] in
  match_existing_id (js "Contact already exists") = VUndefined
  /\ reply_of out = Some (success_reply VUndefined)
  /\ reply_status (success_reply VUndefined) = 200
  /\ field (js "success") (reply_json (success_reply VUndefined)) = VBool true
  /\ field (js "contactId") (reply_json (success_reply VUndefined)) = VUndefined
  /\ filter is_update (calls (snd out)) = []
  /\ List.length (calls (snd out)) = 1%nat.
Proof. vm_compute. repeat split. Qed.

(* ================================================================== *)
(** * C2: a new contact *)

(** C2 (counterexample): the second revision, on a submission whose create call
    is answered [201] with id [501], answers [200] with that id but has
    issued a PATCH call (the update that carries the custom properties),
    where the claim says zero. *)
Lemma C2_counterexample :
  let w := scripted [created "501"; answer 200 (VObj [ (js "id", VStr (js "501")) ])] in
  let out := Rev2.handler token w submission [] in
  (forall c, respond w [] c = created "501")
  /\ reply_of out = Some (success_reply (VStr (js "501")))
  /\ List.length (filter is_create (calls (snd out))) = 1%nat
  /\ List.length (filter is_update (calls (snd out))) = 1%nat
  /\ filter is_update (calls (snd out)) <> [].
Proof.
  vm_compute. repeat split. discriminate.
Qed.

(** C2 (amended): when the contact-create call of a valid submission is answered
    2xx with a JSON body, revision one issues exactly one create call and
    no PATCH call and answers [200] with the [id] of the create response;
    so does revision three when that [id] has a text (a string or a
    number, as the CRM gives).  Revision two then issues exactly one create
    call and exactly one PATCH call, which carries the custom properties to
    that [id], and its [200] answer carries that [id]. *)
Theorem C2_new_contact (key : option jstring) (w : World) (req : Request)
    (f : Fields) (r : Response) (data : value) :
  req_method req = js "POST" ->
  read_form (req_body req) [] = (Returned f, []) ->
  (forall c, is_create c = true -> respond w [] c = Responded r) ->
  ok r = true ->
  json_body r = Some data ->
  data <> VNull -> data <> VUndefined ->
  let id := field (js "id") data in
  (let out := Rev1.handler key w req [] in
   filter is_create (calls (snd out))
   = [create_call key (js "/crm/v3/contacts") (contactPayload f)]
   /\ filter is_update (calls (snd out)) = []
   /\ fst out = Returned (success_reply id))
  /\
  (ToString id <> None ->
   let out := Rev3.handler key w req [] in
   filter is_create (calls (snd out))
   = [create_call key (js "/crm/v3/contacts") (contactPayload f)]
   /\ filter is_update (calls (snd out)) = []
   /\ fst out = Returned (success_reply id))
  /\
  (Rev2.key_missing key = false ->
   forall idText, ToString id = Some idText ->
   let out := Rev2.handler key w req [] in
   filter is_create (calls (snd out))
   = [create_call key (js "/crm/v3/objects/contacts") (Rev2.contactPayload f)]
   /\ filter is_update (calls (snd out))
      = [update_call key idText (Rev2.customPayload f)]
   /\ (fst out = Returned (success_reply id) \/ fst out = Returned failure_reply)
   /\ (forall reply, fst out = Returned reply -> reply_status reply = 200 ->
       reply = success_reply id)).
Proof.
  intros Hm Hf Hw Hok Hj Hn Hu id.
  assert (Hc := create_or_update_created key w (contactPayload f) [] r data
                  (Hw _ (is_create_v3 key _)) Hok Hj Hn Hu).
  split; [|split].
  - destruct (Rev1_after_contact key w req f _ _ Hm Hf Hc) as (tr2 & Hp & Hh).
    rewrite Hh. cbn [fst snd].
    destruct (handle_photos_no_contact_call key w _ _ _ _ _ _ Hp) as [E1 E2].
    rewrite E1, E2. repeat split; reflexivity.
  - intros Hid.
    rewrite (Rev3_after_contact key w req f _ _ Hm Hf Hc);
      [repeat split; reflexivity|exact Hid].
  - intros Hk idText Hid.
    destruct (Rev2_create_or_update_created key w f [] r data idText
                (Hw _ (is_create_objects key _)) Hok Hj Hn Hu Hid) as (o & Hr & Ho).
    destruct (Rev2_after_contact key w req f o _ Hm Hk Hf Hr)
      as (reply & tr2 & Hh & E1 & E2 & Hcase).
    rewrite Hh. cbn [fst snd]. rewrite E1, E2.
    split; [reflexivity|]. split; [reflexivity|].
    destruct Ho as [->|[e ->]].
    + destruct Hcase as [[->| ->] _]; (split; [auto|]);
        intros reply' H H5; injection H as <-; [reflexivity|discriminate].
    + destruct Hcase as [-> _]. split; [auto|].
      intros reply' H H5. injection H as <-. discriminate.
Qed.

(** The amended C2 on a run: a new contact, created with id [501] by the first
    revision. *)
Lemma C2_new_contact_witness :
  let out := Rev1.handler token (scripted [created "501"]) submission [] in
  List.length (filter is_create (calls (snd out))) = 1%nat
  /\ filter is_update (calls (snd out)) = []
  /\ fst out = Returned (success_reply (VStr (js "501"))).
Proof.
  destruct (C2_new_contact token (scripted [created "501"]) submission
    {| firstname := VStr (js "John"); lastname := VStr (js "Smith");
       email := VStr (js "john@school.edu"); phone := VStr (js "+61400000000");
       company := VStr (js "Example School"); jobtitle := VStr (js "Principal");
       serviceType := VStr (js "primary-school");
       studentCount := VStr (js "300-500");
       budgetRange := VStr (js "100k-250k");
       ageGroup := VStr (js "middle-primary");
       additionalInfo := VStr (js "We need help with outdoor spaces");
       planningStage := VStr (js "exploring;preparing-next-budget") |}
    {| status := 201; statusText := []; text_body := Some [];
       json_body := Some (VObj [ (js "id", VStr (js "501")) ]) |}
    (VObj [ (js "id", VStr (js "501")) ]))
    as [(H1 & H2 & H3) _];
    try reflexivity; try discriminate.
  cbv zeta. rewrite H1, H2, H3. repeat split.
Defined.

(* ================================================================== *)
(** * C3: a conflict that names the existing record *)

(** For every world: once the conflict names a record, the update is sent
    to it, and whatever status the update is answered with, its JSON body
    is read for an [id].  When the body holds none (an error body, say),
    the first revision answers [200] with [success: true] and no usable
    [contactId], after the create call and the update alone. *)
Lemma Rev1_update_status_unchecked (key : option jstring) (w : World) (req : Request)
    (f : Fields) (r r2 : Response) (errorData updateData : value) (s d : jstring) :
  req_method req = js "POST" ->
  read_form (req_body req) [] = (Returned f, []) ->
  let create := create_call key (js "/crm/v3/contacts") (contactPayload f) in
  let update := update_call key d (contactPayload f) in
  respond w [] create = Responded r ->
  status r = 409 ->
  json_body r = Some errorData ->
  field (js "message") errorData = VStr s ->
  match_existing_id s = VStr d ->
  respond w [Fetched create] update = Responded r2 ->
  json_body r2 = Some updateData ->
  updateData <> VNull -> updateData <> VUndefined ->
  truthy (field (js "id") updateData) = false ->
  Rev1.handler key w req []
  = (Returned (success_reply (field (js "id") updateData)),
     [Fetched create; Fetched update]).
Proof.
  intros Hm Hf create update Hr Hs Hj Hmsg Hd Hr2 Hj2 Hn Hu Ht.
  assert (Hc : create_or_update key w (contactPayload f) []
               = (Returned (field (js "id") updateData),
                  [Fetched create; Fetched update])).
  { rewrite (create_or_update_conflict key w _ [] r errorData s d Hr Hs Hj Hmsg Hd).
    unfold bind, fetch. cbn [app]. fold create update. rewrite Hr2.
    unfold json. rewrite Hj2. unfold ret at 1.
    now rewrite (get_object updateData (js "id")) by assumption. }
  destruct (Rev1_after_contact key w req f _ _ Hm Hf Hc) as (tr2 & Hp & Hh).
  rewrite Hh. f_equal.
  exact (handle_photos_unresolved key w false _ _ _ _ _ Ht Hp).
Qed.

(** C3 (code defect): the create call is answered [409] with a message that
    holds [Existing ID: 123].  The handler issues one update, addressed to
    [123], as the claim says.  The update is refused: it is answered [400]
    with an error body, which has no [id].  The status of that answer is
    never looked at, and the first revision and the Astro route answer
    [200] with [success: true] and no [contactId], where the claim says the
    [contactId] is [123]. *)
Theorem C3_refused_update_is_answered_200 :
  let w := scripted
             [ conflict "Contact already exists. Existing ID: 123";
               answer 400 (VObj [ (js "status", VStr (js "error"));
                                  (js "category", VStr (js "VALIDATION_ERROR")) ]) ] in
  let sent (out : Outcome Reply * list Event) :=
    List.map (fun a => (method (fst a), url (fst a),
                        match snd a with
                        | Responded r => Some (status r)
                        | Rejected => None
                        end))
      (answers w (snd out)) in
  let answered_200_without_id (out : Outcome Reply * list Event) :=
    exists reply,
      reply_of out = Some reply
      /\ reply_status reply = 200
      /\ field (js "success") (reply_json reply) = VBool true
      /\ field (js "contactId") (reply_json reply) = VUndefined in
  let expected :=
    [ (js "POST", js "https://api.hubapi.com/crm/v3/contacts", Some 409);
      (js "PATCH", js "https://api.hubapi.com/crm/v3/objects/contacts/123", Some 400) ] in
  match_existing_id (js "Contact already exists. Existing ID: 123") = VStr (js "123")
  /\ sent (Rev1.handler token w submission []) = expected
  /\ answered_200_without_id (Rev1.handler token w submission [])
  /\ sent (Astro.POST token w (Some multipart_form) []) = expected
  /\ answered_200_without_id (Astro.POST token w (Some multipart_form) []).
Proof.
  vm_compute. repeat split; eexists; repeat split.
Qed.

(* ================================================================== *)
(** * C4: the missing token *)

(** C4 (counterexample): with no token configured, the second revision answers
    a [GET] request [405], not [500]; and the first revision, which has no
    check of the token, issues the create call with [Bearer undefined] and
    answers [200] when that call is accepted. *)
Lemma C4_counterexample :
  (let out := Rev2.handler None (scripted [])
                {| req_method := js "GET"; req_body := VUndefined |} [] in
   out = (Returned method_not_allowed, [])
   /\ reply_status method_not_allowed = 405)
  /\
  (let out := Rev1.handler None (scripted [created "501"]) submission [] in
   List.map headers (calls (snd out))
   = [ [ (js "Authorization", js "Bearer undefined");
         (js "Content-Type", js "application/json") ] ]
   /\ List.map url (calls (snd out)) = [js "https://api.hubapi.com/crm/v3/contacts"]
   /\ reply_of out = Some (success_reply (VStr (js "501")))
   /\ reply_status (success_reply (VStr (js "501"))) = 200).
Proof. vm_compute. repeat split. Qed.

(** C4 (amended): in the revision that checks its configuration, every POST
    request served without a token (unset or empty) is answered [500] with
    no outbound call at all; a request of another method is answered [405],
    also with no outbound call. *)
Theorem C4_missing_token (key : option jstring) (w : World) (req : Request) :
  Rev2.key_missing key = true ->
  Rev2.key_missing None = true
  /\ reply_status Rev2.config_error_reply = 500
  /\ (req_method req = js "POST" ->
      Rev2.handler key w req [] = (Returned Rev2.config_error_reply, []))
  /\ (req_method req <> js "POST" ->
      Rev2.handler key w req [] = (Returned method_not_allowed, [])).
Proof.
  intros Hk. split; [reflexivity|]. split; [reflexivity|]. split.
  - intros Hm. unfold Rev2.handler. rewrite (method_check req Hm), Hk. reflexivity.
  - intros Hm. unfold Rev2.handler.
    destruct (jstring_eqb (req_method req) (js "POST")) eqn:E; [|reflexivity].
    apply jstring_eqb_eq in E. contradiction.
Qed.

(** The amended C4 on a run: no token, a POST request, no call. *)
Lemma C4_missing_token_witness :
  Rev2.handler None (scripted [created "501"]) submission []
  = (Returned Rev2.config_error_reply, []).
Proof.
  apply (C4_missing_token None (scripted [created "501"]) submission); reflexivity.
Defined.

(* ================================================================== *)
(** * C9: what a hard failure answers *)

(** Splits on the outcome of every step of a run. *)
Ltac run_cases :=
  repeat match goal with
         | |- context [match ?m ?tr with _ => _ end] =>
             destruct (m tr) as [[?|?] ?]
         | |- context [if ?b then _ else _] => destruct b
         end.

Section Replies.
Variable key : option jstring.
Variable w : World.

Lemma Rev1_replies (req : Request) :
    exists reply,
      fst (Rev1.handler key w req []) = Returned reply
      /\ (reply = method_not_allowed \/ reply = failure_reply
          \/ exists cid, reply = success_reply cid).
  Proof.
    unfold Rev1.handler, try_catch, bind, ret. run_cases; cbn [fst]; eauto 6.
  Qed.

Lemma Rev3_replies (req : Request) :
    exists reply,
      fst (Rev3.handler key w req []) = Returned reply
      /\ (reply = method_not_allowed \/ reply = failure_reply
          \/ exists cid, reply = success_reply cid).
  Proof.
    unfold Rev3.handler, try_catch, bind, ret. run_cases; cbn [fst]; eauto 6.
  Qed.

Lemma Astro_replies (request : option Astro.FormData) :
    exists reply,
      fst (Astro.POST key w request []) = Returned reply
      /\ (reply = failure_reply \/ exists cid, reply = success_reply cid).
  Proof.
    unfold Astro.POST, try_catch, bind. destruct request; unfold ret, throw;
      run_cases; cbn [fst]; eauto 6.
  Qed.

Lemma Rev2_replies (req : Request) :
    exists reply,
      fst (Rev2.handler key w req []) = Returned reply
      /\ (reply = method_not_allowed
          \/ (reply = Rev2.config_error_reply /\ Rev2.key_missing key = true)
          \/ (reply = failure_reply /\ Rev2.key_missing key = false)
          \/ exists cid, reply = success_reply cid).
  Proof.
    unfold Rev2.handler, try_catch.
    destruct (negb _); [unfold ret; cbn [fst]; eauto|].
    destruct (Rev2.key_missing key) eqn:Ek; [unfold ret; cbn [fst]; eauto 6|].
    unfold bind, ret.
    run_cases; cbn [fst]; eexists; (split; [reflexivity|]);
      first [ now (right; right; left) | right; right; right; eauto ].
  Qed.
End Replies.

(** C9 (counterexample): two requests to the second revision that both end in
    a [500]: one served without a token, one whose create call is refused.
    The two bodies differ. *)
Lemma C9_counterexample :
  let out1 := Rev2.handler None (scripted []) submission [] in
  let out2 := Rev2.handler token (scripted [answer 400 (VObj [])]) submission [] in
  exists reply1 reply2,
    reply_of out1 = Some reply1 /\ reply_of out2 = Some reply2
    /\ reply_status reply1 = 500 /\ reply_status reply2 = 500
    /\ field (js "message") (reply_json reply1)
       = VStr (js "Server configuration error. Please contact support.")
    /\ field (js "message") (reply_json reply2)
       = VStr (js "An error occurred. Please try again or contact us directly.")
    /\ reply_json reply1 <> reply_json reply2.
Proof.
  vm_compute. do 2 eexists. repeat split. discriminate.
Qed.

(** C9 (amended): a [500] body of the first and third revisions and of the Astro
    route is the one fixed generic message; a [500] body of the second
    revision is that message when a token is configured and the fixed
    configuration message when none is.  So two hard failures under one
    configuration have the same body, and no [500] body depends on the
    request or on what the CRM answered. *)
Theorem C9_hard_failure_body (key : option jstring) (w : World) (req : Request)
    (request : option Astro.FormData) (reply : Reply) :
  reply_status reply = 500 ->
  (fst (Rev1.handler key w req []) = Returned reply -> reply = failure_reply)
  /\ (fst (Rev3.handler key w req []) = Returned reply -> reply = failure_reply)
  /\ (fst (Astro.POST key w request []) = Returned reply -> reply = failure_reply)
  /\ (fst (Rev2.handler key w req []) = Returned reply ->
      reply = if Rev2.key_missing key then Rev2.config_error_reply else failure_reply).
Proof.
  intros H5. repeat split; intros H.
  - destruct (Rev1_replies key w req) as (r & E & [->|[->|[cid ->]]]);
      rewrite E in H; injection H as <-; try reflexivity; discriminate.
  - destruct (Rev3_replies key w req) as (r & E & [->|[->|[cid ->]]]);
      rewrite E in H; injection H as <-; try reflexivity; discriminate.
  - destruct (Astro_replies key w request) as (r & E & [->|[cid ->]]);
      rewrite E in H; injection H as <-; try reflexivity; discriminate.
  - destruct (Rev2_replies key w req) as (r & E & [->|[[-> Hk]|[[-> Hk]|[cid ->]]]]);
      rewrite E in H; injection H as <-; try rewrite Hk; try reflexivity; discriminate.
Qed.

(** The amended C9 on a run: a refused create call is answered with the
    generic body. *)
Lemma C9_hard_failure_body_witness :
  fst (Rev1.handler token (scripted [answer 400 (VObj [])]) submission [])
  = Returned failure_reply
  /\ reply_status failure_reply = 500.
Proof.
  split; [|reflexivity].
  destruct (Rev1_replies token (scripted [answer 400 (VObj [])]) submission)
    as (reply & E & _).
  rewrite E. f_equal.
  apply (C9_hard_failure_body token (scripted [answer 400 (VObj [])]) submission None reply).
  - vm_compute in E. now injection E as <-.
  - exact E.
Defined.

(** ** Every call of the other handlers *)

Lemma emitted_calls {A} (Q : Call -> Prop) (m : M A) (c : Call) :
  emits Q m -> In c (calls (snd (m []))) -> Q c.
Proof.
  intros E Hin. destruct (E []) as (evs & Et & F). simpl in Et.
  rewrite Et in Hin. rewrite Forall_forall in F. now apply F.
Qed.

(** The values of a form are strings and files, which all have a text. *)
Lemma form_getAll_joins (sep name : jstring) (fd : Astro.FormData) :
  exists joined, array_join sep (Astro.form_getAll name fd) = Some joined.
Proof.
  apply array_join_converts.
  induction fd as [|[k e] fd IH]; cbn [Astro.form_getAll]; [constructor|].
  destruct (jstring_eqb name k); [|exact IH].
  constructor; [|exact IH]. destruct e; discriminate.
Qed.

Lemma Astro_read_form_pure (fd : Astro.FormData) (tr : list Event) :
  Astro.read_form fd tr = (fst (Astro.read_form fd []), tr).
Proof.
  unfold Astro.read_form, bind, call_trim, attempt, ret, throw.
  destruct (Astro.form_get _ fd); try reflexivity;
    destruct (array_join _ _); reflexivity.
Qed.

Lemma Astro_read_form_returned (fd : Astro.FormData) (f : Fields)
    (tr tr' : list Event) :
  Astro.read_form fd tr = (Returned f, tr') ->
  tr' = tr /\
  exists nameParts stage,
    (match Astro.form_get (js "contactName") fd with
     | VStr s => nameParts = split 32 (trim s)
     | _ => nameParts = [[]; []]
     end) /\
    array_join (js ";") (Astro.form_getAll (js "phase[]") fd) = Some stage /\
    f = {| firstname := or_else (index nameParts 0) (VStr []);
           lastname := or_else (VStr (join (js " ") (tl nameParts))) (VStr []);
           email := Astro.form_get (js "email") fd;
           phone := Astro.form_get (js "phone") fd;
           company := Astro.form_get (js "serviceName") fd;
           jobtitle := Astro.form_get (js "position") fd;
           serviceType := Astro.form_get (js "serviceType") fd;
           studentCount := Astro.form_get (js "studentCount") fd;
           budgetRange := Astro.form_get (js "indicativeBudget") fd;
           ageGroup := Astro.form_get (js "ageGroup") fd;
           additionalInfo := Astro.form_get (js "additional-info") fd;
           planningStage := VStr stage |}.
Proof.
  unfold Astro.read_form, bind, call_trim, attempt, ret, throw.
  destruct (Astro.form_get (js "contactName") fd); try discriminate;
    (destruct (array_join _ _) as [stage|] eqn:Ej; try discriminate;
     intros H; injection H as <- <-; split; try reflexivity;
     do 2 eexists; repeat split; reflexivity).
Qed.

Lemma form_get_absent (name : jstring) (fd : Astro.FormData) :
  Astro.form_getAll name fd = [] -> Astro.form_get name fd = VNull.
Proof.
  induction fd as [|[k e] fd IH]; [reflexivity|].
  cbn [Astro.form_getAll Astro.form_get].
  destruct (jstring_eqb name k); [discriminate|exact IH].
Qed.

Lemma emits_bind_ret {A B} (Q : Call -> Prop) (a : A) (k : A -> M B) :
  emits Q (k a) -> emits Q (bind (ret a) k).
Proof. intros H tr. exact (H tr). Qed.

(** What follows the reading of the form runs on the fields that were
    read. *)
Lemma emits_read_form {B} (Q : Call -> Prop) (fd : value) (k : Fields -> M B) :
  (forall f, read_form fd [] = (Returned f, []) -> emits Q (k f)) ->
  emits Q (bind (read_form fd) k).
Proof.
  intros H tr. unfold bind. rewrite read_form_pure.
  destruct (fst (read_form fd [])) as [f|e] eqn:E.
  - apply H. now rewrite read_form_pure, E.
  - exists []. cbn. rewrite app_nil_r. auto.
Qed.

Lemma emits_Astro_read_form {B} (Q : Call -> Prop) (fd : Astro.FormData)
    (k : Fields -> M B) :
  (forall f, Astro.read_form fd [] = (Returned f, []) -> emits Q (k f)) ->
  emits Q (bind (Astro.read_form fd) k).
Proof.
  intros H tr. unfold bind. rewrite Astro_read_form_pure.
  destruct (fst (Astro.read_form fd [])) as [f|e] eqn:E.
  - apply H. now rewrite Astro_read_form_pure, E.
  - exists []. cbn. rewrite app_nil_r. auto.
Qed.

Section Calls.
Variable key : option jstring.
Variable w : World.

Lemma Rev3_calls (req : Request) (c : Call) :
    In c (calls (snd (Rev3.handler key w req []))) ->
    exists f,
      read_form (req_body req) [] = (Returned f, []) /\
      (c = create_call key (js "/crm/v3/contacts") (contactPayload f)
       \/ exists id, c = update_call key id (contactPayload f)).
  Proof.
    intros Hin. pattern c.
    apply (emitted_calls _ (Rev3.handler key w req) c); [|exact Hin].
    unfold Rev3.handler. destruct (negb _); [apply emits_ret|].
    apply emits_try_catch; [|intro; apply emits_ret]. cbv zeta.
    apply emits_read_form. intros f Hf.
    eapply emits_weaken; [intros c0 H; exists f; split; [exact Hf|exact H]|].
    apply emits_bind; [apply create_or_update_emits|intro].
    repeat emits_step.
  Qed.

Lemma Astro_calls (fd : Astro.FormData) (c : Call) :
    In c (calls (snd (Astro.POST key w (Some fd) []))) ->
    exists f,
      Astro.read_form fd [] = (Returned f, []) /\
      (c = create_call key (js "/crm/v3/contacts") (contactPayload f)
       \/ exists id, c = update_call key id (contactPayload f)).
  Proof.
    intros Hin. pattern c.
    apply (emitted_calls _ (Astro.POST key w (Some fd)) c); [|exact Hin].
    unfold Astro.POST.
    apply emits_try_catch; [|intro; apply emits_ret].
    apply emits_bind_ret. apply emits_Astro_read_form. intros f Hf.
    eapply emits_weaken; [intros c0 H; exists f; split; [exact Hf|exact H]|].
    apply emits_bind; [apply create_or_update_emits|intro].
    repeat emits_step.
  Qed.

Lemma Rev2_create_or_update_emits (f : Fields) :
    emits (fun c =>
             c = create_call key (js "/crm/v3/objects/contacts") (Rev2.contactPayload f)
             \/ (exists id, c = update_call key id (Rev2.contactPayload f))
             \/ exists id, c = update_call key id (Rev2.customPayload f))
      (Rev2.create_or_update key w f).
  Proof.
    unfold Rev2.create_or_update, Rev2.update_custom_properties.
    repeat emits_step; eauto.
  Qed.

Lemma Rev2_calls (req : Request) (c : Call) :
    In c (calls (snd (Rev2.handler key w req []))) ->
    exists f,
      read_form (req_body req) [] = (Returned f, []) /\
      (c = create_call key (js "/crm/v3/objects/contacts") (Rev2.contactPayload f)
       \/ (exists id, c = update_call key id (Rev2.contactPayload f))
       \/ (exists id, c = update_call key id (Rev2.customPayload f))
       \/ is_upload c = true
       \/ exists cid attachments, c = note_call key cid attachments).
  Proof.
    intros Hin. pattern c.
    apply (emitted_calls _ (Rev2.handler key w req) c); [|exact Hin].
    unfold Rev2.handler. destruct (negb _); [apply emits_ret|].
    apply emits_try_catch; [|intro; apply emits_ret].
    destruct (Rev2.key_missing key); [apply emits_ret|]. cbv zeta.
    apply emits_read_form. intros f Hf.
    eapply emits_weaken; [intros c0 H; exists f; split; [exact Hf|exact H]|].
    apply emits_bind.
    - eapply emits_weaken; [|apply Rev2_create_or_update_emits].
      intros c0 [H|[H|H]]; auto.
    - intros cid. apply emits_bind; [|intro; apply emits_ret].
      eapply emits_weaken; [|apply handle_photos_emits].
      intros c0 [H|[ids H]]; eauto 8.
  Qed.
End Calls.

(** A contact call of the single-payload handlers carries [contactPayload]. *)
Lemma contact_call_body (key : option jstring) (f : Fields) (c : Call) :
  c = create_call key (js "/crm/v3/contacts") (contactPayload f)
  \/ (exists id, c = update_call key id (contactPayload f)) ->
  body c = JsonBody (JSON_stringify
                       (VObj [ (js "properties",
                                VObj (basicProperties f ++ customProperties f)) ])).
Proof. intros [->|[id ->]]; reflexivity. Qed.

Lemma Rev1_contact_call (key : option jstring) (w : World) (req : Request) (c : Call) :
  In c (calls (snd (Rev1.handler key w req []))) ->
  is_contact_call c = true ->
  exists f,
    read_form (req_body req) [] = (Returned f, []) /\
    body c = JsonBody (JSON_stringify
                         (VObj [ (js "properties",
                                  VObj (basicProperties f ++ customProperties f)) ])).
Proof.
  intros Hin Hc. destruct (Rev1_calls key w req c Hin) as (f & Hf & H).
  exists f. split; [assumption|].
  destruct H as [H|[H|[H|(cid & ids & ->)]]].
  - apply (contact_call_body key f c); auto.
  - apply (contact_call_body key f c); auto.
  - apply upload_not_contact in H. congruence.
  - discriminate.
Qed.

Lemma Rev3_contact_call (key : option jstring) (w : World) (req : Request) (c : Call) :
  In c (calls (snd (Rev3.handler key w req []))) ->
  exists f,
    read_form (req_body req) [] = (Returned f, []) /\
    body c = JsonBody (JSON_stringify
                         (VObj [ (js "properties",
                                  VObj (basicProperties f ++ customProperties f)) ])).
Proof.
  intros Hin. destruct (Rev3_calls key w req c Hin) as (f & Hf & H).
  exists f. split; [assumption|]. now apply (contact_call_body key f c).
Qed.

Lemma Astro_contact_call (key : option jstring) (w : World) (fd : Astro.FormData)
    (c : Call) :
  In c (calls (snd (Astro.POST key w (Some fd) []))) ->
  exists f,
    Astro.read_form fd [] = (Returned f, []) /\
    body c = JsonBody (JSON_stringify
                         (VObj [ (js "properties",
                                  VObj (basicProperties f ++ customProperties f)) ])).
Proof.
  intros Hin. destruct (Astro_calls key w fd c Hin) as (f & Hf & H).
  exists f. split; [assumption|]. now apply (contact_call_body key f c).
Qed.

(* ================================================================== *)
(** * C6: the optional fields *)

Lemma optional_field_sent (fd : value) (f : Fields) (fk pk : jstring) :
  read_form fd [] = (Returned f, []) ->
  In (fk, pk) optional_fields ->
  exists v,
    lookup pk (basicProperties f ++ customProperties f) = v
    /\ lookup pk (customProperties f) = v
    /\ has_key pk (basicProperties f) = false
    /\ v <> VUndefined
    /\ (field fk fd = VUndefined -> v = VStr []).
Proof.
  intros Hf Hin. apply read_form_returned in Hf as (_ & s & stage & _ & Hst & ->).
  unfold optional_fields in Hin. cbn [In] in Hin.
  repeat (destruct Hin as [Hin|Hin];
          [ injection Hin as <- <-; eexists;
            split; [reflexivity|]; split; [reflexivity|]; split; [reflexivity|];
            split; [apply or_else_defined|];
            cbn [serviceType studentCount budgetRange ageGroup planningStage];
            intros H;
            first [ rewrite H; reflexivity
                  | rewrite H in Hst; injection Hst as <-; reflexivity ] | ]).
  destruct Hin.
Qed.

Lemma Astro_optional_field_sent (fd : Astro.FormData) (f : Fields) (fk pk : jstring) :
  Astro.read_form fd [] = (Returned f, []) ->
  In (fk, pk) optional_fields ->
  exists v,
    lookup pk (basicProperties f ++ customProperties f) = v
    /\ v <> VUndefined
    /\ (Astro.form_getAll fk fd = [] -> v = VStr []).
Proof.
  intros Hf Hin.
  apply Astro_read_form_returned in Hf as (_ & parts & stage & _ & Hst & ->).
  unfold optional_fields in Hin. cbn [In] in Hin.
  repeat (destruct Hin as [Hin|Hin];
          [ injection Hin as <- <-; eexists;
            split; [reflexivity|]; split; [apply or_else_defined|];
            cbn [serviceType studentCount budgetRange ageGroup planningStage];
            intros H;
            first [ rewrite (form_get_absent _ _ H); reflexivity
                  | rewrite H in Hst; injection Hst as <-; reflexivity ] | ]).
  destruct Hin.
Qed.

(** C6 (counterexample): the second revision, on a submission with none of the
    optional fields.  Its contact-create call carries none of the five
    keys; they are sent only by the later update. *)
Lemma C6_counterexample :
  let w := scripted [created "501"; answer 200 (VObj [ (js "id", VStr (js "501")) ])] in
  let out := Rev2.handler token w bare_submission [] in
  List.map is_contact_call (calls (snd out)) = [true; true]
  /\ List.map is_create (calls (snd out)) = [true; false]
  /\ List.map (fun c => List.map (fun k => property (snd k) c) optional_fields)
       (calls (snd out))
     = [ [None; None; None; None; None];
         [Some (VStr []); Some (VStr []); Some (VStr []); Some (VStr []);
          Some (VStr [])] ].
Proof. vm_compute. repeat split. Qed.

(** C6 (amended): in the first and third revisions and in the Astro route each
    optional enumerated field is a key of every outbound contact payload,
    create and update, with the empty string as its value when the
    submission has no such field.  In the second revision the create call and the first update
    carry none of these keys; the update that carries the custom
    properties has every one, with the empty string for an absent field. *)
Theorem C6_optional_fields (key : option jstring) (w : World) (req : Request)
    (c : Call) (fk pk : jstring) :
  In (fk, pk) optional_fields ->
  is_contact_call c = true ->
  (In c (calls (snd (Rev1.handler key w req [])))
   \/ In c (calls (snd (Rev3.handler key w req []))) ->
   exists v, property pk c = Some v
             /\ (field fk (req_body req) = VUndefined -> v = VStr []))
  /\
  (forall fd,
     In c (calls (snd (Astro.POST key w (Some fd) []))) ->
     exists v, property pk c = Some v
               /\ (Astro.form_getAll fk fd = [] -> v = VStr []))
  /\
  (In c (calls (snd (Rev2.handler key w req []))) ->
   exists f,
     read_form (req_body req) [] = (Returned f, [])
     /\ ((body c = JsonBody (JSON_stringify (Rev2.contactPayload f))
          /\ property pk c = None)
         \/ (is_update c = true
             /\ body c = JsonBody (JSON_stringify (Rev2.customPayload f))
             /\ exists v, property pk c = Some v
                          /\ (field fk (req_body req) = VUndefined -> v = VStr [])))).
Proof.
  intros Hk Hc. split; [|split].
  - intros Hin.
    assert (H : exists f, read_form (req_body req) [] = (Returned f, []) /\
                body c = JsonBody (JSON_stringify
                           (VObj [ (js "properties",
                                    VObj (basicProperties f ++ customProperties f)) ]))).
    { destruct Hin as [Hin|Hin];
        [now apply (Rev1_contact_call key w)|now apply (Rev3_contact_call key w)]. }
    destruct H as (f & Hf & Hb).
    destruct (optional_field_sent _ f fk pk Hf Hk) as (v & Hv & _ & _ & Hd & Ha).
    exists (JSON_stringify v). split.
    + rewrite <- Hv. apply property_present; [exact Hb|]. now rewrite Hv.
    + intros H. now rewrite (Ha H).
  - intros fd Hin. destruct (Astro_contact_call key w fd c Hin) as (f & Hf & Hb).
    destruct (Astro_optional_field_sent fd f fk pk Hf Hk) as (v & Hv & Hd & Ha).
    exists (JSON_stringify v). split.
    + rewrite <- Hv. apply property_present; [exact Hb|]. now rewrite Hv.
    + intros H. now rewrite (Ha H).
  - intros Hin. destruct (Rev2_calls key w req c Hin) as (f & Hf & H).
    exists f. split; [assumption|].
    destruct (optional_field_sent _ f fk pk Hf Hk) as (v & _ & Hv & Hb & Hd & Ha).
    destruct H as [->|[[id ->]|[[id ->]|[H|(cid & ids & ->)]]]].
    + left. split; [reflexivity|]. now apply (property_absent _ (basicProperties f)).
    + left. split; [reflexivity|]. now apply (property_absent _ (basicProperties f)).
    + right. split; [reflexivity|]. split; [reflexivity|].
      exists (JSON_stringify v). split.
      * rewrite <- Hv. apply property_present; [reflexivity|]. now rewrite Hv.
      * intros H. now rewrite (Ha H).
    + apply upload_not_contact in H. congruence.
    + discriminate.
Qed.

(** The amended C6 on a run: a submission without a budget sends the key with
    the empty string. *)
Lemma C6_optional_fields_witness :
  let out := Rev1.handler token (scripted [created "501"]) bare_submission [] in
  exists c, calls (snd out) = [c] /\ property (js "wearthy_budget_range") c = Some (VStr []).
Proof.
  intros out.
  destruct (calls (snd out)) as [|c [|]] eqn:E; try (vm_compute in E; discriminate).
  exists c. split; [reflexivity|].
  destruct (C6_optional_fields token (scripted [created "501"]) bare_submission c
              (js "indicativeBudget") (js "wearthy_budget_range")) as [H _].
  - cbn. tauto.
  - vm_compute in E. injection E as <-. reflexivity.
  - destruct H as (v & Hp & Hv).
    + left. fold out. rewrite E. now left.
    + rewrite Hp, Hv; reflexivity.
Defined.

(* ================================================================== *)
(** * C7: the planning stage *)


Lemma or_else_string (s : jstring) : or_else (VStr s) (VStr []) = VStr s.
Proof. now destruct s. Qed.





(* ================================================================== *)
(** * C8: the name *)

Lemma split_head (t : jstring) : index (split 32 t) 0 = VStr (before_first_space t).
Proof.
  induction t as [|c t IH]; [reflexivity|].
  cbn [split before_first_space]. destruct (c =? 32); [reflexivity|].
  destruct (split 32 t) as [|p ps] eqn:E.
  - now apply split_nonempty in E.
  - unfold index in *. cbn [nth_error] in *. now injection IH as ->.
Qed.

Lemma split_rest (t : jstring) :
  join (js " ") (tl (split 32 t)) = after_first_space t.
Proof.
  change (js " ") with [32].
  induction t as [|c t IH]; [reflexivity|].
  cbn [split after_first_space]. destruct (c =? 32).
  - cbn [tl]. apply join_split.
  - destruct (split 32 t) as [|p ps] eqn:E.
    + now apply split_nonempty in E.
    + exact IH.
Qed.

Lemma basic_firstname (f : Fields) (l : list (jstring * value)) :
  lookup (js "firstname") (basicProperties f ++ l) = firstname f.
Proof. reflexivity. Qed.

Lemma basic_lastname (f : Fields) (l : list (jstring * value)) :
  lookup (js "lastname") (basicProperties f ++ l) = lastname f.
Proof. reflexivity. Qed.

Lemma basic_firstname' (f : Fields) :
  lookup (js "firstname") (basicProperties f) = firstname f.
Proof. reflexivity. Qed.

Lemma basic_lastname' (f : Fields) :
  lookup (js "lastname") (basicProperties f) = lastname f.
Proof. reflexivity. Qed.

Lemma read_form_names (fd : value) (f : Fields) (s : jstring) :
  read_form fd [] = (Returned f, []) ->
  field (js "contactName") fd = VStr s ->
  firstname f = VStr (before_first_space (trim s))
  /\ lastname f = VStr (after_first_space (trim s)).
Proof.
  intros E H. apply read_form_returned in E as (_ & s0 & stage & Hs & _ & ->).
  rewrite H, or_else_string in Hs. injection Hs as <-.
  cbn [firstname lastname].
  now rewrite split_head, split_rest, !or_else_string.
Qed.

Lemma read_form_named (fd : value) (s : jstring) :
  field (js "contactName") fd = VStr s ->
  join_phase (field (js "phase[]") fd) <> None ->
  exists f,
    read_form fd [] = (Returned f, [])
    /\ firstname f = VStr (before_first_space (trim s))
    /\ lastname f = VStr (after_first_space (trim s)).
Proof.
  intros H Hp.
  destruct (join_phase (field (js "phase[]") fd)) as [stage|] eqn:Est; [|congruence].
  destruct (read_form_returns fd s stage) as (f & E).
  - intros ->. discriminate.
  - intros ->. discriminate.
  - rewrite H. apply or_else_string.
  - exact Est.
  - exists f. split; [exact E|]. exact (read_form_names fd f s E H).
Qed.

Lemma Astro_read_form_named (fd : Astro.FormData) (s : jstring) :
  Astro.form_get (js "contactName") fd = VStr s ->
  exists f,
    Astro.read_form fd [] = (Returned f, [])
    /\ firstname f = VStr (before_first_space (trim s))
    /\ lastname f = VStr (after_first_space (trim s)).
Proof.
  intros H.
  assert (E : exists f, Astro.read_form fd [] = (Returned f, [])).
  { destruct (form_getAll_joins (js ";") (js "phase[]") fd) as (j & Ej).
    unfold Astro.read_form, bind. rewrite H. unfold call_trim, ret at 1.
    unfold ret at 1. rewrite Ej. unfold attempt, ret. eauto. }
  destruct E as (f & E). exists f. split; [assumption|].
  apply Astro_read_form_returned in E as (_ & parts & stage & Hp & _ & ->).
  rewrite H in Hp. subst parts. cbn [firstname lastname].
  now rewrite split_head, split_rest, !or_else_string.
Qed.

(** C8 (counterexample): the contact name [ John Smith], with a space in front.
    The substring before its first space is empty and the remainder is
    [John Smith]; the handler sends [John] and [Smith]. *)
Lemma C8_counterexample :
  let name := js " John Smith" in
  let req := {| req_method := js "POST";
                req_body := VObj [ (js "contactName", VStr name);
                                   (js "email", VStr (js "john@school.edu")) ] |} in
  let out := Rev1.handler token (scripted [created "501"]) req [] in
  before_first_space name = []
  /\ after_first_space name = js "John Smith"
  /\ List.map (property (js "firstname")) (calls (snd out)) = [Some (VStr (js "John"))]
  /\ List.map (property (js "lastname")) (calls (snd out)) = [Some (VStr (js "Smith"))]
  /\ VStr (js "John") <> VStr (before_first_space name)
  /\ VStr (js "Smith") <> VStr (after_first_space name).
Proof. vm_compute. repeat split; discriminate. Qed.

(** C8 (amended): for every contact-name string, the given name sent to the CRM
    is the substring of the trimmed name before its first space (the whole
    trimmed name when it has none) and the family name is the remainder of
    the trimmed name after that space (empty when there is none). *)
Theorem C8_name_split (key : option jstring) (w : World) (req : Request)
    (s : jstring) :
  field (js "contactName") (req_body req) = VStr s ->
  let given := VStr (before_first_space (trim s)) in
  let family := VStr (after_first_space (trim s)) in
  (join_phase (field (js "phase[]") (req_body req)) <> None ->
   exists f, read_form (req_body req) [] = (Returned f, [])
             /\ firstname f = given /\ lastname f = family)
  /\ (forall c,
        In c (calls (snd (Rev1.handler key w req [])))
        \/ In c (calls (snd (Rev3.handler key w req []))) ->
        is_contact_call c = true ->
        property (js "firstname") c = Some given
        /\ property (js "lastname") c = Some family)
  /\ (forall c,
        In c (calls (snd (Rev2.handler key w req []))) ->
        is_create c = true ->
        property (js "firstname") c = Some given
        /\ property (js "lastname") c = Some family)
  /\ (forall fd,
        Astro.form_get (js "contactName") fd = VStr s ->
        exists f, Astro.read_form fd [] = (Returned f, [])
                  /\ firstname f = given /\ lastname f = family).
Proof.
  intros H given family.
  split; [intros Hp; exact (read_form_named _ s H Hp)|].
  split; [|split; [|intros fd; apply Astro_read_form_named]].
  - intros c Hin Hc.
    assert (Hb : exists f,
               read_form (req_body req) [] = (Returned f, []) /\
               body c = JsonBody (JSON_stringify
                           (VObj [ (js "properties",
                                    VObj (basicProperties f ++ customProperties f)) ]))).
    { destruct Hin as [Hin|Hin];
        [ exact (Rev1_contact_call key w req c Hin Hc)
        | exact (Rev3_contact_call key w req c Hin) ]. }
    destruct Hb as (f & Hf & Hb).
    destruct (read_form_names _ f s Hf H) as (Hg & Hl).
    fold given in Hg. fold family in Hl.
    split.
    + rewrite (property_present c _ (js "firstname") Hb);
        rewrite (basic_firstname f _), Hg; [reflexivity|discriminate].
    + rewrite (property_present c _ (js "lastname") Hb);
        rewrite (basic_lastname f _), Hl; [reflexivity|discriminate].
  - intros c Hin Hc.
    destruct (Rev2_calls key w req c Hin) as (f & Hf & Hcase).
    destruct (read_form_names _ f s Hf H) as (Hg & Hl).
    fold given in Hg. fold family in Hl.
    assert (Hb : body c = JsonBody (JSON_stringify
                           (VObj [ (js "properties", VObj (basicProperties f)) ]))).
    { destruct Hcase as [->|[[id ->]|[[id ->]|[Hu|(cid & ids & ->)]]]];
        try reflexivity; try discriminate.
      apply upload_not_contact in Hu. unfold is_contact_call in Hu.
      rewrite Hc in Hu. discriminate. }
    split.
    + rewrite (property_present c _ (js "firstname") Hb);
        rewrite (basic_firstname' f), Hg; [reflexivity|discriminate].
    + rewrite (property_present c _ (js "lastname") Hb);
        rewrite (basic_lastname' f), Hl; [reflexivity|discriminate].
Qed.

(** The amended C8 on a run: [John Smith] is split into [John] and [Smith]. *)
Lemma C8_name_split_witness :
  exists f, read_form (req_body submission) [] = (Returned f, [])
            /\ firstname f = VStr (js "John") /\ lastname f = VStr (js "Smith").
Proof.
  apply (C8_name_split token (scripted []) submission (js "John Smith")).
  - reflexivity.
  - vm_compute. discriminate.
Defined.

(* ================================================================== *)
(** * C5: photos, some of which fail to upload *)

Lemma nonempty_length {A} (l : list A) :
  l <> [] -> (0 <? N.of_nat (List.length l)) = true.
Proof. destruct l; [congruence|reflexivity]. Qed.

(** Splits on what the CRM and the parsed bodies may be. *)
Ltac crunch :=
  repeat (match goal with
          | |- context [match respond ?w ?t ?c with _ => _ end] =>
              destruct (respond w t c)
          | |- context [match json_body ?r with _ => _ end] => destruct (json_body r)
          | |- context [match text_body ?r with _ => _ end] => destruct (text_body r)
          | |- context [match ToString ?v with _ => _ end] => destruct (ToString v)
          | |- context [if ?b then _ else _] => destruct b
          | |- context [match ?v with VUndefined => _ | _ => _ end] => destruct v
          end; cbn [fst snd negb]).

Section Shape.
Variable key : option jstring.
Variable w : World.

Lemma create_or_update_shape (P : value) (tr : list Event) :
  exists o evs,
    create_or_update key w P tr = (o, tr ++ evs)
    /\ (evs = [Fetched (create_call key (js "/crm/v3/contacts") P)]
        \/ exists id,
             evs = [Fetched (create_call key (js "/crm/v3/contacts") P);
                    Fetched (update_call key id P)]).
Proof.
  unfold create_or_update, bind, fetch, json, get, call_match, to_string, attempt,
    ret, throw.
  crunch; rewrite <- ?app_assoc; cbn [app];
    do 2 eexists; (split; [reflexivity|]); eauto.
Qed.

(** The contact phase of the second revision: the create call first, at
    most three calls, and one wait of 2000 ms, which comes right before the
    update that carries the custom properties; that update is left out
    only when the id cannot be converted for its URL. *)
Lemma Rev2_create_or_update_shape (f : Fields) (tr : list Event) :
  let create := Fetched (create_call key (js "/crm/v3/objects/contacts")
                           (Rev2.contactPayload f)) in
  exists o evs,
    Rev2.create_or_update key w f tr = (o, tr ++ evs)
    /\ (evs = [create]
        \/ (exists id, evs = [create; Fetched (update_call key id (Rev2.contactPayload f))])
        \/ (exists id,
              evs = [create; Waited 2000;
                     Fetched (update_call key id (Rev2.customPayload f))])
        \/ (exists id id',
              evs = [create; Fetched (update_call key id (Rev2.contactPayload f));
                     Waited 2000;
                     Fetched (update_call key id' (Rev2.customPayload f))])
        \/ ((exists e, o = Thrown e)
            /\ (evs = [create; Waited 2000]
                \/ exists id,
                     evs = [create; Fetched (update_call key id (Rev2.contactPayload f));
                            Waited 2000]))).
Proof.
  intros create. unfold create.
  unfold Rev2.create_or_update, Rev2.update_custom_properties,
    bind, fetch, sleep, json, text, get, call_match, to_string, attempt, ret, throw.
  crunch; rewrite <- ?app_assoc; cbn [app];
    do 2 eexists; (split; [reflexivity|]); eauto 10.
Qed.
End Shape.







Section Photos.
Variable key : option jstring.
Variable w : World.




End Photos.

(** A scripted world whose answers hold ids with a text. *)
Lemma scripted_ids_convert (script : list FetchResult) :
  Forall (fun res => match res with
                     | Responded r =>
                         match json_body r with
                         | Some data => ToString (field (js "id") data) <> None
                         | None => True
                         end
                     | Rejected => True
                     end) script ->
  ids_convert (scripted script).
Proof.
  intros F tr c r data Hr Hj. cbn [scripted respond] in Hr.
  destruct (nth_in_or_default (List.length (calls tr)) script Rejected) as [Hin|Hd].
  - rewrite Forall_forall in F. apply F in Hin. rewrite Hr, Hj in Hin. exact Hin.
  - rewrite Hr in Hd. discriminate.
Qed.



(* ================================================================== *)
(** * C10: a photo that is no data URL *)

(** The decoding reads the low byte of a code unit: [U+0141] to [U+0144]
    are read as [A] to [D], and [U+013D] ends the decoding as [=] does. *)
Lemma from_base64_low_byte :
  Buffer.from_base64 (js "QUJD" ++ [321; 322; 323; 324; 317] ++ js "QUJD")
  = [65; 66; 67; 0; 16; 131].
Proof. reflexivity. Qed.

(** An upload gives [null] only when it fails. *)
Lemma upload_result_null (a : FetchResult) :
  upload_result a = VNull <->
  a = Rejected
  \/ exists r,
       a = Responded r
       /\ (ok r = false \/ json_body r = None \/ json_body r = Some VNull
           \/ json_body r = Some VUndefined
           \/ exists data, json_body r = Some data /\ field (js "id") data = VNull).
Proof.
  unfold upload_result. destruct a as [|r]; [split; auto|].
  split.
  - intros H. right. exists r. split; [reflexivity|].
    destruct (ok r); [|now left]. right.
    destruct (json_body r) as [d|]; [|now left]. right.
    destruct d; auto; right; right; eexists; (split; [reflexivity|exact H]).
  - intros [H|(r' & [= <-] & H)]; [discriminate|].
    destruct H as [->|[->|[->|[->|(d & -> & Hd)]]]]; try reflexivity;
      destruct (ok r); try reflexivity.
    destruct d; try reflexivity; exact Hd.
Qed.

Lemma upload_result_accepted (r : Response) (data : value) :
  ok r = true -> json_body r = Some data ->
  data <> VNull -> data <> VUndefined ->
  upload_result (Responded r) = field (js "id") data.
Proof.
  intros Hok Hj Hn Hu. unfold upload_result. rewrite Hok, Hj.
  destruct data; congruence.
Qed.

(** C10 (counterexample): the photo [data:image/jpeg;base64,!!!].  What follows
    its comma is no base64, yet the upload is issued, and when the CRM
    answers it with an id, [uploadFileToHubSpot] returns that id, not
    [null]. *)
Lemma C10_counterexample :
  let photo := VStr (js "data:image/jpeg;base64,!!!") in
  let out := uploadFileToHubSpot token (scripted [created "9001"]) photo
               (photo_file_name 1762128000000 0) [] in
  well_formed_base64 (js "!!!") = false
  /\ fst out = Returned (VStr (js "9001"))
  /\ fst out <> Returned VNull
  /\ List.map is_upload (calls (snd out)) = [true].
Proof. vm_compute. repeat split. discriminate. Qed.

(** C10 (amended): [uploadFileToHubSpot] never throws.  For a payload that is
    not a string, or a string without a comma, it returns [null] and issues
    no call.  A string with a comma is uploaded whatever follows the comma
    (the decoding refuses nothing), and the result is then what the answer
    to the upload holds: the [id] of its JSON body when the status is 2xx,
    [null] only when the upload itself fails.  Whatever the uploads give, a
    request whose contact is resolved is answered [200] with
    [success: true] (in the second revision, for a CRM whose ids have a
    text). *)
Theorem C10_upload_never_throws (key : option jstring) (w : World)
    (fileData : value) (fileName : jstring) (tr : list Event) :
  (exists v tr', uploadFileToHubSpot key w fileData fileName tr = (Returned v, tr'))
  /\ ((forall s, fileData <> VStr s) ->
      uploadFileToHubSpot key w fileData fileName tr = (Returned VNull, tr))
  /\ (forall s, fileData = VStr s -> ~ In 44 s ->
      uploadFileToHubSpot key w fileData fileName tr = (Returned VNull, tr))
  /\ (forall s, fileData = VStr s -> In 44 s ->
      exists base64Data,
        index (split 44 s) 1 = VStr base64Data
        /\ let call := upload_call key (js "----WebKitFormBoundary" ++ random36 w tr)
                         fileName (Buffer.from_base64 base64Data) in
           let answer := respond w (tr ++ [RandomDrawn]) call in
           uploadFileToHubSpot key w fileData fileName tr
           = (Returned (upload_result answer), tr ++ [RandomDrawn; Fetched call])
           /\ (upload_result answer = VNull <->
               answer = Rejected
               \/ exists r,
                    answer = Responded r
                    /\ (ok r = false \/ json_body r = None
                        \/ json_body r = Some VNull \/ json_body r = Some VUndefined
                        \/ exists data, json_body r = Some data
                                        /\ field (js "id") data = VNull))
           /\ (forall r data,
                 answer = Responded r -> ok r = true -> json_body r = Some data ->
                 data <> VNull -> data <> VUndefined ->
                 upload_result answer = field (js "id") data))
  /\ (forall req f cid tr1 out,
        req_method req = js "POST" ->
        read_form (req_body req) [] = (Returned f, []) ->
        (create_or_update key w (contactPayload f) [] = (Returned cid, tr1)
         /\ out = Rev1.handler key w req [])
        \/ (Rev2.key_missing key = false
            /\ ids_convert w
            /\ Rev2.create_or_update key w f [] = (Returned cid, tr1)
            /\ out = Rev2.handler key w req []) ->
        fst out = Returned (success_reply cid)
        /\ reply_status (success_reply cid) = 200
        /\ field (js "success") (reply_json (success_reply cid)) = VBool true).
Proof.
  split; [apply uploadFileToHubSpot_returns|]. split; [|split; [|split]].
  - intros H. apply upload_no_payload. destruct fileData; try reflexivity.
    now destruct (H s).
  - intros s -> H. apply upload_no_payload. cbn [has_payload].
    destruct (existsb (N.eqb 44) s) eqn:E; [|reflexivity].
    apply existsb_In in E. contradiction.
  - intros s -> H. destruct (upload_payload key w s fileName tr H) as (b & Hb & E).
    exists b. split; [exact Hb|]. cbv zeta in *. split; [exact E|].
    split; [apply upload_result_null|].
    intros r data -> Hok Hj Hn Hu. now apply upload_result_accepted.
  - intros req f cid tr1 out Hm Hf [[Hc ->]|(Hk & Hw & Hc & ->)].
    + destruct (Rev1_after_contact key w req f cid tr1 Hm Hf Hc) as (tr2 & _ & Hh).
      rewrite Hh. repeat split.
    + destruct (Rev2_after_contact_resolved key w req f cid tr1 Hm Hk Hf Hc Hw)
        as (tr2 & _ & Hh).
      rewrite Hh. repeat split.
Qed.

(** The amended C10 on a run: a photo without a comma gives [null] and no
    call. *)
Lemma C10_upload_never_throws_witness :
  uploadFileToHubSpot token (scripted [created "9001"]) (VStr (js "no data url"))
    (photo_file_name 1762128000000 0) []
  = (Returned VNull, []).
Proof.
  destruct (C10_upload_never_throws token (scripted [created "9001"])
              (VStr (js "no data url")) (photo_file_name 1762128000000 0) [])
    as (_ & _ & H & _).
  apply (H (js "no data url")).
  - reflexivity.
  - vm_compute. intuition discriminate.
Defined.

(* ================================================================== *)
(** * Further properties of the handlers *)

(** ** Requests that never reach the CRM *)

(** X1: a request whose method is not POST is answered [405] with
    [success: false] by every revision of the Vercel handler, and nothing
    is sent to the CRM. *)
Theorem X1_other_method_rejected (key : option jstring) (w : World) (req : Request) :
  req_method req <> js "POST" ->
  Rev1.handler key w req [] = (Returned method_not_allowed, [])
  /\ Rev2.handler key w req [] = (Returned method_not_allowed, [])
  /\ Rev3.handler key w req [] = (Returned method_not_allowed, [])
  /\ reply_status method_not_allowed = 405
  /\ field (js "success") (reply_json method_not_allowed) = VBool false.
Proof.
  intros Hm.
  assert (E : negb (jstring_eqb (req_method req) (js "POST")) = true).
  { destruct (jstring_eqb (req_method req) (js "POST")) eqn:E; [|reflexivity].
    apply jstring_eqb_eq in E. contradiction. }
  unfold Rev1.handler, Rev2.handler, Rev3.handler. rewrite E. repeat split.
Qed.

(** X1 on a run: a GET request with a token and a form. *)
Lemma X1_other_method_rejected_witness :
  Rev1.handler token (scripted [created "501"])
    {| req_method := js "GET"; req_body := VObj form |} []
  = (Returned method_not_allowed, []).
Proof.
  apply (X1_other_method_rejected token (scripted [created "501"])
           {| req_method := js "GET"; req_body := VObj form |}).
  vm_compute. discriminate.
Defined.

(** X2: every handler answers whatever the request and whatever the CRM
    does: nothing escapes its [try]/[catch].  The status is [200], [405] or
    [500] ([200] or [500] for the Astro route), and [success] is [true]
    exactly on a [200]. *)
Theorem X2_always_answers (key : option jstring) (w : World) (req : Request)
    (request : option Astro.FormData) :
  let answered (out : Outcome Reply * list Event) (codes : list N) :=
    exists reply,
      fst out = Returned reply
      /\ In (reply_status reply) codes
      /\ field (js "success") (reply_json reply)
         = VBool (reply_status reply =? 200) in
  answered (Rev1.handler key w req []) [200; 405; 500]
  /\ answered (Rev2.handler key w req []) [200; 405; 500]
  /\ answered (Rev3.handler key w req []) [200; 405; 500]
  /\ answered (Astro.POST key w request []) [200; 500].
Proof.
  cbv zeta. split; [|split; [|split]].
  - destruct (Rev1_replies key w req) as (r & E & [->|[->|[cid ->]]]);
      eexists; split; [exact E| |exact E| |exact E|]; split; cbn; auto.
  - destruct (Rev2_replies key w req)
      as (r & E & [->|[[-> _]|[[-> _]|[cid ->]]]]);
      eexists; split; [exact E| |exact E| |exact E| |exact E|]; split; cbn; auto.
  - destruct (Rev3_replies key w req) as (r & E & [->|[->|[cid ->]]]);
      eexists; split; [exact E| |exact E| |exact E|]; split; cbn; auto.
  - destruct (Astro_replies key w request) as (r & E & [->|[cid ->]]);
      eexists; split; [exact E| |exact E|]; split; cbn; auto.
Qed.

(** ** A contact write that fails *)

Lemma get_message_throws (e : value) (tr : list Event) :
  (forall s, field (js "message") e <> VStr s) ->
  exists x, bind (get e (js "message")) call_match tr = (Thrown x, tr).
Proof.
  intros H. unfold bind, get.
  destruct e; try (eexists; reflexivity).
  all: unfold ret at 1; unfold call_match;
    destruct (field (js "message") _) eqn:E; try (eexists; reflexivity);
    exfalso; eapply H; reflexivity.
Qed.

Section Failed.
Variable key : option jstring.
Variable w : World.

Lemma create_or_update_refused (P : value) (tr : list Event) (res : FetchResult) :
  respond w tr (create_call key (js "/crm/v3/contacts") P) = res ->
  res = Rejected
  \/ (exists r, res = Responded r /\ ok r = false /\ status r <> 409)
  \/ (exists r, res = Responded r /\ status r = 409
                /\ (json_body r = None
                    \/ exists e, json_body r = Some e
                                 /\ forall s, field (js "message") e <> VStr s)) ->
  exists x,
    create_or_update key w P tr
    = (Thrown x, tr ++ [Fetched (create_call key (js "/crm/v3/contacts") P)]).
Proof.
  intros Hr Hcase. unfold create_or_update. unfold bind at 1, fetch. rewrite Hr.
  destruct Hcase as [->|[(r & -> & Hok & Hs)|(r & -> & Hs & Hj)]].
  - eauto.
  - apply N.eqb_neq in Hs. rewrite Hs, Hok. unfold bind, json.
    destruct (json_body r); unfold ret, throw; eauto.
  - rewrite Hs. change (409 =? 409) with true. cbv iota.
    unfold bind at 1, json. destruct Hj as [->|(e & -> & He)]; [unfold throw; eauto|].
    unfold ret at 1.
    destruct (get_message_throws e
                (tr ++ [Fetched (create_call key (js "/crm/v3/contacts") P)]) He)
      as (x & Ex).
    exists x. unfold bind at 1. unfold bind in Ex.
    destruct (get e (js "message") _) as [[m|x'] tr'] eqn:Eg.
    + unfold bind at 1. rewrite Ex. reflexivity.
    + exact Ex.
Qed.

Lemma Rev2_create_or_update_refused (f : Fields) (tr : list Event)
    (res : FetchResult) :
  respond w tr (create_call key (js "/crm/v3/objects/contacts") (Rev2.contactPayload f))
  = res ->
  res = Rejected
  \/ (exists r, res = Responded r /\ ok r = false /\ status r <> 409)
  \/ (exists r, res = Responded r /\ status r = 409
                /\ (json_body r = None
                    \/ exists e, json_body r = Some e
                                 /\ forall s, field (js "message") e <> VStr s)) ->
  exists x,
    Rev2.create_or_update key w f tr
    = (Thrown x,
       tr ++ [Fetched (create_call key (js "/crm/v3/objects/contacts")
                         (Rev2.contactPayload f))]).
Proof.
  intros Hr Hcase. unfold Rev2.create_or_update. unfold bind at 1, fetch. rewrite Hr.
  destruct Hcase as [->|[(r & -> & Hok & Hs)|(r & -> & Hs & Hj)]].
  - eauto.
  - apply N.eqb_neq in Hs. rewrite Hs, Hok. unfold bind, text.
    destruct (text_body r); unfold ret, throw; eauto.
  - rewrite Hs. change (409 =? 409) with true. cbv iota.
    unfold bind at 1, json. destruct Hj as [->|(e & -> & He)]; [unfold throw; eauto|].
    unfold ret at 1.
    destruct (get_message_throws e
                (tr ++ [Fetched (create_call key (js "/crm/v3/objects/contacts")
                                   (Rev2.contactPayload f))]) He) as (x & Ex).
    exists x. unfold bind at 1. unfold bind in Ex.
    destruct (get e (js "message") _) as [[m|x'] tr'] eqn:Eg.
    + unfold bind at 1. rewrite Ex. reflexivity.
    + exact Ex.
Qed.

Lemma Rev2_contact_failed (req : Request) (f : Fields) (e : exn) (tr1 : list Event) :
  req_method req = js "POST" ->
  Rev2.key_missing key = false ->
  read_form (req_body req) [] = (Returned f, []) ->
  Rev2.create_or_update key w f [] = (Thrown e, tr1) ->
  Rev2.handler key w req [] = (Returned failure_reply, tr1).
Proof.
  intros Hm Hk Hf Hc. unfold Rev2.handler. rewrite (method_check req Hm), Hk.
  unfold try_catch, bind. now rewrite Hf, Hc.
Qed.

(** Whatever makes the contact phase throw, every handler answers the
    generic [500] after the create call alone. *)
Lemma failed_write_answered (res : FetchResult) :
  (forall c, is_create c = true -> respond w [] c = res) ->
  res = Rejected
  \/ (exists r, res = Responded r /\ ok r = false /\ status r <> 409)
  \/ (exists r, res = Responded r /\ status r = 409
                /\ (json_body r = None
                    \/ exists e, json_body r = Some e
                                 /\ forall s, field (js "message") e <> VStr s)) ->
  (forall req f,
     req_method req = js "POST" ->
     read_form (req_body req) [] = (Returned f, []) ->
     let create := create_call key (js "/crm/v3/contacts") (contactPayload f) in
     Rev1.handler key w req [] = (Returned failure_reply, [Fetched create])
     /\ Rev3.handler key w req [] = (Returned failure_reply, [Fetched create])
     /\ (Rev2.key_missing key = false ->
         Rev2.handler key w req []
         = (Returned failure_reply,
            [Fetched (create_call key (js "/crm/v3/objects/contacts")
                        (Rev2.contactPayload f))])))
  /\ (forall fd f,
        Astro.read_form fd [] = (Returned f, []) ->
        Astro.POST key w (Some fd) []
        = (Returned failure_reply,
           [Fetched (create_call key (js "/crm/v3/contacts") (contactPayload f))])).
Proof.
  intros Hw Hcase. split.
  - intros req f Hm Hf create.
    destruct (create_or_update_refused (contactPayload f) [] res
                (Hw _ (is_create_v3 key _)) Hcase) as (x & Ex).
    split; [exact (Rev1_contact_failed key w req f x _ Hm Hf Ex)|].
    split; [exact (Rev3_contact_failed key w req f x _ Hm Hf Ex)|].
    intros Hk.
    destruct (Rev2_create_or_update_refused f [] res
                (Hw _ (is_create_objects key _)) Hcase) as (y & Ey).
    exact (Rev2_contact_failed req f y _ Hm Hk Hf Ey).
  - intros fd f Hf.
    destruct (create_or_update_refused (contactPayload f) [] res
                (Hw _ (is_create_v3 key _)) Hcase) as (x & Ex).
    destruct (Astro_after_contact key w fd f _ _ Hf Ex) as (reply & E & ->).
    exact E.
Qed.
End Failed.

(** X3: when the contact-create call is rejected by the network, or answered
    with a status that is neither 2xx nor 409, every handler answers the
    generic [500] and has sent the create call and nothing else: no update,
    no upload, no note. *)
Theorem X3_failed_create_answered_500 (key : option jstring) (w : World)
    (res : FetchResult) :
  (forall c, is_create c = true -> respond w [] c = res) ->
  res = Rejected
  \/ (exists r, res = Responded r /\ ok r = false /\ status r <> 409) ->
  reply_status failure_reply = 500
  /\ (forall req f,
        req_method req = js "POST" ->
        read_form (req_body req) [] = (Returned f, []) ->
        let create := create_call key (js "/crm/v3/contacts") (contactPayload f) in
        Rev1.handler key w req [] = (Returned failure_reply, [Fetched create])
        /\ Rev3.handler key w req [] = (Returned failure_reply, [Fetched create])
        /\ (Rev2.key_missing key = false ->
            Rev2.handler key w req []
            = (Returned failure_reply,
               [Fetched (create_call key (js "/crm/v3/objects/contacts")
                           (Rev2.contactPayload f))])))
  /\ (forall fd f,
        Astro.read_form fd [] = (Returned f, []) ->
        Astro.POST key w (Some fd) []
        = (Returned failure_reply,
           [Fetched (create_call key (js "/crm/v3/contacts") (contactPayload f))])).
Proof.
  intros Hw Hcase. split; [reflexivity|].
  apply (failed_write_answered key w res Hw). tauto.
Qed.

(** X3 on a run: the create call answered [401]. *)
Lemma X3_failed_create_answered_500_witness :
  fst (Rev1.handler token (scripted [answer 401 (VObj [])]) submission [])
  = Returned failure_reply
  /\ List.length (calls (snd (Rev1.handler token (scripted [answer 401 (VObj [])])
                                submission []))) = 1%nat.
Proof.
  destruct (X3_failed_create_answered_500 token (scripted [answer 401 (VObj [])])
              (answer 401 (VObj []))) as (_ & H & _).
  - reflexivity.
  - right. eexists. split; [reflexivity|]. split; [reflexivity|discriminate].
  - destruct (fst (read_form (req_body submission) [])) as [f|e] eqn:Ef;
      [|vm_compute in Ef; discriminate].
    destruct (H submission f) as (H1 & _).
    + reflexivity.
    + rewrite read_form_pure, Ef. reflexivity.
    + rewrite H1. split; reflexivity.
Defined.

(** X4: when the create call is answered [409] and the conflict cannot be
    read (the body is not JSON, is [null], has no [message], or has a
    [message] that is not a string), every handler answers the generic
    [500] and issues no update call. *)
Theorem X4_unreadable_conflict_answered_500 (key : option jstring) (w : World)
    (r : Response) :
  (forall c, is_create c = true -> respond w [] c = Responded r) ->
  status r = 409 ->
  json_body r = None
  \/ (exists e, json_body r = Some e /\ forall s, field (js "message") e <> VStr s) ->
  (forall req f,
     req_method req = js "POST" ->
     read_form (req_body req) [] = (Returned f, []) ->
     let create := create_call key (js "/crm/v3/contacts") (contactPayload f) in
     Rev1.handler key w req [] = (Returned failure_reply, [Fetched create])
     /\ Rev3.handler key w req [] = (Returned failure_reply, [Fetched create])
     /\ (Rev2.key_missing key = false ->
         Rev2.handler key w req []
         = (Returned failure_reply,
            [Fetched (create_call key (js "/crm/v3/objects/contacts")
                        (Rev2.contactPayload f))])))
  /\ (forall fd f,
        Astro.read_form fd [] = (Returned f, []) ->
        Astro.POST key w (Some fd) []
        = (Returned failure_reply,
           [Fetched (create_call key (js "/crm/v3/contacts") (contactPayload f))])).
Proof.
  intros Hw Hs Hj.
  apply (failed_write_answered key w (Responded r) Hw).
  right. right. exists r. auto.
Qed.

(** X4 on a run: a [409] whose body has no [message]. *)
Lemma X4_unreadable_conflict_answered_500_witness :
  let out := Astro.POST token
               (scripted [answer 409 (VObj [ (js "status", VStr (js "error")) ])])
               (Some multipart_form) [] in
  fst out = Returned failure_reply /\ filter is_update (calls (snd out)) = [].
Proof.
  intros out.
  destruct (X4_unreadable_conflict_answered_500 token
              (scripted [answer 409 (VObj [ (js "status", VStr (js "error")) ])])
              {| status := 409; statusText := []; text_body := Some [];
                 json_body := Some (VObj [ (js "status", VStr (js "error")) ]) |})
    as (_ & H).
  - reflexivity.
  - reflexivity.
  - right. eexists. split; [reflexivity|]. intros s. vm_compute. discriminate.
  - destruct (fst (Astro.read_form multipart_form [])) as [f|e] eqn:Ef;
      [|vm_compute in Ef; discriminate].
    unfold out. rewrite (H multipart_form f).
    + split; reflexivity.
    + rewrite Astro_read_form_pure, Ef. reflexivity.
Defined.

(** ** A form that cannot be read *)

Lemma read_form_throws (fd : value) :
  fd = VUndefined \/ fd = VNull
  \/ (truthy (field (js "contactName") fd) = true
      /\ forall s, field (js "contactName") fd <> VStr s)
  \/ join_phase (field (js "phase[]") fd) = None ->
  exists x, read_form fd [] = (Thrown x, []).
Proof.
  intros [->|[->|[[Ht Hs]|Hj]]]; try (eexists; reflexivity).
  - unfold read_form, bind, get.
    destruct fd; try discriminate; unfold ret at 1; unfold or_else; rewrite Ht;
      unfold call_trim;
      destruct (field (js "contactName") _) eqn:E; try (eexists; reflexivity);
      exfalso; eapply Hs; reflexivity.
  - destruct fd; try (cbn in Hj; discriminate).
    unfold read_form, bind, get. unfold ret at 1.
    destruct (call_trim _ []) as [[t|x] tr] eqn:Et.
    + assert (tr = []) as ->
        by (unfold call_trim in Et; destruct (or_else _ _); try discriminate;
            now injection Et).
      unfold ret. cbn [fst snd]. rewrite Hj. eexists; reflexivity.
    + assert (tr = []) as ->
        by (unfold call_trim in Et; destruct (or_else _ _); try discriminate;
            now injection Et).
      eexists; reflexivity.
Qed.

(** X5: a POST request with no body, a [null] body, a contact name that is
    a number, [true], an array or an object, or planning stages that cannot
    be joined into a text is answered the generic [500] by every revision of
    the Vercel handler, before anything is sent to the CRM. *)
Theorem X5_unreadable_form_answered_500 (key : option jstring) (w : World)
    (req : Request) :
  req_method req = js "POST" ->
  req_body req = VUndefined \/ req_body req = VNull
  \/ (truthy (field (js "contactName") (req_body req)) = true
      /\ forall s, field (js "contactName") (req_body req) <> VStr s)
  \/ join_phase (field (js "phase[]") (req_body req)) = None ->
  Rev1.handler key w req [] = (Returned failure_reply, [])
  /\ Rev3.handler key w req [] = (Returned failure_reply, [])
  /\ (Rev2.key_missing key = false ->
      Rev2.handler key w req [] = (Returned failure_reply, [])).
Proof.
  intros Hm Hb. destruct (read_form_throws _ Hb) as (x & Ex).
  split; [|split].
  - unfold Rev1.handler. rewrite (method_check req Hm).
    unfold try_catch, bind. now rewrite Ex.
  - unfold Rev3.handler. rewrite (method_check req Hm).
    unfold try_catch, bind. now rewrite Ex.
  - intros Hk. unfold Rev2.handler. rewrite (method_check req Hm), Hk.
    unfold try_catch, bind. now rewrite Ex.
Qed.

(** X5 on a run: the contact name is the number 42. *)
Lemma X5_unreadable_form_answered_500_witness :
  Rev1.handler token (scripted [created "501"])
    {| req_method := js "POST";
       req_body := VObj [ (js "contactName", VNum (js "42")) ] |} []
  = (Returned failure_reply, []).
Proof.
  destruct (X5_unreadable_form_answered_500 token (scripted [created "501"])
              {| req_method := js "POST";
                 req_body := VObj [ (js "contactName", VNum (js "42")) ] |})
    as (H & _).
  - reflexivity.
  - right. right. left. split; [reflexivity|]. intros s. vm_compute. discriminate.
  - exact H.
Defined.

(** The JSON body [{"contactName":"Ada","phase[]":[{"toString":1}]}]: the
    planning stage has an own [toString] that is no function, [join] throws,
    and so does the template of revision 3 on an id of that shape, once the
    contact is created. *)
Lemma unjoinable_phase_answered_500 :
  let junk := VObj [ (js "toString", VNum (js "1")) ] in
  let body := VObj [ (js "contactName", VStr (js "Ada"));
                     (js "phase[]", VArr [junk]) ] in
  let w := scripted [ answer 201 (VObj [ (js "id", junk) ]) ] in
  join_phase (VArr [junk]) = None
  /\ Rev1.handler token w {| req_method := js "POST"; req_body := body |} []
     = (Returned failure_reply, [])
  /\ fst (Rev3.handler token w submission_with_photos []) = Returned failure_reply
  /\ List.length (calls (snd (Rev3.handler token w submission_with_photos []))) = 1%nat.
Proof. vm_compute. repeat split. Qed.

(** X6: the Astro route answers the generic [500] without any call when the
    request body is no form (reading it rejects) or when the contact name
    is an uploaded file. *)
Theorem X6_astro_unreadable_form (key : option jstring) (w : World)
    (request : option Astro.FormData) :
  request = None
  \/ (exists fd name, request = Some fd
                      /\ Astro.form_get (js "contactName") fd = VFile name) ->
  Astro.POST key w request [] = (Returned failure_reply, []).
Proof.
  intros [->|(fd & name & -> & H)]; [reflexivity|].
  unfold Astro.POST, try_catch, bind. unfold ret at 1.
  unfold Astro.read_form, bind. rewrite H. reflexivity.
Qed.

(** X6 on a run: a request whose body is no form. *)
Lemma X6_astro_unreadable_form_witness :
  Astro.POST token (scripted [created "501"]) None [] = (Returned failure_reply, []).
Proof.
  apply (X6_astro_unreadable_form token (scripted [created "501"]) None).
  now left.
Defined.

(** ** A submission without a name *)

Lemma read_form_nameless (fd : value) (f : Fields) :
  read_form fd [] = (Returned f, []) ->
  truthy (field (js "contactName") fd) = false ->
  firstname f = VStr [] /\ lastname f = VStr [].
Proof.
  intros E Ht. apply read_form_returned in E as (_ & s & stage & Hs & _ & ->).
  unfold or_else in Hs. rewrite Ht in Hs. injection Hs as <-. split; reflexivity.
Qed.

(** X7: when the form has no contact name (the key is absent, or its value
    is [null], the empty string, [0] or [false]), the form is still read
    (provided the planning stages can be joined) and both [firstname] and
    [lastname] are sent as the empty string in every contact payload of
    the first and third revisions. *)
Theorem X7_missing_name_sent_empty (key : option jstring) (w : World) (req : Request) :
  req_body req <> VUndefined -> req_body req <> VNull ->
  truthy (field (js "contactName") (req_body req)) = false ->
  (join_phase (field (js "phase[]") (req_body req)) <> None ->
   exists f, read_form (req_body req) [] = (Returned f, [])
             /\ firstname f = VStr [] /\ lastname f = VStr [])
  /\ (forall c,
        In c (calls (snd (Rev1.handler key w req [])))
        \/ In c (calls (snd (Rev3.handler key w req []))) ->
        is_contact_call c = true ->
        property (js "firstname") c = Some (VStr [])
        /\ property (js "lastname") c = Some (VStr [])).
Proof.
  intros Hu Hn Ht. split.
  - intros Hp.
    destruct (join_phase (field (js "phase[]") (req_body req))) as [stage|] eqn:Est;
      [|congruence].
    destruct (read_form_returns (req_body req) [] stage Hu Hn) as (f & E).
    + unfold or_else. now rewrite Ht.
    + exact Est.
    + exists f. split; [exact E|]. exact (read_form_nameless _ f E Ht).
  - intros c Hin Hc.
    assert (Hb : exists f,
               read_form (req_body req) [] = (Returned f, []) /\
               body c = JsonBody (JSON_stringify
                           (VObj [ (js "properties",
                                    VObj (basicProperties f ++ customProperties f)) ]))).
    { destruct Hin as [Hin|Hin];
        [ exact (Rev1_contact_call key w req c Hin Hc)
        | exact (Rev3_contact_call key w req c Hin) ]. }
    destruct Hb as (f & Hf & Hb).
    destruct (read_form_nameless _ f Hf Ht) as (Hg & Hl).
    split.
    + rewrite (property_present c _ (js "firstname") Hb);
        rewrite (basic_firstname f _), Hg; [reflexivity|discriminate].
    + rewrite (property_present c _ (js "lastname") Hb);
        rewrite (basic_lastname f _), Hl; [reflexivity|discriminate].
Qed.

(** X7 on a run: a form with an email only. *)
Lemma X7_missing_name_sent_empty_witness :
  exists f,
    read_form (VObj [ (js "email", VStr (js "john@school.edu")) ]) [] = (Returned f, [])
    /\ firstname f = VStr [] /\ lastname f = VStr [].
Proof.
  destruct (X7_missing_name_sent_empty token (scripted [])
              {| req_method := js "POST";
                 req_body := VObj [ (js "email", VStr (js "john@school.edu")) ] |})
    as (H & _); [discriminate|discriminate|reflexivity|].
  apply H. vm_compute. discriminate.
Defined.

(** ** The calls of a request, in order *)

Section Shape.
Variable key : option jstring.
Variable w : World.

(** The photo phase: uploads, one a photo at most, then at most one note,
    and a note only after an upload. *)
Lemma handle_photos_shape (verbose : bool) (fd cid : value) (tr : list Event) :
  exists o evs us ns,
    handle_photos key w verbose fd cid tr = (o, tr ++ evs)
    /\ calls evs = us ++ ns
    /\ Forall (fun c => is_upload c = true) us
    /\ (List.length us <= match field (js "photos") fd with
                          | VArr ps => List.length ps
                          | _ => 0
                          end)%nat
    /\ (ns = [] \/ (us <> [] /\ exists attachments, ns = [note_call key cid attachments])).
Proof.
  assert (Hnone : forall o : Outcome unit, exists o' evs us ns,
             (o, tr) = (o', tr ++ evs)
             /\ calls evs = us ++ ns
             /\ Forall (fun c => is_upload c = true) us
             /\ (List.length us <= match field (js "photos") fd with
                                   | VArr ps => List.length ps
                                   | _ => 0
                                   end)%nat
             /\ (ns = [] \/ (us <> [] /\ exists attachments,
                                           ns = [note_call key cid attachments]))).
  { intros o. exists o, [], [], []. rewrite app_nil_r.
    repeat split; auto. cbn. lia. }
  unfold handle_photos, bind at 1, get.
  destruct fd; try apply Hnone; unfold ret at 1;
    (destruct (field (js "photos") _) as [| | | | |ps| |] eqn:Ep; try apply Hnone;
     destruct (_ && _); [|apply Hnone];
     unfold bind at 1; destruct (log_run verbose cid tr) as (ol & El & _);
     rewrite El; destruct ol as [[]|e]; [|apply Hnone];
     unfold bind;
     destruct (upload_loop_run key w verbose ps 0 [] tr)
       as (o & evs & E & F & L & H & _);
     rewrite E;
     assert (L' : (List.length (calls evs) <= List.length ps)%nat)
       by (etransitivity; [exact L|apply filter_length_le]);
     destruct o as [ids|e];
     [ destruct (H ids eq_refl) as (Hids & _ & _); cbn [app] in Hids;
       destruct ids as [|i ids];
       [ exists (Returned tt), evs, (calls evs), []; rewrite app_nil_r;
         repeat split; auto
       | rewrite nonempty_length by discriminate;
         rewrite createNoteWithAttachments_run;
         destruct (array_join (js ";") (i :: ids)) as [a|];
         [ exists (Returned tt), (evs ++ [Fetched (note_call key cid a)]),
             (calls evs), [note_call key cid a];
           rewrite calls_app, app_assoc; repeat split; auto;
           right; split; [|eauto];
           intros Hc; rewrite <- (answers_from_calls w evs tr) in Hc;
           apply map_eq_nil in Hc; rewrite Hc in Hids; discriminate
         | exists (Returned tt), evs, (calls evs), []; rewrite !app_nil_r;
           repeat split; auto ] ]
     | exists (Thrown e), evs, (calls evs), []; rewrite app_nil_r;
       repeat split; auto ]).
Qed.
End Shape.

(** X8: the third revision and the Astro route never upload a file and never
    create a note, whatever the submission holds.  A request sends nothing,
    or the create call alone, or the create call followed by one update
    with the same payload. *)
Theorem X8_no_attachment_calls (key : option jstring) (w : World) (req : Request)
    (request : option Astro.FormData) :
  let contact_only (cs : list Call) :=
    cs = []
    \/ exists f,
         cs = [create_call key (js "/crm/v3/contacts") (contactPayload f)]
         \/ exists id,
              cs = [create_call key (js "/crm/v3/contacts") (contactPayload f);
                    update_call key id (contactPayload f)] in
  contact_only (calls (snd (Rev3.handler key w req [])))
  /\ contact_only (calls (snd (Astro.POST key w request []))).
Proof.
  cbv zeta. split.
  - remember (calls (snd (Rev3.handler key w req []))) as cs eqn:Ecs. revert Ecs.
    unfold Rev3.handler. destruct (negb _); [now left|].
    unfold try_catch, bind at 1. rewrite read_form_pure.
    destruct (fst (read_form (req_body req) [])) as [f|e]; [|now left].
    unfold bind at 1.
    destruct (create_or_update_shape key w (contactPayload f) [])
      as (o & evs & E & Hs).
    rewrite E. intros ->. right. exists f.
    destruct o as [cid|e]; unfold bind, get, ret;
      [destruct (req_body req); try destruct (_ && _);
       rewrite ?log_template_run; try destruct (ToString cid)|];
      cbn [app snd];
      (destruct Hs as [->|[id ->]]; [left|right; exists id]; reflexivity).
  - remember (calls (snd (Astro.POST key w request []))) as cs eqn:Ecs. revert Ecs.
    unfold Astro.POST, try_catch, bind at 1.
    destruct request as [fd|]; [|now left]. unfold ret at 1.
    unfold bind at 1. rewrite Astro_read_form_pure.
    destruct (fst (Astro.read_form fd [])) as [f|e]; [|now left].
    unfold bind at 1.
    destruct (create_or_update_shape key w (contactPayload f) [])
      as (o & evs & E & Hs).
    rewrite E. intros ->. right. exists f.
    destruct o as [cid|e]; unfold bind, ret;
      [destruct (_ && _); rewrite ?log_template_run; try destruct (ToString cid)|];
      cbn [app snd];
      (destruct Hs as [->|[id ->]]; [left|right; exists id]; reflexivity).
Qed.

(** X9: the calls of a request of the two revisions that upload photos come
    in a fixed order: the contact calls (the create call first; at most two
    in the first revision, three in the second), then the uploads (at most
    one for each photo of the submission), then at most one note, which is
    created only after an upload was sent.  Nothing is sent before the
    create call. *)
Theorem X9_call_order (key : option jstring) (w : World) (req : Request) :
  let photos := match field (js "photos") (req_body req) with
                | VArr ps => List.length ps
                | _ => 0%nat
                end in
  let ordered (out : Outcome Reply * list Event) (most : nat) :=
    exists cs us ns,
      calls (snd out) = cs ++ us ++ ns
      /\ Forall (fun c => is_contact_call c = true) cs
      /\ (List.length cs <= most)%nat
      /\ match cs with
         | c :: _ => is_create c = true
         | [] => us = [] /\ ns = []
         end
      /\ Forall (fun c => is_upload c = true) us
      /\ (List.length us <= photos)%nat
      /\ (ns = [] \/ (us <> [] /\ exists cid attachments, ns = [note_call key cid attachments])) in
  ordered (Rev1.handler key w req []) 2%nat
  /\ ordered (Rev2.handler key w req []) 3%nat.
Proof.
  cbv zeta.
  assert (Hnone : forall most : nat,
             exists cs us ns : list Call,
               @nil Call = cs ++ us ++ ns
               /\ Forall (fun c => is_contact_call c = true) cs
               /\ (List.length cs <= most)%nat
               /\ match cs with
                  | c :: _ => is_create c = true
                  | [] => us = [] /\ ns = []
                  end
               /\ Forall (fun c => is_upload c = true) us
               /\ (List.length us <= match field (js "photos") (req_body req) with
                                     | VArr ps => List.length ps
                                     | _ => 0%nat
                                     end)%nat
               /\ (ns = [] \/ (us <> [] /\ exists cid attachments, ns = [note_call key cid attachments]))).
  { intros most. exists [], [], []. repeat split; auto; cbn; lia. }
  assert (Hphase : forall (most : nat) (evs : list Event) (o : Outcome value)
                     (k : value -> M Reply),
             Forall (fun c => is_contact_call c = true) (calls evs) ->
             (List.length (calls evs) <= most)%nat ->
             match calls evs with c :: _ => is_create c = true | [] => False end ->
             (exists verbose,
                forall cid, k cid = bind (handle_photos key w verbose (req_body req) cid)
                                      (fun _ => ret (success_reply cid))) ->
             forall out,
               out = match o with
                     | Returned cid => k cid evs
                     | Thrown e => (Thrown e, evs)
                     end ->
               exists cs us ns : list Call,
                 calls (snd out) = cs ++ us ++ ns
                 /\ Forall (fun c => is_contact_call c = true) cs
                 /\ (List.length cs <= most)%nat
                 /\ match cs with
                    | c :: _ => is_create c = true
                    | [] => us = [] /\ ns = []
                    end
                 /\ Forall (fun c => is_upload c = true) us
                 /\ (List.length us <= match field (js "photos") (req_body req) with
                                       | VArr ps => List.length ps
                                       | _ => 0%nat
                                       end)%nat
                 /\ (ns = [] \/
                     (us <> [] /\ exists cid attachments, ns = [note_call key cid attachments]))).
  { intros most evs o k Fc Lc Hc (verbose & Hk) out ->. destruct o as [cid|e].
    - rewrite Hk. unfold bind.
      destruct (handle_photos_shape key w verbose (req_body req) cid evs)
        as (o' & evs2 & us & ns & E & Ec & Fu & Lu & Hn).
      rewrite E. exists (calls evs), us, ns.
      assert (Es : calls (snd (let (o0, tr') := (o', evs ++ evs2) in
                               match o0 with
                               | Returned _ => ret (success_reply cid) tr'
                               | Thrown e => (Thrown e, tr')
                               end)) = calls evs ++ us ++ ns).
      { destruct o'; cbn [snd ret]; unfold ret; cbn [snd];
          now rewrite calls_app, Ec. }
      rewrite Es. split; [reflexivity|]. split; [exact Fc|]. split; [exact Lc|].
      split; [destruct (calls evs); [contradiction|exact Hc]|].
      split; [exact Fu|]. split; [exact Lu|].
      destruct Hn as [->|(Hne & ids & ->)]; [now left|right; eauto].
    - exists (calls evs), [], []. cbn [snd]. rewrite app_nil_r.
      split; [reflexivity|]. split; [exact Fc|]. split; [exact Lc|].
      split; [destruct (calls evs); [contradiction|exact Hc]|].
      repeat split; auto. cbn. lia. }
  split.
  - unfold Rev1.handler. destruct (negb _); [apply Hnone|].
    unfold try_catch, bind at 1. rewrite read_form_pure.
    destruct (fst (read_form (req_body req) [])) as [f|e]; [|apply Hnone].
    unfold bind at 1.
    destruct (create_or_update_shape key w (contactPayload f) [])
      as (o & evs & E & Hs).
    rewrite E. cbn [app].
    assert (Hx : forall x : Outcome Reply * list Event,
               calls (snd (let (o0, tr') := x in
                           match o0 with
                           | Returned a => (Returned a, tr')
                           | Thrown _ => ret failure_reply tr'
                           end)) = calls (snd x)).
    { intros [[a|e] t]; reflexivity. }
    rewrite Hx.
    apply (Hphase 2%nat evs o
             (fun cid => bind (handle_photos key w false (req_body req) cid)
                           (fun _ => ret (success_reply cid)))).
    + destruct Hs as [->|[id ->]]; repeat constructor.
    + destruct Hs as [->|[id ->]]; cbn; lia.
    + destruct Hs as [->|[id ->]]; reflexivity.
    + now exists false.
    + now destruct o.
  - unfold Rev2.handler. destruct (negb _); [apply Hnone|].
    unfold try_catch. destruct (Rev2.key_missing key); [apply Hnone|].
    unfold bind at 1. rewrite read_form_pure.
    destruct (fst (read_form (req_body req) [])) as [f|e]; [|apply Hnone].
    unfold bind at 1.
    destruct (Rev2_create_or_update_shape key w f []) as (o & evs & E & Hs).
    rewrite E. cbn [app].
    assert (Hx : forall x : Outcome Reply * list Event,
               calls (snd (let (o0, tr') := x in
                           match o0 with
                           | Returned a => (Returned a, tr')
                           | Thrown _ => ret failure_reply tr'
                           end)) = calls (snd x)).
    { intros [[a|e] t]; reflexivity. }
    rewrite Hx.
    apply (Hphase 3%nat evs o
             (fun cid => bind (handle_photos key w true (req_body req) cid)
                           (fun _ => ret (success_reply cid)))).
    + destruct Hs as [->|[[id ->]|[[id ->]|[(id & id' & ->)|(_ & [->|[id ->]])]]]];
        repeat constructor.
    + destruct Hs as [->|[[id ->]|[[id ->]|[(id & id' & ->)|(_ & [->|[id ->]])]]]];
        cbn; lia.
    + destruct Hs as [->|[[id ->]|[[id ->]|[(id & id' & ->)|(_ & [->|[id ->]])]]]];
        reflexivity.
    + now exists true.
    + now destruct o.
Qed.

(** ** A contact write that gives no id *)

(** X10: when the create call is answered 2xx with a JSON body that has no
    usable [id] (absent, [null], empty), the first revision still answers
    [200] with [success: true], and the photos of the submission are
    dropped: the create call is the only call. *)
Theorem X10_no_id_drops_photos (key : option jstring) (w : World) (req : Request)
    (f : Fields) (r : Response) (data : value) :
  req_method req = js "POST" ->
  read_form (req_body req) [] = (Returned f, []) ->
  (forall c, is_create c = true -> respond w [] c = Responded r) ->
  ok r = true ->
  json_body r = Some data ->
  data <> VNull -> data <> VUndefined ->
  truthy (field (js "id") data) = false ->
  Rev1.handler key w req []
  = (Returned (success_reply (field (js "id") data)),
     [Fetched (create_call key (js "/crm/v3/contacts") (contactPayload f))])
  /\ reply_status (success_reply (field (js "id") data)) = 200.
Proof.
  intros Hm Hf Hw Hok Hj Hn Hu Ht.
  assert (Hc := create_or_update_created key w (contactPayload f) [] r data
                  (Hw _ (is_create_v3 key _)) Hok Hj Hn Hu).
  destruct (Rev1_after_contact key w req f _ _ Hm Hf Hc) as (tr2 & Hp & Hh).
  rewrite Hh. split; [|reflexivity]. f_equal.
  apply (handle_photos_unresolved key w false _ _ _ _ _ Ht Hp).
Qed.

(** X10 on a run: three photos, a create call answered [201] without id. *)
Lemma X10_no_id_drops_photos_witness :
  let out := Rev1.handler token (scripted [answer 201 (VObj [])])
               submission_with_photos [] in
  List.length (calls (snd out)) = 1%nat
  /\ fst out = Returned (success_reply VUndefined).
Proof.
  intros out.
  destruct (fst (read_form (req_body submission_with_photos) [])) as [f|e] eqn:Ef;
    [|vm_compute in Ef; discriminate].
  destruct (X10_no_id_drops_photos token (scripted [answer 201 (VObj [])])
              submission_with_photos f
              {| status := 201; statusText := []; text_body := Some [];
                 json_body := Some (VObj []) |} (VObj [])) as (H & _);
    try reflexivity; try discriminate.
  - rewrite read_form_pure, Ef. reflexivity.
  - unfold out. rewrite H. split; reflexivity.
Defined.

(** ** Where the calls go and what they carry *)

Section Wired.
Variable key : option jstring.
Variable w : World.














End Wired.



(** ** Reading the id of the existing record *)

(** X12: when a conflict message holds [Existing ID: ] followed by a digit,
    the identifier read from it is the whole run of digits that follows
    the first such place: it is never empty, holds digits only, is not cut
    short, and an earlier place is never skipped. *)
Theorem X12_existing_id_is_first_full_run (s d : jstring) :
  match_existing_id s = VStr d ->
  exists pre post,
    s = pre ++ js "Existing ID: " ++ d ++ post
    /\ d <> []
    /\ forallb is_digit d = true
    /\ match post with c :: _ => is_digit c = false | [] => True end
    /\ (forall pre' c post',
          is_digit c = true -> s = pre' ++ js "Existing ID: " ++ c :: post' ->
          (List.length pre <= List.length pre')%nat).
Proof.
  induction s as [|a s IH]; cbn [match_existing_id].
  - change (existing_id_here []) with (@None jstring). discriminate.
  - destruct (existing_id_here (a :: s)) as [d'|] eqn:E.
    + intros [= ->]. apply existing_id_here_Some in E as (post & E & Hd & Hf & Hp).
      exists [], post. repeat split; auto. intros. cbn. lia.
    + intros H. destruct (IH H) as (pre & post & -> & Hd & Hf & Hp & Hl).
      exists (a :: pre), post. repeat split; auto.
      intros [|b pre'] c post' Hc Es.
      * exfalso. exact (existing_id_here_None _ E c post' Hc Es).
      * injection Es as _ Es. cbn. apply le_n_S. exact (Hl pre' c post' Hc Es).
Qed.

(** X12 on a run: two places in one message; the first is read, in full. *)
Lemma X12_existing_id_is_first_full_run_witness :
  match_existing_id (js "Existing ID: 12345. Existing ID: 9") = VStr (js "12345")
  /\ exists pre post,
       js "Existing ID: 12345. Existing ID: 9"
       = pre ++ js "Existing ID: " ++ js "12345" ++ post
       /\ js "12345" <> [].
Proof.
  split; [reflexivity|].
  destruct (X12_existing_id_is_first_full_run
              (js "Existing ID: 12345. Existing ID: 9") (js "12345") eq_refl)
    as (pre & post & E & Hd & _).
  exists pre, post. split; assumption.
Defined.

(** X13: no identifier is read from a conflict message exactly when the
    message nowhere holds [Existing ID: ] followed by a digit; in
    particular the letters must match in case and the space after the
    colon must be there. *)
Theorem X13_no_existing_id_iff (s : jstring) :
  (match_existing_id s = VUndefined <->
   forall pre c post,
     is_digit c = true -> s <> pre ++ js "Existing ID: " ++ c :: post)
  /\ (match_existing_id s = VUndefined \/ exists d, match_existing_id s = VStr d)
  /\ match_existing_id (js "existing id: 123") = VUndefined
  /\ match_existing_id (js "Existing ID:123") = VUndefined
  /\ match_existing_id (js "Existing ID: ") = VUndefined.
Proof.
  split; [apply match_existing_id_none|]. split; [|repeat split].
  destruct (match_existing_id_cases s) as [H|(d & H & _)]; eauto.
Qed.

(** ** The name, taken apart and put together *)

Lemma name_parts_recompose (t : jstring) :
  ~ In 32 (before_first_space t)
  /\ (In 32 t -> t = before_first_space t ++ [32] ++ after_first_space t)
  /\ (~ In 32 t -> before_first_space t = t /\ after_first_space t = []).
Proof.
  induction t as [|c t (IH1 & IH2 & IH3)]; cbn [before_first_space after_first_space].
  - repeat split; auto. intros [].
  - destruct (c =? 32) eqn:E.
    + apply N.eqb_eq in E. subst c. split; [intros []|]. split; [reflexivity|].
      intros H. exfalso. apply H. now left.
    + apply N.eqb_neq in E. split; [|split].
      * intros [H|H]; [congruence|contradiction].
      * intros [H|H]; [congruence|]. cbn [app]. f_equal. exact (IH2 H).
      * intros H. destruct IH3 as [H1 H2]; [intros Hin; apply H; now right|].
        now rewrite H1, H2.
Qed.

(** X14: the name that is split is not lost.  For a contact-name string
    (in a form whose planning stages can be joined, so that it is read),
    the given name holds no space; when the trimmed name holds a space,
    given name, one space and family name make the trimmed name again;
    when it holds none, the given name is the trimmed name and the family
    name is empty. *)
Theorem X14_name_recomposes (fd : value) (s : jstring) :
  field (js "contactName") fd = VStr s ->
  join_phase (field (js "phase[]") fd) <> None ->
  exists given family,
    (exists f, read_form fd [] = (Returned f, [])
               /\ firstname f = VStr given /\ lastname f = VStr family)
    /\ ~ In 32 given
    /\ (In 32 (trim s) -> trim s = given ++ js " " ++ family)
    /\ (~ In 32 (trim s) -> given = trim s /\ family = []).
Proof.
  intros H Hp. destruct (read_form_named fd s H Hp) as (f & Hf & Hg & Hl).
  exists (before_first_space (trim s)), (after_first_space (trim s)).
  split; [eauto|]. apply name_parts_recompose.
Qed.

(** X14 on a run: a name of three words, with spaces around it. *)
Lemma X14_name_recomposes_witness :
  exists given family,
    (exists f,
        read_form (VObj [ (js "contactName", VStr (js "  Mary Ann Lee ")) ]) []
        = (Returned f, [])
        /\ firstname f = VStr given /\ lastname f = VStr family)
    /\ js "Mary Ann Lee" = given ++ js " " ++ family.
Proof.
  destruct (X14_name_recomposes
              (VObj [ (js "contactName", VStr (js "  Mary Ann Lee ")) ])
              (js "  Mary Ann Lee ") eq_refl)
    as (given & family & Hf & _ & Hr & _); [vm_compute; discriminate|].
  exists given, family. split; [exact Hf|].
  apply Hr. vm_compute. tauto.
Defined.

(** ** The delayed update of the second revision *)

(** X15: in the second revision, once the contact is created with an id
    that has a text, an answer to the custom-properties update that is not
    2xx does not fail the request: it is answered [200] with the created
    id (for a CRM whose ids have a text, so that the photo phase cannot
    fail either), and the custom properties are lost without a trace in
    the answer.  But when that update is rejected by the network the
    request is answered [500], although the contact was created. *)
Theorem X15_custom_update_outcome (key : option jstring) (w : World) (req : Request)
    (f : Fields) (r : Response) (data : value) (idText : jstring)
    (res2 : FetchResult) :
  req_method req = js "POST" ->
  Rev2.key_missing key = false ->
  read_form (req_body req) [] = (Returned f, []) ->
  (forall c, is_create c = true -> respond w [] c = Responded r) ->
  ok r = true ->
  json_body r = Some data ->
  data <> VNull -> data <> VUndefined ->
  let id := field (js "id") data in
  ToString id = Some idText ->
  respond w [ Fetched (create_call key (js "/crm/v3/objects/contacts")
                         (Rev2.contactPayload f)); Waited 2000 ]
    (update_call key idText (Rev2.customPayload f)) = res2 ->
  (forall r2, res2 = Responded r2 -> ok r2 = true \/ text_body r2 <> None ->
              ids_convert w ->
              fst (Rev2.handler key w req []) = Returned (success_reply id))
  /\ (res2 = Rejected ->
      fst (Rev2.handler key w req []) = Returned failure_reply).
Proof.
  intros Hm Hk Hf Hw Hok Hj Hn Hu id Hid H2.
  assert (Hc : forall o,
             Rev2.update_custom_properties key w id f
               [Fetched (create_call key (js "/crm/v3/objects/contacts")
                           (Rev2.contactPayload f))]
             = (o, [Fetched (create_call key (js "/crm/v3/objects/contacts")
                              (Rev2.contactPayload f)); Waited 2000;
                    Fetched (update_call key idText (Rev2.customPayload f))]) ->
             Rev2.create_or_update key w f []
             = (match o with Returned _ => Returned id | Thrown e => Thrown e end,
                [Fetched (create_call key (js "/crm/v3/objects/contacts")
                            (Rev2.contactPayload f)); Waited 2000;
                 Fetched (update_call key idText (Rev2.customPayload f))])).
  { intros o Ho. unfold Rev2.create_or_update. unfold bind at 1, fetch.
    rewrite (Hw _ (is_create_objects key _)), (ok_not_conflict r Hok), Hok.
    unfold bind at 1, json. rewrite Hj. unfold ret at 1. unfold bind at 1.
    rewrite (get_object data (js "id")) by assumption.
    unfold bind at 1. cbn [app]. fold id. rewrite Ho. now destruct o. }
  split.
  - intros r2 -> Hr2 Hids.
    assert (Ho : Rev2.update_custom_properties key w id f
                   [Fetched (create_call key (js "/crm/v3/objects/contacts")
                               (Rev2.contactPayload f))]
                 = (Returned tt,
                    [Fetched (create_call key (js "/crm/v3/objects/contacts")
                                (Rev2.contactPayload f)); Waited 2000;
                     Fetched (update_call key idText (Rev2.customPayload f))])).
    { unfold Rev2.update_custom_properties, bind, sleep, to_string, attempt.
      rewrite Hid. unfold ret at 1. unfold fetch. cbn [app].
      rewrite H2. destruct (ok r2) eqn:E2; [reflexivity|].
      destruct Hr2 as [|Ht]; [discriminate|].
      unfold text. destruct (text_body r2); [reflexivity|congruence]. }
    destruct (Rev2_after_contact_resolved key w req f id _ Hm Hk Hf (Hc _ Ho) Hids)
      as (tr2 & _ & Hh).
    now rewrite Hh.
  - intros ->.
    assert (Ho : Rev2.update_custom_properties key w id f
                   [Fetched (create_call key (js "/crm/v3/objects/contacts")
                               (Rev2.contactPayload f))]
                 = (Thrown TypeError,
                    [Fetched (create_call key (js "/crm/v3/objects/contacts")
                                (Rev2.contactPayload f)); Waited 2000;
                     Fetched (update_call key idText (Rev2.customPayload f))])).
    { unfold Rev2.update_custom_properties, bind, sleep, to_string, attempt.
      rewrite Hid. unfold ret at 1. unfold fetch. cbn [app].
      now rewrite H2. }
    now rewrite (Rev2_contact_failed key w req f _ _ Hm Hk Hf (Hc _ Ho)).
Qed.

(** X15 on a run: the custom-properties update answered [400]. *)
Lemma X15_custom_update_outcome_witness :
  fst (Rev2.handler token (scripted [created "501"; answer 400 (VObj [])])
         submission [])
  = Returned (success_reply (VStr (js "501"))).
Proof.
  destruct (fst (read_form (req_body submission) [])) as [f|e] eqn:Ef;
    [|vm_compute in Ef; discriminate].
  refine (proj1 (X15_custom_update_outcome token
                   (scripted [created "501"; answer 400 (VObj [])]) submission f
                   {| status := 201; statusText := []; text_body := Some [];
                      json_body := Some (VObj [ (js "id", VStr (js "501")) ]) |}
                   (VObj [ (js "id", VStr (js "501")) ]) (js "501")
                   (answer 400 (VObj []))
                   _ _ _ _ _ _ _ _ _ _) _ eq_refl _ _);
    try reflexivity; try discriminate.
  - rewrite read_form_pure, Ef. reflexivity.
  - right. discriminate.
  - apply scripted_ids_convert. repeat constructor; discriminate.
Defined.

(** With ids that have a text, the wait is always followed by the update. *)
Lemma Rev2_create_or_update_shape_plain (key : option jstring) (w : World)
    (f : Fields) (tr : list Event) :
  ids_convert w ->
  let create := Fetched (create_call key (js "/crm/v3/objects/contacts")
                           (Rev2.contactPayload f)) in
  exists o evs,
    Rev2.create_or_update key w f tr = (o, tr ++ evs)
    /\ (evs = [create]
        \/ (exists id, evs = [create; Fetched (update_call key id (Rev2.contactPayload f))])
        \/ (exists id,
              evs = [create; Waited 2000;
                     Fetched (update_call key id (Rev2.customPayload f))])
        \/ (exists id id',
              evs = [create; Fetched (update_call key id (Rev2.contactPayload f));
                     Waited 2000;
                     Fetched (update_call key id' (Rev2.customPayload f))])).
Proof.
  intros Hw create.
  assert (Hcustom : forall t c r u (k : list Event),
             respond w t c = Responded r -> json_body r = Some u ->
             exists o id,
               Rev2.update_custom_properties key w (field (js "id") u) f k
               = (o, k ++ [Waited 2000;
                           Fetched (update_call key id (Rev2.customPayload f))])).
  { intros t c r u k Hr Hj.
    destruct (update_custom_properties_run key w (field (js "id") u) f k) as (o & E).
    destruct (ToString (field (js "id") u)) as [id|] eqn:Ei;
      [eauto|exfalso; exact (Hw t c r u Hr Hj Ei)]. }
  unfold Rev2.create_or_update. unfold bind at 1. unfold fetch. fold create.
  destruct (respond w tr _) as [|r] eqn:Er; [solve [do 2 eexists; split; [reflexivity|auto]]|].
  destruct (status r =? 409).
  - unfold bind at 1. unfold json.
    destruct (json_body r) as [e|]; [|solve [do 2 eexists; split; [reflexivity|auto]]].
    unfold ret at 1. unfold bind at 1. unfold get.
    assert (Hthrow : forall x : exn,
               exists (o : Outcome value) evs,
                 (@Thrown value x, tr ++ [create]) = (o, tr ++ evs)
                 /\ (evs = [create]
                     \/ (exists id, evs = [create; Fetched (update_call key id (Rev2.contactPayload f))])
                     \/ (exists id,
                           evs = [create; Waited 2000;
                                  Fetched (update_call key id (Rev2.customPayload f))])
                     \/ (exists id id',
                           evs = [create; Fetched (update_call key id (Rev2.contactPayload f));
                                  Waited 2000;
                                  Fetched (update_call key id' (Rev2.customPayload f))])))
      by (intros x; solve [do 2 eexists; split; [reflexivity|auto]]).
    assert (Hmsg : forall m : value,
               exists (o : Outcome value) evs,
                 bind (call_match m)
                   (fun existingContactId =>
                      if truthy existingContactId
                      then
                        bind (to_string existingContactId)
                          (fun id =>
                             bind (fetch w (update_call key id (Rev2.contactPayload f)))
                               (fun updateResponse =>
                                  bind (json updateResponse)
                                    (fun updateData =>
                                       bind (get updateData (js "id"))
                                         (fun contactId =>
                                            bind (Rev2.update_custom_properties key w
                                                    contactId f)
                                              (fun _ => ret contactId)))))
                      else ret VUndefined) (tr ++ [create])
                 = (o, tr ++ evs)
                 /\ (evs = [create]
                     \/ (exists id, evs = [create; Fetched (update_call key id (Rev2.contactPayload f))])
                     \/ (exists id,
                           evs = [create; Waited 2000;
                                  Fetched (update_call key id (Rev2.customPayload f))])
                     \/ (exists id id',
                           evs = [create; Fetched (update_call key id (Rev2.contactPayload f));
                                  Waited 2000;
                                  Fetched (update_call key id' (Rev2.customPayload f))]))).
    { intros m. unfold bind at 1. unfold call_match.
      destruct m; try apply Hthrow. unfold ret at 1.
      destruct (truthy _); [|solve [do 2 eexists; split; [reflexivity|auto]]].
      unfold bind at 1. unfold to_string, attempt.
      destruct (ToString _) as [id|]; [|apply Hthrow]. unfold ret at 1.
      unfold bind at 1. unfold fetch.
      destruct (respond w (tr ++ [create]) _) as [|r2] eqn:Er2;
        [solve [do 2 eexists; split; [rewrite <- app_assoc; reflexivity|cbn [app]; eauto 8]]|].
      unfold bind at 1. unfold json.
      destruct (json_body r2) as [u|] eqn:Ej2;
        [|solve [do 2 eexists; split; [rewrite <- app_assoc; reflexivity|cbn [app]; eauto 8]]].
      unfold ret at 1. unfold bind at 1. unfold get.
      destruct (Hcustom _ _ r2 u
                  ((tr ++ [create])
                   ++ [Fetched (update_call key id (Rev2.contactPayload f))]) Er2 Ej2)
        as (o & id' & E).
      destruct u;
        try (solve [do 2 eexists; split; [rewrite <- app_assoc; reflexivity|cbn [app]; eauto 8]]; fail);
        unfold ret at 1; unfold bind at 1; rewrite E;
        (destruct o as [[]|x]; unfold ret;
         (do 2 eexists; split; [rewrite <- !app_assoc; reflexivity|];
          cbn [app]; right; right; right; eauto)). }
    destruct e; try apply Hthrow; unfold ret at 1; apply Hmsg.
  - destruct (ok r).
    + unfold bind at 1. unfold json.
      destruct (json_body r) as [u|] eqn:Ej;
        [|solve [do 2 eexists; split; [reflexivity|auto]]].
      unfold ret at 1. unfold bind at 1. unfold get.
      destruct (Hcustom _ _ r u (tr ++ [create]) Er Ej) as (o & id' & E).
      destruct u;
        try (solve [do 2 eexists; split; [reflexivity|auto]]; fail);
        unfold ret at 1; unfold bind at 1; rewrite E;
        (destruct o as [[]|x]; unfold ret;
         (do 2 eexists; split; [rewrite <- !app_assoc; reflexivity|];
          cbn [app]; right; right; left; eauto)).
    + unfold bind, text. destruct (text_body r); unfold ret, throw;
        do 2 eexists; (split; [reflexivity|auto]).
Qed.

(** X16: the contact phase of the second revision sends the create call
    first and at most three calls.  It waits 2000 ms at most once, right
    before the update that carries the custom properties; that update
    follows the wait unless the id cannot be converted for its URL, and
    always follows it for a CRM whose ids have a text. *)
Theorem X16_delayed_update_shape (key : option jstring) (w : World) (f : Fields)
    (tr : list Event) :
  let create := Fetched (create_call key (js "/crm/v3/objects/contacts")
                           (Rev2.contactPayload f)) in
  let waits_before_update (evs : list Event) :=
    evs = [create]
    \/ (exists id, evs = [create; Fetched (update_call key id (Rev2.contactPayload f))])
    \/ (exists id,
          evs = [create; Waited 2000;
                 Fetched (update_call key id (Rev2.customPayload f))])
    \/ (exists id id',
          evs = [create; Fetched (update_call key id (Rev2.contactPayload f));
                 Waited 2000;
                 Fetched (update_call key id' (Rev2.customPayload f))]) in
  exists o evs,
    Rev2.create_or_update key w f tr = (o, tr ++ evs)
    /\ (waits_before_update evs
        \/ ((exists e, o = Thrown e)
            /\ (evs = [create; Waited 2000]
                \/ exists id,
                     evs = [create; Fetched (update_call key id (Rev2.contactPayload f));
                            Waited 2000])))
    /\ (ids_convert w -> waits_before_update evs).
Proof.
  cbv zeta.
  destruct (Rev2_create_or_update_shape key w f tr) as (o & evs & E & Hs).
  exists o, evs. split; [exact E|]. split.
  - destruct Hs as [H|[H|[H|[H|H]]]]; auto 6.
  - intros Hw.
    destruct (Rev2_create_or_update_shape_plain key w f tr Hw) as (o' & evs' & E' & Hs').
    rewrite E in E'. injection E' as _ E'. apply app_inv_head in E'. subst evs'.
    exact Hs'.
Qed.

(** X16 on a run: a new contact in a CRM whose ids are strings. *)
Lemma X16_delayed_update_shape_witness :
  let w := scripted [created "501"; answer 200 (VObj [])] in
  let f := form_fields in
  let create := Fetched (create_call token (js "/crm/v3/objects/contacts")
                           (Rev2.contactPayload f)) in
  ids_convert w
  /\ exists o evs,
       Rev2.create_or_update token w f [] = (o, [] ++ evs)
       /\ (evs = [create]
           \/ (exists id,
                 evs = [create; Fetched (update_call token id (Rev2.contactPayload f))])
           \/ (exists id,
                 evs = [create; Waited 2000;
                        Fetched (update_call token id (Rev2.customPayload f))])
           \/ (exists id id',
                 evs = [create; Fetched (update_call token id (Rev2.contactPayload f));
                        Waited 2000;
                        Fetched (update_call token id' (Rev2.customPayload f))])).
Proof.
  intros w f create.
  assert (Hw : ids_convert w)
    by (apply scripted_ids_convert; repeat constructor; discriminate).
  split; [exact Hw|].
  destruct (X16_delayed_update_shape token w f []) as (o & evs & E & _ & H).
  exists o, evs. split; [exact E|exact (H Hw)].
Defined.

(** ** A successful upload *)

(** X17: [uploadFileToHubSpot] gives a usable file id only when the photo is
    a string with a comma, the upload call was sent and answered 2xx, and
    the id is the [id] of the JSON answer: it never makes an id up. *)
Theorem X17_upload_id_comes_from_answer (key : option jstring) (w : World)
    (fileData : value) (fileName : jstring) (tr tr' : list Event) (v : value) :
  uploadFileToHubSpot key w fileData fileName tr = (Returned v, tr') ->
  truthy v = true ->
  exists s base64Data r data,
    fileData = VStr s
    /\ index (split 44 s) 1 = VStr base64Data
    /\ respond w (tr ++ [RandomDrawn])
         (upload_call key (js "----WebKitFormBoundary" ++ random36 w tr) fileName
            (Buffer.from_base64 base64Data)) = Responded r
    /\ ok r = true
    /\ json_body r = Some data
    /\ v = field (js "id") data.
Proof.
  unfold uploadFileToHubSpot, try_catch, bind, Math_random_36, fetch.
  destruct fileData as [| | | |s| | |];
    try (unfold throw, ret; intros [= <- _]; discriminate).
  unfold ret at 1. destruct (index (split 44 s) 1) as [| | | |b| | |] eqn:Ei;
    try (unfold throw, ret; intros [= <- _]; discriminate).
  unfold ret at 1.
  destruct (respond w (tr ++ [RandomDrawn]) _) as [|r] eqn:Er;
    [unfold ret; intros [= <- _]; discriminate|].
  destruct (ok r) eqn:Eo; cbn [negb].
  - unfold json. destruct (json_body r) as [data|] eqn:Ej;
      [|unfold throw, ret; intros [= <- _]; discriminate].
    unfold ret at 1, get.
    destruct data; unfold throw, ret; intros [= <- _] Ht; try discriminate;
      exists s, b, r; eexists; repeat split; eauto.
  - unfold text. destruct (text_body r); unfold throw, ret;
      intros [= <- _]; discriminate.
Qed.

(** X17 on a run: a photo whose upload is answered [201] with id [9001]. *)
Lemma X17_upload_id_comes_from_answer_witness :
  exists s base64Data r data,
    VStr (js "data:image/jpeg;base64,/9j/4AAQ") = VStr s
    /\ index (split 44 s) 1 = VStr base64Data
    /\ respond (scripted [created "9001"]) ([] ++ [RandomDrawn])
         (upload_call token
            (js "----WebKitFormBoundary" ++ random36 (scripted [created "9001"]) [])
            (photo_file_name 1762128000000 0)
            (Buffer.from_base64 base64Data)) = Responded r
    /\ ok r = true
    /\ json_body r = Some data
    /\ VStr (js "9001") = field (js "id") data.
Proof.
  apply (X17_upload_id_comes_from_answer token (scripted [created "9001"])
           (VStr (js "data:image/jpeg;base64,/9j/4AAQ"))
           (photo_file_name 1762128000000 0) []
           [RandomDrawn;
            Fetched (upload_call token
                       (js "----WebKitFormBoundary" ++ js "0.4fzyo82mvyr")
                       (photo_file_name 1762128000000 0)
                       (Buffer.from_base64 (js "/9j/4AAQ")))]
           (VStr (js "9001"))); reflexivity.
Defined.

(** ** The fields that are not defaulted *)

Lemma has_key_all_undefined (g : value -> value) (k : jstring)
    (props : list (jstring * value)) :
  (forall k' v, In (k', v) props -> jstring_eqb k k' = true -> v = VUndefined) ->
  has_key k (keep_defined g props) = false.
Proof.
  induction props as [|[k' v] props IH]; intros H; cbn [keep_defined has_key];
    [reflexivity|].
  assert (IH' : has_key k (keep_defined g props) = false).
  { apply IH. intros k0 v0 Hin. apply H. now right. }
  destruct (jstring_eqb k k') eqn:E.
  - rewrite (H k' v (or_introl eq_refl) E). exact IH'.
  - destruct v; cbn [has_key]; rewrite ?E; exact IH'.
Qed.

Lemma property_dropped (c : Call) (props : list (jstring * value)) (k : jstring) :
  body c = JsonBody (JSON_stringify (VObj [ (js "properties", VObj props) ])) ->
  (forall k' v, In (k', v) props -> jstring_eqb k k' = true -> v = VUndefined) ->
  property k c = None.
Proof.
  intros Hb Hk. unfold property. rewrite Hb.
  cbn [JSON_stringify keep_defined field lookup].
  rewrite jstring_eqb_refl.
  now rewrite has_key_all_undefined.
Qed.

Lemma basic_field_sent (fd : value) (f : Fields) (c : Call) (fk pk : jstring) :
  read_form fd [] = (Returned f, []) ->
  body c = JsonBody (JSON_stringify
                       (VObj [ (js "properties",
                                VObj (basicProperties f ++ customProperties f)) ])) ->
  In (fk, pk) [ (js "email", js "email"); (js "phone", js "phone");
                (js "serviceName", js "company"); (js "position", js "jobtitle") ] ->
  property pk c = match field fk fd with
                  | VUndefined => None
                  | _ => Some (JSON_stringify (field fk fd))
                  end.
Proof.
  intros Hf Hb Hin.
  assert (Hfields : email f = field (js "email") fd
                    /\ phone f = field (js "phone") fd
                    /\ company f = field (js "serviceName") fd
                    /\ jobtitle f = field (js "position") fd).
  { apply read_form_returned in Hf as (_ & s & stage & _ & _ & ->). repeat split. }
  destruct Hfields as (He & Hp & Hc & Hj).
  assert (Hcase : forall v,
             lookup pk (basicProperties f ++ customProperties f) = v ->
             (forall k' v',
                 In (k', v') (basicProperties f ++ customProperties f) ->
                 jstring_eqb pk k' = true -> v' = v) ->
             property pk c = match v with
                             | VUndefined => None
                             | _ => Some (JSON_stringify v)
                             end).
  { intros v Hl Hu.
    assert (Hd : v = VUndefined \/ v <> VUndefined)
      by (destruct v; auto; right; discriminate).
    destruct Hd as [->|Hd].
    - apply (property_dropped c _ pk Hb). exact Hu.
    - rewrite (property_present c _ pk Hb); rewrite Hl; [|exact Hd].
      now destruct v. }
  cbn [In] in Hin.
  repeat (destruct Hin as [Hin|Hin];
          [ injection Hin as <- <-; rewrite <- ?He, <- ?Hp, <- ?Hc, <- ?Hj;
            apply Hcase; [reflexivity|];
            intros k' v' Hi Hk;
            cbn [In basicProperties customProperties app] in Hi;
            repeat (destruct Hi as [Hi|Hi];
                    [ injection Hi as <- <-;
                      first [ reflexivity | vm_compute in Hk; discriminate ] | ]);
            destruct Hi | ]).
  destruct Hin.
Qed.

(** X18: the email, the phone, the organisation and the job title are sent
    as they come in every contact payload of the first and third
    revisions, and, unlike the optional enumerated fields, a field the
    submission does not have is left out of the payload: no default is
    sent for it and no check refuses the submission. *)
Theorem X18_basic_fields_sent_as_given (key : option jstring) (w : World)
    (req : Request) (c : Call) (fk pk : jstring) :
  In (fk, pk) [ (js "email", js "email"); (js "phone", js "phone");
                (js "serviceName", js "company"); (js "position", js "jobtitle") ] ->
  is_contact_call c = true ->
  In c (calls (snd (Rev1.handler key w req [])))
  \/ In c (calls (snd (Rev3.handler key w req []))) ->
  property pk c = match field fk (req_body req) with
                  | VUndefined => None
                  | _ => Some (JSON_stringify (field fk (req_body req)))
                  end.
Proof.
  intros Hk Hc Hin.
  assert (H : exists f, read_form (req_body req) [] = (Returned f, []) /\
              body c = JsonBody (JSON_stringify
                         (VObj [ (js "properties",
                                  VObj (basicProperties f ++ customProperties f)) ]))).
  { destruct Hin as [Hin|Hin];
      [now apply (Rev1_contact_call key w)|now apply (Rev3_contact_call key w)]. }
  destruct H as (f & Hf & Hb).
  exact (basic_field_sent _ f c fk pk Hf Hb Hk).
Qed.

(** X18 on a run: a submission without a phone number. *)
Lemma X18_basic_fields_sent_as_given_witness :
  let out := Rev1.handler token (scripted [created "501"]) bare_submission [] in
  exists c, calls (snd out) = [c]
            /\ property (js "phone") c = None
            /\ property (js "email") c = Some (VStr (js "john@school.edu")).
Proof.
  intros out.
  destruct (calls (snd out)) as [|c [|]] eqn:E; try (vm_compute in E; discriminate).
  exists c. split; [reflexivity|].
  assert (Hc : is_contact_call c = true)
    by (vm_compute in E; injection E as <-; reflexivity).
  assert (Hin : In c (calls (snd (Rev1.handler token (scripted [created "501"])
                                    bare_submission [])))
                \/ In c (calls (snd (Rev3.handler token (scripted [created "501"])
                                       bare_submission []))))
    by (left; fold out; rewrite E; now left).
  split.
  - rewrite (X18_basic_fields_sent_as_given token (scripted [created "501"])
               bare_submission c (js "phone") (js "phone")); auto.
    cbn. tauto.
  - rewrite (X18_basic_fields_sent_as_given token (scripted [created "501"])
               bare_submission c (js "email") (js "email")); auto.
    cbn. tauto.
Defined.

(** X19: every contact payload of the first and third revisions and of the
    Astro route, create or update, marks the contact with
    [wearthy_discovery_call_requested = 'true'] and carries the free-text
    notes as [message]; the create call of the second revision carries
    neither. *)
Theorem X19_request_flag (key : option jstring) (w : World) (req : Request)
    (fd : Astro.FormData) (c : Call) :
  is_contact_call c = true ->
  (In c (calls (snd (Rev1.handler key w req [])))
   \/ In c (calls (snd (Rev3.handler key w req [])))
   \/ In c (calls (snd (Astro.POST key w (Some fd) []))) ->
   property (js "wearthy_discovery_call_requested") c = Some (VStr (js "true"))
   /\ exists notes, property (js "message") c = Some notes)
  /\ (In c (calls (snd (Rev2.handler key w req []))) ->
      is_create c = true ->
      property (js "wearthy_discovery_call_requested") c = None
      /\ property (js "message") c = None).
Proof.
  intros Hc. split.
  - intros Hin.
    assert (H : exists f,
               body c = JsonBody (JSON_stringify
                          (VObj [ (js "properties",
                                   VObj (basicProperties f ++ customProperties f)) ]))).
    { destruct Hin as [Hin|[Hin|Hin]].
      - destruct (Rev1_contact_call key w req c Hin Hc) as (f & _ & Hb). eauto.
      - destruct (Rev3_contact_call key w req c Hin) as (f & _ & Hb). eauto.
      - destruct (Astro_contact_call key w fd c Hin) as (f & _ & Hb). eauto. }
    destruct H as (f & Hb). split.
    + rewrite (property_present c _ (js "wearthy_discovery_call_requested") Hb);
        [reflexivity|discriminate].
    + eexists. apply (property_present c _ (js "message") Hb).
      apply or_else_defined.
  - intros Hin Hcr. destruct (Rev2_calls key w req c Hin) as (f & _ & H).
    destruct H as [->|[[id ->]|[[id ->]|[H|(cid & ids & ->)]]]];
      try discriminate.
    + split; apply (property_absent _ (basicProperties f)); reflexivity.
    + apply upload_not_contact in H. congruence.
Qed.

(** X19 on a run: the update of an existing contact carries the mark. *)
Lemma X19_request_flag_witness :
  let out := Rev1.handler token
               (scripted [conflict "Existing ID: 7"; created "7"]) submission [] in
  Forall (fun c => property (js "wearthy_discovery_call_requested") c
                   = Some (VStr (js "true")))
    (calls (snd out))
  /\ List.length (calls (snd out)) = 2%nat.
Proof.
  intros out. split; [|reflexivity]. apply Forall_forall. intros c Hin.
  apply (X19_request_flag token (scripted [conflict "Existing ID: 7"; created "7"])
           submission [] c).
  - fold out in Hin. vm_compute in Hin.
    destruct Hin as [<-|[<-|[]]]; reflexivity.
  - left. exact Hin.
Defined.

(** ** Photos that are not a list *)

(** X20: the photo phase runs on a non-empty array only.  When [photos] is
    absent, an empty array, or anything else (one data URL sent as a plain
    string, say), the two revisions that upload photos send no upload and
    no note, and answer [200] as soon as the contact is written. *)
Theorem X20_photos_must_be_an_array (key : option jstring) (w : World)
    (req : Request) (f : Fields) (cid : value) (tr1 : list Event) :
  req_method req = js "POST" ->
  read_form (req_body req) [] = (Returned f, []) ->
  (forall ps, field (js "photos") (req_body req) = VArr ps -> ps = []) ->
  (create_or_update key w (contactPayload f) [] = (Returned cid, tr1) ->
   Rev1.handler key w req [] = (Returned (success_reply cid), tr1))
  /\ (Rev2.key_missing key = false ->
      Rev2.create_or_update key w f [] = (Returned cid, tr1) ->
      Rev2.handler key w req [] = (Returned (success_reply cid), tr1)).
Proof.
  intros Hm Hf Hp.
  assert (Hskip : forall verbose tr,
             handle_photos key w verbose (req_body req) cid tr = (Returned tt, tr)).
  { intros verbose tr. unfold handle_photos, bind, get.
    destruct (req_body req) eqn:Eb;
      try (rewrite ?Eb in Hf; discriminate Hf); unfold ret at 1;
      (destruct (field (js "photos") _) eqn:Ep; try reflexivity;
       match goal with
       | E : field _ _ = VArr ?ps |- _ => rewrite (Hp ps eq_refl)
       end; reflexivity). }
  split.
  - intros Hc. destruct (Rev1_after_contact key w req f cid tr1 Hm Hf Hc)
      as (tr2 & Hh & Hr).
    rewrite Hskip in Hh. injection Hh as <-. exact Hr.
  - intros Hk Hc. unfold Rev2.handler. rewrite (method_check req Hm), Hk.
    unfold try_catch, bind. now rewrite Hf, Hc, Hskip.
Qed.

(** X20 on a run: one photo sent as a string, not as an array. *)
Lemma X20_photos_must_be_an_array_witness :
  let req := {| req_method := js "POST";
                req_body := VObj (form ++ [ (js "photos",
                                             VStr (js "data:image/jpeg;base64,/9j/4AAQ")) ]) |} in
  let out := Rev1.handler token (scripted [created "501"; created "9001"]) req [] in
  fst out = Returned (success_reply (VStr (js "501")))
  /\ List.length (calls (snd out)) = 1%nat.
Proof.
  intros req out.
  destruct (fst (read_form (req_body req) [])) as [f|e] eqn:Ef;
    [|vm_compute in Ef; discriminate].
  destruct (create_or_update token (scripted [created "501"; created "9001"])
              (contactPayload f) []) as [[cid|e] tr1] eqn:Ec;
    [|exfalso; vm_compute in Ef; injection Ef as <-; vm_compute in Ec; discriminate].
  destruct (X20_photos_must_be_an_array token
              (scripted [created "501"; created "9001"]) req f cid tr1) as (H & _).
  - reflexivity.
  - rewrite read_form_pure, Ef. reflexivity.
  - intros ps Hps. vm_compute in Hps. discriminate.
  - unfold out. rewrite (H Ec). cbn [fst snd].
    vm_compute in Ef. injection Ef as <-. vm_compute in Ec. injection Ec as <- <-.
    split; reflexivity.
Defined.
